(** * Infoblox REST client: a shallow embedding of [infoblox/infoblox.py]

    The client is a sequence of HTTP call / response-shape handlers.  The
    embedding keeps the shape of the Python source:

    - JSON documents are an inductive type [json]; a Python [dict] is an
      association list in iteration order, and the dynamic operations the
      source applies to parsed bodies ([len], [x[0]], [x['k']], ['k' in x],
      truthiness) are functions that raise the Python exception the
      interpreter would raise on a value of the wrong shape.  JSON numbers
      are integers here.
    - The appliance is a function [server] from the requests issued so far
      and the next request to a reply; every operation runs in a
      state-and-exception monad whose state is the list of requests issued.
    - [Session.request] is modelled with its [raise_for_status] call.
    - The regular expressions of the source are run by a small backtracking
      matcher for the fragment they use.
    - [json.dumps] and [str] belong to the Python library: they are the
      section variables [json_encode] and [py_str].

    The file gives the definitions first (values, patterns, the monad,
    sample data, the operations, the vocabulary of the properties), then
    the properties, and last the runs on concrete replies. *)

From Stdlib Require Import String Ascii List ZArith Bool Lia DecimalString.
Import ListNotations.
Open Scope string_scope.
Open Scope Z_scope.

Set Warnings "-register-all".

(** ** JSON values and the dynamic operations applied to them *)

Inductive json : Type :=
| JNull
| JBool (b : bool)
| JNum (n : Z)
| JStr (s : string)
| JArr (l : list json)
| JObj (kv : list (string * json)).

(** A [requests.Response]: the status code and the parsed body, [None]
    when the content is not JSON (then [r.json()] raises [ValueError]). *)
Record Response : Type := mkResponse {
  status_code : Z;
  body : option json
}.

(** Argument carried by an exception: a Python value or, for
    [raise InfobloxGeneralException(r)], the response object. *)
Inductive payload : Type :=
| PVal (v : json)
| PResp (r : Response).

Definition PMsg (s : string) : payload := PVal (JStr s).

Inductive exn : Type :=
| InfobloxNotFoundException (a : payload)
| InfobloxNotUpdatedException (a : payload)
| InfobloxNoIPavailableException (a : payload)
| InfobloxNoNetworkAvailableException (a : payload)
| InfobloxGeneralException (a : payload)
| InfobloxBadInputParameter (a : payload)
| HTTPError (status : Z)
| ConnectionError
| ValueError
| KeyError (k : json)
| IndexError
| TypeError
| AttributeError.

Inductive result (A : Type) : Type :=
| Ok (a : A)
| Raise (e : exn).
Arguments Ok {A} a.
Arguments Raise {A} e.

Fixpoint assoc (k : string) (kv : list (string * json)) : option json :=
  match kv with
  | [] => None
  | (k', v) :: rest => if String.eqb k k' then Some v else assoc k rest
  end.

Definition has_key (k : string) (kv : list (string * json)) : bool :=
  match assoc k kv with Some _ => true | None => false end.

(** [d[k] = v] on a dict: replace in place or append. *)
Fixpoint dict_set (k : string) (v : json) (kv : list (string * json))
  : list (string * json) :=
  match kv with
  | [] => [(k, v)]
  | (k', v') :: rest =>
      if String.eqb k k' then (k, v) :: rest else (k', v') :: dict_set k v rest
  end.

(** [del d[k]] for a key that is present. *)
Fixpoint dict_del (k : string) (kv : list (string * json))
  : list (string * json) :=
  match kv with
  | [] => []
  | (k', v') :: rest =>
      if String.eqb k k' then rest else (k', v') :: dict_del k rest
  end.

Definition json_eq_str (v : json) (s : string) : bool :=
  match v with
  | JStr t => String.eqb t s
  | _ => false
  end.

Fixpoint is_prefix (p s : string) : bool :=
  match p, s with
  | EmptyString, _ => true
  | String a p', String b s' => Ascii.eqb a b && is_prefix p' s'
  | String _ _, EmptyString => false
  end.

Fixpoint is_substring (p s : string) : bool :=
  is_prefix p s ||
  match s with
  | EmptyString => false
  | String _ s' => is_substring p s'
  end.

(** [len(v)] *)
Definition py_len (v : json) : result nat :=
  match v with
  | JArr l => Ok (List.length l)
  | JObj kv => Ok (List.length kv)
  | JStr s => Ok (String.length s)
  | _ => Raise TypeError
  end.

(** [v[0]] *)
Definition py_item0 (v : json) : result json :=
  match v with
  | JArr (x :: _) => Ok x
  | JArr [] => Raise IndexError
  | JObj _ => Raise (KeyError (JNum 0))
  | JStr (String c _) => Ok (JStr (String c EmptyString))
  | JStr EmptyString => Raise IndexError
  | _ => Raise TypeError
  end.

(** [v[k]] for a string key [k] *)
Definition py_getitem (v : json) (k : string) : result json :=
  match v with
  | JObj kv =>
      match assoc k kv with
      | Some x => Ok x
      | None => Raise (KeyError (JStr k))
      end
  | _ => Raise TypeError
  end.

(** [k in v] for a string [k] *)
Definition py_in (k : string) (v : json) : result bool :=
  match v with
  | JObj kv => Ok (has_key k kv)
  | JArr l => Ok (existsb (fun x => json_eq_str x k) l)
  | JStr s => Ok (is_substring k s)
  | _ => Raise TypeError
  end.

(** Truth value of a Python object. *)
Definition truthy (v : json) : bool :=
  match v with
  | JNull => false
  | JBool b => b
  | JNum n => negb (n =? 0)
  | JStr s => negb (String.eqb s EmptyString)
  | JArr l => match l with [] => false | _ => true end
  | JObj kv => match kv with [] => false | _ => true end
  end.

(** [prefix + v] where [prefix] is a string literal. *)
Definition py_concat (prefix : string) (v : json) : result string :=
  match v with
  | JStr s => Ok (prefix ++ s)
  | _ => Raise TypeError
  end.

(** ** Regular expressions of the source

    The patterns used are sequences of literal characters, greedy
    one-or-more repetitions of a character class, one capturing group
    around such a repetition, and a final [$].  [re.match] anchors at the
    start only; [$] matches at the end of the string or just before a
    final newline. *)

Inductive atom : Type :=
| ALit (c : ascii)
| APlus (cls : ascii -> bool)
| AGroupPlus (cls : ascii -> bool)
| AEnd.

(** Greedy [cls+] with backtracking: one character of the class, then as
    many more as lead to a match of the continuation [k], which receives
    the consumed characters (in reverse) and the rest. *)
Fixpoint greedy_plus {R : Type} (cls : ascii -> bool)
    (k : string -> string -> option R) (acc : string) (s : string)
  : option R :=
  match s with
  | EmptyString => None
  | String c s' =>
      if cls c then
        match greedy_plus cls k (String c acc) s' with
        | Some r => Some r
        | None => k (String c acc) s'
        end
      else None
  end.

Fixpoint string_rev_append (a b : string) : string :=
  match a with
  | EmptyString => b
  | String c a' => string_rev_append a' (String c b)
  end.

Definition newline : ascii := ascii_of_nat 10.
(** The double quote, for the JSON texts the source builds by hand. *)
Definition dq : string := String (ascii_of_nat 34) EmptyString.

(** Result of a match: the text of group 1, when the pattern has one. *)
Fixpoint re_run (pat : list atom) (grp : option string) (s : string)
  : option (option string) :=
  match pat with
  | [] => Some grp
  | ALit c :: pat' =>
      match s with
      | String c' s' => if Ascii.eqb c c' then re_run pat' grp s' else None
      | EmptyString => None
      end
  | APlus cls :: pat' =>
      greedy_plus cls (fun _ rest => re_run pat' grp rest) EmptyString s
  | AGroupPlus cls :: pat' =>
      greedy_plus cls
        (fun got rest => re_run pat' (Some (string_rev_append got EmptyString)) rest)
        EmptyString s
  | AEnd :: pat' =>
      match s with
      | EmptyString => re_run pat' grp s
      | String c EmptyString =>
          if Ascii.eqb c newline then re_run pat' grp s else None
      | _ => None
      end
  end.

Definition re_match (pat : list atom) (s : string) : option (option string) :=
  re_run pat None s.

Fixpoint lits (s : string) : list atom :=
  match s with
  | EmptyString => []
  | String c s' => ALit c :: lits s'
  end.

Definition is_digit (c : ascii) : bool :=
  let n := nat_of_ascii c in (48 <=? n)%nat && (n <=? 57)%nat.
Definition not_char (x : ascii) (c : ascii) : bool := negb (Ascii.eqb c x).

Definition digits : atom := APlus is_digit.
Definition dot : atom := ALit ".".

(** [[0-9]+\.[0-9]+\.[0-9]+\.[0-9]+] *)
Definition quad : list atom := [digits; dot; digits; dot; digits; dot; digits].

(** ["^[0-9]+\.[0-9]+\.[0-9]+\.[0-9]+\/[0-9]+$"] *)
Definition re_cidr : list atom := quad ++ [ALit "/"; digits; AEnd].
(** ["^[0-9]+\.[0-9]+\.[0-9]+\.[0-9]+-[0-9]+\.[0-9]+\.[0-9]+\.[0-9]+$"] *)
Definition re_range : list atom := quad ++ [ALit "-"] ++ quad ++ [AEnd].
(** ["^[0-9]+\.[0-9]+\.[0-9]+\.[0-9]+$"] *)
Definition re_static : list atom := quad ++ [AEnd].

(** ["<kind>\/[^:]+:([^\/]+)\/"], with [kind] one of [record:host],
    [record:txt], [record:cname], [record:a]. *)
Definition re_ref (kind : string) : list atom :=
  lits kind ++ [ALit "/"; APlus (not_char ":"); ALit ":";
                AGroupPlus (not_char "/"); ALit "/"].

Definition matches (pat : list atom) (s : string) : bool :=
  match re_match pat s with Some _ => true | None => false end.

(** The three address forms in words, to compare the patterns with. *)

Fixpoint all_in (cls : ascii -> bool) (s : string) : bool :=
  match s with
  | EmptyString => true
  | String c s' => cls c && all_in cls s'
  end.

(** A non-empty run of decimal digits. *)
Definition number (s : string) : Prop :=
  s <> EmptyString /\ all_in is_digit s = true.

(** [a.b.c.d] *)
Definition dotted_quad (s : string) : Prop :=
  exists a b c d,
    number a /\ number b /\ number c /\ number d /\
    s = a ++ "." ++ b ++ "." ++ c ++ "." ++ d.

(** [a.b.c.d/n] *)
Definition cidr_form (s : string) : Prop :=
  exists q n, dotted_quad q /\ number n /\ s = q ++ "/" ++ n.

(** [a.b.c.d-e.f.g.h] *)
Definition range_form (s : string) : Prop :=
  exists q1 q2, dotted_quad q1 /\ dotted_quad q2 /\ s = q1 ++ "-" ++ q2.

(** The form itself, or the form followed by one newline. *)
Definition or_newline (form : string -> Prop) (s : string) : Prop :=
  form s \/ exists t, form t /\ s = t ++ String newline EmptyString.

(** Some match of [pat] starts at the beginning of [s]. *)
Definition accepted (pat : list atom) (s : string) : Prop :=
  re_run pat None s <> None.

(** ** Splitting a filter string *)

(** [s.split(sep)] for a one-character separator: the pieces between the
    separators, empty pieces included; never the empty list. *)
Fixpoint split_on (sep : ascii) (s : string) : list string :=
  match s with
  | EmptyString => [EmptyString]
  | String c s' =>
      if Ascii.eqb c sep then EmptyString :: split_on sep s'
      else match split_on sep s' with
           | piece :: rest => String c piece :: rest
           | [] => [String c EmptyString]
           end
  end.

(** ** Requests, the appliance and the monad of the client *)

Inductive Method : Type := GET | POST | PUT | DELETE.

(** One call on the session: method, URL, the [params] dictionary and the
    [data] argument (already a string, or a dictionary sent as a form). *)
Inductive req_data : Type :=
| NoData
| TextData (s : string)
| FormData (kv : list (string * json)).

Record Request : Type := mkRequest {
  method : Method;
  url : string;
  params : list (string * json);
  data : req_data
}.

(** What the network gives back: a response, or a failure of the
    connection (an exception of [requests] that is not a [ValueError]). *)
Inductive Reply : Type :=
| Replied (r : Response)
| Failed.

Definition is_mutation (rq : Request) : bool :=
  match method rq with
  | PUT | DELETE => true
  | _ => false
  end.

(** State of a run: the requests issued so far, oldest first. *)
Definition M (A : Type) : Type := list Request -> result A * list Request.

Definition ret {A} (a : A) : M A := fun log => (Ok a, log).
Definition raise {A} (e : exn) : M A := fun log => (Raise e, log).
Definition bind {A B} (m : M A) (k : A -> M B) : M B :=
  fun log =>
    match m log with
    | (Ok a, log') => k a log'
    | (Raise e, log') => (Raise e, log')
    end.
Definition lift {A} (x : result A) : M A := fun log => (x, log).

Notation "x <- m ;; k" := (bind m (fun x => k))
  (at level 61, m at next level, right associativity).
Notation "m ;;; k" := (bind m (fun _ => k))
  (at level 61, right associativity).

(** [try: m  except ValueError: raise InfobloxGeneralException(r)] *)
Definition except_ValueError {A} (r : Response) (m : M A) : M A :=
  fun log =>
    match m log with
    | (Raise ValueError, log') =>
        (Raise (InfobloxGeneralException (PResp r)), log')
    | other => other
    end.

(** [r.json()] *)
Definition json_of (r : Response) : result json :=
  match body r with
  | Some j => Ok j
  | None => Raise ValueError
  end.

(** [r.raise_for_status()] *)
Definition raise_for_status (r : Response) : result unit :=
  if (400 <=? status_code r) && (status_code r <? 600)
  then Raise (HTTPError (status_code r))
  else Ok tt.

(** The constructor arguments kept by [Infoblox.__init__]. *)
Record Infoblox : Type := mkInfoblox {
  iba_host : string;
  iba_user : string;
  iba_password : string;
  iba_wapi_version : string;
  iba_dns_view : string;
  iba_network_view : string;
  iba_verify_ssl : bool
}.

(** The [fields] argument: a string or a list of names. *)
Inductive fields_arg : Type :=
| FStr (s : string)
| FList (l : list string).

Fixpoint join (sep : string) (l : list string) : string :=
  match l with
  | [] => EmptyString
  | [x] => x
  | x :: rest => x ++ sep ++ join sep rest
  end.

(** ** Sample appliance and data

    An appliance that answers the first request of a run with [lookup] and
    every later one with [later], a JSON encoder without escaping, a client
    configuration and the records used in the concrete runs at the end. *)
Module Scenario.

Fixpoint json_dumps (v : json) : string :=
  match v with
  | JNull => "null"
  | JBool true => "true"
  | JBool false => "false"
  | JNum n => NilZero.string_of_int (Z.to_int n)
  | JStr s => dq ++ s ++ dq
  | JArr l => "[" ++ join ", " (map json_dumps l) ++ "]"
  | JObj kv =>
      "{" ++ join ", "
               (map (fun p => dq ++ fst p ++ dq ++ ": " ++ json_dumps (snd p))
                    kv) ++ "}"
  end.

Definition py_repr (v : json) : string :=
  match v with
  | JNull => "None"
  | _ => json_dumps v
  end.

Definition appliance (lookup : Response) (later : Reply)
  : list Request -> Request -> Reply :=
  fun log _ =>
    match log with
    | [] => Replied lookup
    | _ :: _ => later
    end.

Definition ipam : Infoblox :=
  mkInfoblox "ipam.example.com" "admin" "secret" "2.5" "default" "default"
             false.

Definition ok_list (l : list json) : Response := mkResponse 200 (Some (JArr l)).


Definition host_b : json :=
  JObj [("_ref", JStr "record:host/ZG5zLmhvc3QkLl9kZWZhdWx0:b.example.com/default");
        ("name", JStr "b.example.com");
        ("aliases", JArr [JStr "www.example.com"])].

Definition host_b_ref : string :=
  "record:host/ZG5zLmhvc3QkLl9kZWZhdWx0:b.example.com/default".

Definition other_network_ref : string :=
  "network/ZG5zLm5ldHdvcmskMTAuMC4xLjAvMjQvMA:10.0.1.0/24/default".


Definition down : Reply := Failed.
Definition done : Reply := Replied (mkResponse 200 None).

(** An object with two extensible attributes. *)
Definition site_attrs : list (string * json) :=
  [("Site", JObj [("value", JStr "Lab")]);
   ("Owner", JObj [("value", JStr "ops")])].

Definition with_attrs : list (string * json) :=
  [("_ref", JStr other_network_ref); ("extattrs", JObj site_attrs)].

(** The body the appliance sends when a pool is exhausted. *)
Definition exhausted : json :=
  JObj [("Error", JStr "AdmConDataError: None (IBDataError: IB.Data:Cannot find 1 available IP address(es) in this network.)");
        ("code", JStr "Client.Ibap.Data");
        ("text", JStr "Cannot find 1 available IP address(es) in this network.")].

Definition network_10 : json :=
  JObj [("_ref", JStr "network/ZG5zLm5ldHdvcmskMTAuMC4wLjAvMjQvMA:10.0.0.0/24/default");
        ("network", JStr "10.0.0.0/24")].

Definition container_10 : json :=
  JObj [("_ref", JStr "networkcontainer/ZG5zLm5ldHdvcmtfY29udGFpbmVyJDEwLjAuMC4wLzgvMA:10.0.0.0/8/default");
        ("network", JStr "10.0.0.0/8")].

Definition cname_1 : json :=
  JObj [("_ref", JStr "record:cname/ZG5zLmJpbmRfY25hbWUkLjE:www.example.com/default");
        ("name", JStr "www.example.com");
        ("canonical", JStr "a.example.com")].

Definition cname_2 : json :=
  JObj [("_ref", JStr "record:cname/ZG5zLmJpbmRfY25hbWUkLjI:www.example.com/internal");
        ("name", JStr "www.example.com");
        ("canonical", JStr "b.example.com")].

(** A host record without the ['aliases'] field. *)
Definition host_plain : json :=
  JObj [("_ref", JStr host_b_ref); ("name", JStr "b.example.com")].

(** The answer of a successful allocation of one address. *)
Definition allocated_ip : Response :=
  mkResponse 200 (Some (JObj [("ips", JArr [JStr "10.0.0.7"])])).

Definition network_10_ref : string :=
  "network/ZG5zLm5ldHdvcmskMTAuMC4wLjAvMjQvMA:10.0.0.0/24/default".

Definition cname_1_ref : string :=
  "record:cname/ZG5zLmJpbmRfY25hbWUkLjE:www.example.com/default".

(** A reply with an error status and an error body, and a reply whose body
    is not JSON. *)
Definition forbidden : Response :=
  mkResponse 403 (Some (JObj [("text", JStr "Permission denied")])).

Definition created_without_json : Response := mkResponse 201 None.

(** [host_b] once the alias [ftp.example.com] has been added. *)
Definition host_b_aliased : json :=
  JObj [("_ref", JStr host_b_ref);
        ("name", JStr "b.example.com");
        ("aliases", JArr [JStr "www.example.com"; JStr "ftp.example.com"])].

(** A reply with a status that the handlers do not expect and that is no
    error. *)
Definition queued : Response :=
  mkResponse 202 (Some (JObj [("status", JStr "queued")])).

(** A reply without content. *)
Definition no_content : Response := mkResponse 204 None.

(** A fixed address. *)
Definition fixed_7_ref : string :=
  "fixedaddress/ZG5zLmZpeGVkX2FkZHJlc3MkMTAuMC4wLjcuMC4u:10.0.0.7/default".

Definition fixed_7 : json :=
  JObj [("_ref", JStr fixed_7_ref); ("ipv4addr", JStr "10.0.0.7");
        ("mac", JStr "aa:bb:cc:dd:ee:ff")].

(** The answer to the creation of a host record, with the address that the
    appliance assigned. *)
Definition created_host : Response :=
  mkResponse 201
    (Some (JObj [("_ref", JStr "record:host/ZG5zLmhvc3QkLl9kZWZhdWx0:c.example.com/default");
                 ("ipv4addrs",
                  JArr [JObj [("ipv4addr", JStr "10.0.0.7");
                              ("configure_for_dhcp", JBool false)]])])).

(** Two TXT records of one name. *)
Definition txt_1 : json :=
  JObj [("_ref", JStr "record:txt/ZG5zLmJpbmRfdHh0JC4x:a.example.com/default");
        ("name", JStr "a.example.com");
        ("text", JStr "v=spf1 -all")].

Definition txt_2 : json :=
  JObj [("_ref", JStr "record:txt/ZG5zLmJpbmRfdHh0JC4y:a.example.com/default");
        ("name", JStr "a.example.com");
        ("text", JStr "site-verification=abc")].

(** A dotted quad followed by a newline, as a line read from a file is, and
    the answer of an appliance that refuses a request. *)
Definition address_with_newline : string :=
  String.append "10.0.0.5" (String newline EmptyString).

Definition bad_request : Response :=
  mkResponse 400 (Some (JObj [("text", JStr "Invalid value for field ipv4addr")])).

End Scenario.

Section Client.

(** The appliance: its reply to a request, given the requests before it. *)
Variable server : list Request -> Request -> Reply.
(** [json.dumps] / [json.JSONEncoder().encode] and [str] of the Python
    library. *)
Variable json_encode : json -> string.
Variable py_str : json -> string.
Variable self : Infoblox.

(** [Session.request]: one round trip, then [raise_for_status]; the
    logging in the handler changes nothing and the exception is re-raised. *)
Definition session_request (m : Method) (u : string)
    (ps : list (string * json)) (d : req_data) : M Response :=
  fun log =>
    let rq := mkRequest m u ps d in
    let log' := (log ++ [rq])%list in
    match server log rq with
    | Failed => (Raise ConnectionError, log')
    | Replied response =>
        match raise_for_status response with
        | Raise e => (Raise e, log')
        | Ok _ => (Ok response, log')
        end
    end.

Definition session_get (u : string) : M Response :=
  session_request GET u [] NoData.
Definition session_delete (u : string) : M Response :=
  session_request DELETE u [] NoData.
Definition session_put (u : string) (d : string) : M Response :=
  session_request PUT u [] (TextData d).
Definition session_post (u : string) (d : req_data) : M Response :=
  session_request POST u [] d.

Definition base_url : string :=
  "https://" ++ iba_host self ++ "/wapi/v" ++ iba_wapi_version self.

(** The tail shared by every handler:
    [if 'text' in r_json: raise E(r_json['text'])  else: r.raise_for_status()]
    after which the function falls off its end and returns [None]. *)
Definition raise_text_or_status (E : payload -> exn) (r : Response)
    (r_json : json) : M json :=
  has_text <- lift (py_in "text" r_json) ;;
  if has_text : bool then
    t <- lift (py_getitem r_json "text") ;;
    raise (E (PVal t))
  else
    lift (raise_for_status r) ;;;
    ret JNull.

(** [ref and re.match("<kind>\/[^:]+:([^\/]+)\/", ref).group(1) == fqdn] *)
Definition ref_names (kind : string) (ref : json) (fqdn : string)
  : result bool :=
  if truthy ref then
    match ref with
    | JStr s =>
        match re_match (re_ref kind) s with
        | Some (Some g) => Ok (String.eqb g fqdn)
        | _ => Raise AttributeError
        end
    | _ => Raise TypeError
    end
  else Ok false.

(** ['%s' % v] *)
Definition format_s (v : json) : string :=
  match v with
  | JStr s => s
  | _ => py_str v
  end.

Definition with_return_fields (query_params : list (string * json))
    (fields : option fields_arg) : list (string * json) :=
  match fields with
  | None => query_params
  | Some (FStr s) => dict_set "_return_fields" (JStr s) query_params
  | Some (FList l) => dict_set "_return_fields" (JStr (join "," l)) query_params
  end.

Definition opt_text (t : option string) : payload :=
  match t with
  | Some s => PMsg s
  | None => PVal JNull
  end.

(** [Util.get] *)
Definition util_get (uri : string) (query_params : option (list (string * json)))
    (fields : option fields_arg) (notFoundText : option string)
    (notFoundFail : bool) : M json :=
  let rest_url := base_url ++ "/" ++ uri in
  let query_params :=
    match query_params with None => [] | Some q => q end in
  let query_params := with_return_fields query_params fields in
  r <- session_request GET rest_url query_params NoData ;;
  except_ValueError r (
    r_json <- lift (json_of r) ;;
    if status_code r =? 200 then
      n <- lift (py_len r_json) ;;
      if (0 <? n)%nat then ret r_json
      else if notFoundFail then
        raise (InfobloxNotFoundException (opt_text notFoundText))
      else ret JNull
    else raise_text_or_status InfobloxGeneralException r r_json).

(** [Util.post]; [confirm=False] is the dry run. *)
Definition util_post (uri : string) (payload : json)
    (fields : option fields_arg) (confirm : bool) : M json :=
  let rest_url := base_url ++ "/" ++ uri in
  if negb confirm then ret JNull
  else
    let query_params := with_return_fields [] fields in
    r <- session_request POST rest_url query_params
           (TextData (json_encode payload)) ;;
    except_ValueError r (
      r_json <- lift (json_of r) ;;
      if (status_code r =? 200) || (status_code r =? 201) then ret r_json
      else raise_text_or_status InfobloxGeneralException r r_json).

(** [Util.delete_by_ref]: everything after the [raise] statements of the
    [except HTTPError] handler is unreachable, so a successful call falls
    off the end. *)
Definition util_delete_by_ref (ref : json) (notFoundText : option string)
    (notFoundFail : bool) : M json :=
  let rest_url := base_url ++ "/" ++ format_s ref in
  fun log =>
    match session_delete rest_url log with
    | (Raise (HTTPError st), log') =>
        if notFoundFail
        then (Raise (InfobloxNotFoundException (opt_text notFoundText)), log')
        else (Raise (HTTPError st), log')
    | (Raise e, log') => (Raise e, log')
    | (Ok _, log') => (Ok JNull, log')
    end.

(** ** Operations of [Infoblox]

    A function that falls off its end or executes a bare [return] returns
    [None], which is [JNull] here. *)

(** [Infoblox.get_next_available_ip] *)
Definition get_next_available_ip (network : string) : M json :=
  let rest_url := base_url ++ "/network?network=" ++ network ++
                  "&network_view=" ++ iba_network_view self in
  r <- session_get rest_url ;;
  except_ValueError r (
    r_json <- lift (json_of r) ;;
    if status_code r =? 200 then
      n <- lift (py_len r_json) ;;
      if (0 <? n)%nat then
        r0 <- lift (py_item0 r_json) ;;
        net_ref <- lift (py_getitem r0 "_ref") ;;
        rest_url <- lift (py_concat (base_url ++ "/") net_ref) ;;
        let rest_url := rest_url ++ "?_function=next_available_ip&num=1" in
        r <- session_post rest_url NoData ;;
        except_ValueError r (
          r_json <- lift (json_of r) ;;
          if status_code r =? 200 then
            ips <- lift (py_getitem r_json "ips") ;;
            ip_v4 <- lift (py_item0 ips) ;;
            ret ip_v4
          else
            has_text <- lift (py_in "text" r_json) ;;
            if has_text : bool then
              has_code <- lift (py_in "code" r_json) ;;
              exhausted <-
                (if has_code : bool then
                   c <- lift (py_getitem r_json "code") ;;
                   ret (json_eq_str c "Client.Ibap.Data")
                 else ret false) ;;
              t <- lift (py_getitem r_json "text") ;;
              if exhausted : bool
              then raise (InfobloxNoIPavailableException (PVal t))
              else raise (InfobloxGeneralException (PVal t))
            else
              lift (raise_for_status r) ;;;
              ret JNull)
      else
        raise (InfobloxNotFoundException
                 (PMsg ("No requested network found: " ++ network)))
    else raise_text_or_status InfobloxGeneralException r r_json).

(** [Infoblox.create_host_record]; [payload=None] builds the default one. *)
Definition create_host_record (address fqdn : string) (payload : option json)
  : M json :=
  ipv4addr <-
    (if matches re_cidr address then
       ret ("func:nextavailableip:" ++ address)
     else if matches re_range address then
       ret ("func:nextavailableip:" ++ address)
     else if matches re_static address then
       ret address
     else
       raise (InfobloxBadInputParameter
                (PMsg "Expected IP or NET address in CIDR format"))) ;;
  let payload :=
    match payload with
    | Some p => p
    | None =>
        JObj [("name", JStr fqdn);
              ("view", JStr (iba_dns_view self));
              ("ipv4addrs",
               JArr [JObj [("ipv4addr", JStr ipv4addr);
                           ("configure_for_dhcp", JBool false)]])]
    end in
  r_json <- util_post "record:host" payload (Some (FList ["ipv4addrs"])) true ;;
  match r_json with
  | JNull =>
      raise (InfobloxGeneralException
               (PMsg ("Failed to create host record for [" ++ address ++ "]")))
  | _ =>
      addrs <- lift (py_getitem r_json "ipv4addrs") ;;
      a0 <- lift (py_item0 addrs) ;;
      lift (py_getitem a0 "ipv4addr")
  end.

(** [Infoblox.delete_host_record] *)
Definition delete_host_record (fqdn : string) : M json :=
  let rest_url := base_url ++ "/record:host?name=" ++ fqdn ++ "&view=" ++
                  iba_dns_view self in
  r <- session_get rest_url ;;
  except_ValueError r (
    r_json <- lift (json_of r) ;;
    if status_code r =? 200 then
      n <- lift (py_len r_json) ;;
      if (0 <? n)%nat then
        r0 <- lift (py_item0 r_json) ;;
        host_ref <- lift (py_getitem r0 "_ref") ;;
        valid <- lift (ref_names "record:host" host_ref fqdn) ;;
        if valid : bool then
          rest_url <- lift (py_concat (base_url ++ "/") host_ref) ;;
          r <- session_delete rest_url ;;
          if status_code r =? 200 then ret JNull
          else raise_text_or_status InfobloxGeneralException r r_json
        else
          msg <- lift (py_concat "Received unexpected host reference: "
                                 host_ref) ;;
          raise (InfobloxGeneralException (PMsg msg))
      else
        raise (InfobloxNotFoundException
                 (PMsg ("No requested host found: " ++ fqdn)))
    else raise_text_or_status InfobloxGeneralException r r_json).

(** [Infoblox.delete_txt_record] *)
Definition delete_txt_record (fqdn : string) : M json :=
  let rest_url := base_url ++ "/record:txt?name=" ++ fqdn ++ "&view=" ++
                  iba_dns_view self in
  r <- session_get rest_url ;;
  except_ValueError r (
    r_json <- lift (json_of r) ;;
    if status_code r =? 200 then
      n <- lift (py_len r_json) ;;
      if (0 <? n)%nat then
        r0 <- lift (py_item0 r_json) ;;
        host_ref <- lift (py_getitem r0 "_ref") ;;
        valid <- lift (ref_names "record:txt" host_ref fqdn) ;;
        if valid : bool then
          rest_url <- lift (py_concat (base_url ++ "/") host_ref) ;;
          r <- session_delete rest_url ;;
          if status_code r =? 200 then ret JNull
          else raise_text_or_status InfobloxGeneralException r r_json
        else
          msg <- lift (py_concat "Received unexpected host reference: "
                                 host_ref) ;;
          raise (InfobloxGeneralException (PMsg msg))
      else
        raise (InfobloxNotFoundException
                 (PMsg ("No requested host found: " ++ fqdn)))
    else raise_text_or_status InfobloxGeneralException r r_json).

(** [aliases.append(x)] *)
Definition py_append (l : json) (x : json) : result json :=
  match l with
  | JArr xs => Ok (JArr (xs ++ [x])%list)
  | _ => Raise AttributeError
  end.

Fixpoint remove_first (x : string) (xs : list json) : option (list json) :=
  match xs with
  | [] => None
  | y :: rest =>
      if json_eq_str y x then Some rest
      else match remove_first x rest with
           | Some rest' => Some (y :: rest')
           | None => None
           end
  end.

(** [aliases.remove(x)]: [ValueError] when [x] is not in the list. *)
Definition py_remove (l : json) (x : string) : result json :=
  match l with
  | JArr xs =>
      match remove_first x xs with
      | Some xs' => Ok (JArr xs')
      | None => Raise ValueError
      end
  | _ => Raise AttributeError
  end.

(** [Infoblox.add_host_alias] *)
Definition add_host_alias (host_fqdn alias_fqdn : string) : M json :=
  let rest_url := base_url ++ "/record:host?name=" ++ host_fqdn ++ "&view=" ++
                  iba_dns_view self ++ "&_return_fields=name,aliases" in
  r <- session_get rest_url ;;
  except_ValueError r (
    r_json <- lift (json_of r) ;;
    if status_code r =? 200 then
      n <- lift (py_len r_json) ;;
      if (0 <? n)%nat then
        r0 <- lift (py_item0 r_json) ;;
        host_ref <- lift (py_getitem r0 "_ref") ;;
        valid <- lift (ref_names "record:host" host_ref host_fqdn) ;;
        if valid : bool then
          has_aliases <- lift (py_in "aliases" r0) ;;
          payload <-
            (if has_aliases : bool then
               aliases <- lift (py_getitem r0 "aliases") ;;
               aliases <- lift (py_append aliases (JStr alias_fqdn)) ;;
               ret ("{" ++ dq ++ "aliases" ++ dq ++ ": " ++
                    json_encode aliases ++ "}")
             else
               ret ("{" ++ dq ++ "aliases" ++ dq ++ ": [" ++ dq ++
                    alias_fqdn ++ dq ++ "]}")) ;;
          rest_url <- lift (py_concat (base_url ++ "/") host_ref) ;;
          r <- session_put rest_url payload ;;
          if status_code r =? 200 then ret JNull
          else raise_text_or_status InfobloxGeneralException r r_json
        else
          msg <- lift (py_concat "Received unexpected host reference: "
                                 host_ref) ;;
          raise (InfobloxGeneralException (PMsg msg))
      else
        raise (InfobloxNotFoundException
                 (PMsg ("No requested host found: " ++ host_fqdn)))
    else raise_text_or_status InfobloxGeneralException r r_json).

(** [Infoblox.delete_host_alias] *)
Definition delete_host_alias (host_fqdn alias_fqdn : string) : M json :=
  let rest_url := base_url ++ "/record:host?name=" ++ host_fqdn ++ "&view=" ++
                  iba_dns_view self ++ "&_return_fields=name,aliases" in
  r <- session_get rest_url ;;
  except_ValueError r (
    r_json <- lift (json_of r) ;;
    if status_code r =? 200 then
      n <- lift (py_len r_json) ;;
      if (0 <? n)%nat then
        r0 <- lift (py_item0 r_json) ;;
        host_ref <- lift (py_getitem r0 "_ref") ;;
        valid <- lift (ref_names "record:host" host_ref host_fqdn) ;;
        if valid : bool then
          has_aliases <- lift (py_in "aliases" r0) ;;
          if has_aliases : bool then
            aliases <- lift (py_getitem r0 "aliases") ;;
            aliases <- lift (py_remove aliases alias_fqdn) ;;
            let payload := "{" ++ dq ++ "aliases" ++ dq ++ ": " ++
                           json_encode aliases ++ "}" in
            rest_url <- lift (py_concat (base_url ++ "/") host_ref) ;;
            r <- session_put rest_url payload ;;
            if status_code r =? 200 then ret JNull
            else raise_text_or_status InfobloxGeneralException r r_json
          else
            raise (InfobloxNotFoundException
                     (PMsg ("No requested host alias found: " ++ alias_fqdn)))
        else
          msg <- lift (py_concat "Received unexpected host reference: "
                                 host_ref) ;;
          raise (InfobloxGeneralException (PMsg msg))
      else
        raise (InfobloxNotFoundException
                 (PMsg ("No requested host found: " ++ host_fqdn)))
    else raise_text_or_status InfobloxGeneralException r r_json).

(** [Infoblox.delete_cname_record] *)
Definition delete_cname_record (fqdn : string) : M json :=
  let rest_url := base_url ++ "/record:cname?name=" ++ fqdn ++ "&view=" ++
                  iba_dns_view self in
  r <- session_get rest_url ;;
  except_ValueError r (
    r_json <- lift (json_of r) ;;
    if status_code r =? 200 then
      n <- lift (py_len r_json) ;;
      if (0 <? n)%nat then
        r0 <- lift (py_item0 r_json) ;;
        cname_ref <- lift (py_getitem r0 "_ref") ;;
        valid <- lift (ref_names "record:cname" cname_ref fqdn) ;;
        if valid : bool then
          let rest_url := base_url ++ "/" ++ format_s cname_ref in
          r <- session_delete rest_url ;;
          if status_code r =? 200 then ret JNull
          else raise_text_or_status InfobloxGeneralException r r_json
        else
          msg <- lift (py_concat
                         "Received unexpected cname record  reference: "
                         cname_ref) ;;
          raise (InfobloxGeneralException (PMsg msg))
      else
        raise (InfobloxNotFoundException
                 (PMsg ("No requested cname record found: " ++ fqdn)))
    else raise_text_or_status InfobloxGeneralException r r_json).

(** [Infoblox.update_cname_record]; the lookup sends the name as the body
    of the GET. *)
Definition update_cname_record (canonical name : string) : M json :=
  let rest_url := base_url ++ "/record:cname" in
  let payload := json_encode (JObj [("name", JStr name)]) in
  r <- session_request GET rest_url [] (TextData payload) ;;
  except_ValueError r (
    r_json <- lift (json_of r) ;;
    one <- (if status_code r =? 200
            then n <- lift (py_len r_json) ;; ret (n =? 1)%nat
            else ret false) ;;
    if one : bool then
      again <- lift (json_of r) ;;
      ibx_cname <- lift (py_item0 again) ;;
      cname_ref <- lift (py_getitem ibx_cname "_ref") ;;
      let payload := "{" ++ dq ++ "canonical" ++ dq ++ ": " ++
                     json_encode (JStr canonical) ++ "}" in
      rest_url <- lift (py_concat (base_url ++ "/") cname_ref) ;;
      r <- session_put rest_url payload ;;
      if (status_code r =? 200) || (status_code r =? 201) then ret JNull
      else lift (raise_for_status r) ;;; ret JNull
    else
      n <- lift (py_len r_json) ;;
      if (n =? 0)%nat then
        raise (InfobloxNotFoundException
                 (PMsg ("CNAME: " ++ name ++ " not found.")))
      else raise_text_or_status InfobloxGeneralException r r_json).

(** [Infoblox.delete_dhcp_range] *)
Definition delete_dhcp_range (start_ip_v4 end_ip_v4 : string) : M json :=
  let rest_url := base_url ++ "/range?start_addr=" ++ start_ip_v4 ++
                  "?end_addr=" ++ end_ip_v4 ++ "&network_view=" ++
                  iba_network_view self in
  r <- session_get rest_url ;;
  except_ValueError r (
    r_json <- lift (json_of r) ;;
    if status_code r =? 200 then
      n <- lift (py_len r_json) ;;
      if (0 <? n)%nat then
        r0 <- lift (py_item0 r_json) ;;
        range_ref <- lift (py_getitem r0 "_ref") ;;
        if truthy range_ref then
          rest_url <- lift (py_concat (base_url ++ "/") range_ref) ;;
          r <- session_delete rest_url ;;
          if status_code r =? 200 then ret JNull
          else raise_text_or_status InfobloxGeneralException r r_json
        else
          raise (InfobloxGeneralException
                   (PMsg "No range reference received in IBA reply"))
      else
        raise (InfobloxNotFoundException
                 (PMsg ("No requested range found: " ++ start_ip_v4 ++ "-" ++
                        end_ip_v4)))
    else raise_text_or_status InfobloxGeneralException r r_json).

(** [if r_json is None and notFoundFail is False: return r_json]
    then [return r_json[0]] *)
Definition first_unless_absent (r_json : json) (notFoundFail : bool)
  : M json :=
  match r_json, notFoundFail with
  | JNull, false => ret r_json
  | _, _ => lift (py_item0 r_json)
  end.

(** [Infoblox.get_host] *)
Definition get_host (fqdn : string) (fields : option fields_arg)
    (notFoundFail : bool) : M json :=
  r_json <- util_get "record:host"
              (Some [("name", JStr fqdn); ("view", JStr (iba_dns_view self))])
              fields (Some ("No hosts found: " ++ fqdn)) notFoundFail ;;
  first_unless_absent r_json notFoundFail.

(** [Infoblox.get_host_by_alias] *)
Definition get_host_by_alias (fqdn : string) (fields : option fields_arg)
    (notFoundFail : bool) : M json :=
  r_json <- util_get "record:host"
              (Some [("alias", JStr fqdn); ("view", JStr (iba_dns_view self))])
              fields (Some ("No hosts found: " ++ fqdn)) notFoundFail ;;
  first_unless_absent r_json notFoundFail.

(** [Infoblox.get_ipv4address_by_ip] *)
Definition get_ipv4address_by_ip (ip_v4 : string) (fields : option fields_arg)
    (notFoundFail : bool) : M json :=
  r_json <- util_get "ipv4address"
              (Some [("ip_address", JStr ip_v4);
                     ("network_view", JStr (iba_network_view self))])
              fields (Some ("No IP found: " ++ ip_v4)) notFoundFail ;;
  first_unless_absent r_json notFoundFail.

(** [Infoblox.get_host_by_ip] *)
Definition get_host_by_ip (ip_v4 : string) (fields : option fields_arg)
    (notFoundFail : bool) : M json :=
  r_json <- get_ipv4address_by_ip ip_v4 fields notFoundFail ;;
  match r_json, notFoundFail with
  | JNull, false => ret r_json
  | _, _ => lift (py_getitem r_json "names")
  end.

(** [Infoblox.get_a_record_by_ip] *)
Definition get_a_record_by_ip (ipaddr : string) (fields : option fields_arg)
    (not_found_fail : bool) : M json :=
  util_get "record:a" (Some [("ipv4addr", JStr ipaddr)]) fields
           (Some ("No A record found: " ++ ipaddr)) not_found_fail.

(** [Infoblox.get_dhcp_range] *)
Definition get_dhcp_range (network : string) (fields : option fields_arg)
    (not_found_fail : bool) : M json :=
  util_get "range" (Some [("network", JStr network)]) fields
           (Some ("No requested network found: " ++ network)) not_found_fail.

(** [Infoblox.get_fixed_address] *)
Definition get_fixed_address (ipv4addr mac : string)
    (fields : option fields_arg) (not_found_fail : bool) : M json :=
  let notFoundText := "Fixed Address not found for IP: " ++ ipv4addr ++
                      ", MAC: " ++ mac in
  util_get "fixedaddress"
           (Some [("mac", JStr mac); ("ipv4addr", JStr ipv4addr)]) fields
           (Some notFoundText) not_found_fail.

(** [Infoblox.delete_fixed_address] *)
Definition delete_fixed_address (ipv4addr mac : string)
    (not_found_fail : bool) : M json :=
  ref <- get_fixed_address ipv4addr mac None not_found_fail ;;
  let notFoundText := "Fixed Address not found for ref: " ++ format_s ref in
  ref0 <- lift (py_item0 ref) ;;
  ref0_ref <- lift (py_getitem ref0 "_ref") ;;
  util_delete_by_ref ref0_ref (Some notFoundText) not_found_fail.

(** [Infoblox.get_grid] *)
Definition get_grid (name : option string) (fields : option fields_arg)
    (not_found_fail : bool) : M json :=
  let query_params :=
    match name with
    | Some nm => Some [("name", JStr nm)]
    | None => None
    end in
  util_get "grid" query_params fields (Some "No grid found.") not_found_fail.

(** [Infoblox.get_pending_changes]; the flag defaults to [False] there. *)
Definition get_pending_changes (fields : option fields_arg)
    (notFoundFail : bool) : M json :=
  util_get "grid:servicerestart:request:changedobject" None fields None
           notFoundFail.

(** [Infoblox.get_lease] *)
Definition get_lease (query_params : option (list (string * json)))
    (fields : option fields_arg) (not_found_fail : bool) : M json :=
  util_get "lease" query_params fields (Some "No Lease found.") not_found_fail.

(** *** Extensible attributes *)

(** [d.keys()] *)
Definition py_keys (d : json) : result (list string) :=
  match d with
  | JObj kv => Ok (map fst kv)
  | _ => Raise AttributeError
  end.

(** [d[k] = x] *)
Definition py_setitem (d : json) (k : string) (x : json) : result json :=
  match d with
  | JObj kv => Ok (JObj (dict_set k x kv))
  | _ => Raise TypeError
  end.

(** [del d[k]], reached only after [k in d] *)
Definition py_delitem (d : json) (k : string) : result json :=
  match d with
  | JObj kv => Ok (JObj (dict_del k kv))
  | _ => Raise TypeError
  end.

(** [r_json[0]['extattrs'][attribute]['value']] *)
Definition extattr_value (r_json : json) (attribute : string) : M json :=
  r0 <- lift (py_item0 r_json) ;;
  ea <- lift (py_getitem r0 "extattrs") ;;
  w <- lift (py_getitem ea attribute) ;;
  lift (py_getitem w "value").

(** The loop over the requested names:
    [for attribute in attributes:
       if attribute in r_json[0]['extattrs']: extattrs[attribute] = ...
       else: raise InfobloxNotFoundException(...)] *)
Fixpoint requested_extattrs (r_json : json) (attributes : list string)
    (extattrs : list (string * json)) : M (list (string * json)) :=
  match attributes with
  | [] => ret extattrs
  | attribute :: rest =>
      r0 <- lift (py_item0 r_json) ;;
      ea <- lift (py_getitem r0 "extattrs") ;;
      present <- lift (py_in attribute ea) ;;
      if present : bool then
        v <- extattr_value r_json attribute ;;
        requested_extattrs r_json rest (dict_set attribute v extattrs)
      else
        raise (InfobloxNotFoundException
                 (PMsg ("No requested attribute found: " ++ attribute)))
  end.

(** The loop over all names:
    [for attribute in r_json[0]['extattrs'].keys(): extattrs[attribute] = ...] *)
Fixpoint all_extattrs (r_json : json) (keys : list string)
    (extattrs : list (string * json)) : M (list (string * json)) :=
  match keys with
  | [] => ret extattrs
  | attribute :: rest =>
      v <- extattr_value r_json attribute ;;
      all_extattrs r_json rest (dict_set attribute v extattrs)
  end.

(** [if attributes:] on [None] or a list of names *)
Definition requested (attributes : option (list string)) : option (list string) :=
  match attributes with
  | Some (a :: rest) => Some (a :: rest)
  | _ => None
  end.

(** [Infoblox.get_host_extattrs] *)
Definition get_host_extattrs (fqdn : string)
    (attributes : option (list string)) : M json :=
  let rest_url := base_url ++ "/record:host?name=" ++ fqdn ++ "&view=" ++
                  iba_dns_view self ++ "&_return_fields=name,extattrs" in
  r <- session_get rest_url ;;
  except_ValueError r (
    r_json <- lift (json_of r) ;;
    if status_code r =? 200 then
      n <- lift (py_len r_json) ;;
      if (0 <? n)%nat then
        extattrs <-
          match requested attributes with
          | Some names => requested_extattrs r_json names []
          | None =>
              r0 <- lift (py_item0 r_json) ;;
              ea <- lift (py_getitem r0 "extattrs") ;;
              keys <- lift (py_keys ea) ;;
              all_extattrs r_json keys []
          end ;;
        ret (JObj extattrs)
      else
        raise (InfobloxNotFoundException
                 (PMsg ("No requested host found: " ++ fqdn)))
    else raise_text_or_status InfobloxNotFoundException r r_json).

(** [Infoblox.get_network_extattrs]: the [return extattrs] statement is
    inside the [else] branch of [if attributes:]. *)
Definition get_network_extattrs (network : string)
    (attributes : option (list string)) : M json :=
  let rest_url := base_url ++ "/network?network=" ++ network ++
                  "&network_view=" ++ iba_network_view self ++
                  "&_return_fields=network,extattrs" in
  r <- session_get rest_url ;;
  except_ValueError r (
    r_json <- lift (json_of r) ;;
    if status_code r =? 200 then
      n <- lift (py_len r_json) ;;
      if (0 <? n)%nat then
        match requested attributes with
        | Some names =>
            requested_extattrs r_json names [] ;;;
            ret JNull
        | None =>
            r0 <- lift (py_item0 r_json) ;;
            ea <- lift (py_getitem r0 "extattrs") ;;
            keys <- lift (py_keys ea) ;;
            extattrs <- all_extattrs r_json keys [] ;;
            ret (JObj extattrs)
        end
      else
        raise (InfobloxNotFoundException
                 (PMsg ("No requested network found: " ++ network)))
    else raise_text_or_status InfobloxNotFoundException r r_json).

(** [for attr_name, attr_value in attributes.iteritems():
       extattrs[attr_name]['value'] = attr_value]
    [attributes] is the dictionary in its iteration order. *)
Fixpoint set_extattrs (attributes : list (string * json)) (extattrs : json)
  : M json :=
  match attributes with
  | [] => ret extattrs
  | (attr_name, attr_value) :: rest =>
      w <- lift (py_getitem extattrs attr_name) ;;
      w' <- lift (py_setitem w "value" attr_value) ;;
      extattrs' <- lift (py_setitem extattrs attr_name w') ;;
      set_extattrs rest extattrs'
  end.

(** [Infoblox.update_network_extattrs] *)
Definition update_network_extattrs (network : string)
    (attributes : list (string * json)) : M json :=
  let rest_url := base_url ++ "/network?network=" ++ network ++
                  "&network_view=" ++ iba_network_view self ++
                  "&_return_fields=network,extattrs" in
  r <- session_get rest_url ;;
  except_ValueError r (
    r_json <- lift (json_of r) ;;
    if status_code r =? 200 then
      n <- lift (py_len r_json) ;;
      if (0 <? n)%nat then
        r0 <- lift (py_item0 r_json) ;;
        network_ref <- lift (py_getitem r0 "_ref") ;;
        if truthy network_ref then
          extattrs <- lift (py_getitem r0 "extattrs") ;;
          extattrs <- set_extattrs attributes extattrs ;;
          let payload := "{" ++ dq ++ "extattrs" ++ dq ++ ": " ++
                         json_encode extattrs ++ "}" in
          rest_url <- lift (py_concat (base_url ++ "/") network_ref) ;;
          r <- session_put rest_url payload ;;
          if status_code r =? 200 then ret JNull
          else raise_text_or_status InfobloxGeneralException r r_json
        else
          raise (InfobloxGeneralException
                   (PMsg ("No network reference received in IBA reply for network: "
                          ++ network)))
      else
        raise (InfobloxNotFoundException
                 (PMsg ("No requested network found: " ++ network)))
    else raise_text_or_status InfobloxGeneralException r r_json).

(** [for attribute in attributes:
       if attribute in extattrs: del extattrs[attribute]] *)
Fixpoint del_extattrs (attributes : list string) (extattrs : json) : M json :=
  match attributes with
  | [] => ret extattrs
  | attribute :: rest =>
      present <- lift (py_in attribute extattrs) ;;
      if present : bool then
        extattrs' <- lift (py_delitem extattrs attribute) ;;
        del_extattrs rest extattrs'
      else del_extattrs rest extattrs
  end.

(** [Infoblox.delete_network_extattrs] *)
Definition delete_network_extattrs (network : string)
    (attributes : list string) : M json :=
  let rest_url := base_url ++ "/network?network=" ++ network ++
                  "&network_view=" ++ iba_network_view self ++
                  "&_return_fields=network,extattrs" in
  r <- session_get rest_url ;;
  except_ValueError r (
    r_json <- lift (json_of r) ;;
    if status_code r =? 200 then
      n <- lift (py_len r_json) ;;
      if (0 <? n)%nat then
        r0 <- lift (py_item0 r_json) ;;
        network_ref <- lift (py_getitem r0 "_ref") ;;
        if truthy network_ref then
          extattrs <- lift (py_getitem r0 "extattrs") ;;
          extattrs <- del_extattrs attributes extattrs ;;
          let payload := "{" ++ dq ++ "extattrs" ++ dq ++ ": " ++
                         json_encode extattrs ++ "}" in
          rest_url <- lift (py_concat (base_url ++ "/") network_ref) ;;
          r <- session_put rest_url payload ;;
          if status_code r =? 200 then ret JNull
          else raise_text_or_status InfobloxGeneralException r r_json
        else
          raise (InfobloxGeneralException
                   (PMsg ("No network reference received in IBA reply for network: "
                          ++ network)))
      else
        raise (InfobloxNotFoundException
                 (PMsg ("No requested network found: " ++ network)))
    else raise_text_or_status InfobloxGeneralException r r_json).

(** *** Networks and network containers *)

(** [Infoblox.delete_network] *)
Definition delete_network (network : string) : M json :=
  let rest_url := base_url ++ "/network?network=" ++ network ++
                  "&network_view=" ++ iba_network_view self in
  r <- session_get rest_url ;;
  except_ValueError r (
    r_json <- lift (json_of r) ;;
    if status_code r =? 200 then
      n <- lift (py_len r_json) ;;
      if (0 <? n)%nat then
        r0 <- lift (py_item0 r_json) ;;
        network_ref <- lift (py_getitem r0 "_ref") ;;
        if truthy network_ref then
          rest_url <- lift (py_concat (base_url ++ "/") network_ref) ;;
          r <- session_delete rest_url ;;
          if status_code r =? 200 then ret JNull
          else raise_text_or_status InfobloxGeneralException r r_json
        else
          raise (InfobloxGeneralException
                   (PMsg ("No network reference received in IBA reply for network: "
                          ++ network)))
      else
        raise (InfobloxNotFoundException
                 (PMsg ("No network found: " ++ network)))
    else raise_text_or_status InfobloxGeneralException r r_json).

(** [Infoblox.delete_networkcontainer] *)
Definition delete_networkcontainer (networkcontainer : string) : M json :=
  let rest_url := base_url ++ "/networkcontainer?network=" ++
                  networkcontainer ++ "&network_view=" ++
                  iba_network_view self in
  r <- session_get rest_url ;;
  except_ValueError r (
    r_json <- lift (json_of r) ;;
    if status_code r =? 200 then
      n <- lift (py_len r_json) ;;
      if (0 <? n)%nat then
        r0 <- lift (py_item0 r_json) ;;
        network_ref <- lift (py_getitem r0 "_ref") ;;
        if truthy network_ref then
          rest_url <- lift (py_concat (base_url ++ "/") network_ref) ;;
          r <- session_delete rest_url ;;
          if status_code r =? 200 then ret JNull
          else raise_text_or_status InfobloxGeneralException r r_json
        else
          raise (InfobloxGeneralException
                   (PMsg ("No network container reference received in IBA reply for network container: "
                          ++ networkcontainer)))
      else
        raise (InfobloxNotFoundException
                 (PMsg ("No network container found: " ++ networkcontainer)))
    else raise_text_or_status InfobloxGeneralException r r_json).

(** [Infoblox.get_next_available_network]; [cidr] is the requested length. *)
Definition get_next_available_network (networkcontainer : string) (cidr : Z)
  : M json :=
  let rest_url := base_url ++ "/networkcontainer?network=" ++
                  networkcontainer ++ "&network_view=" ++
                  iba_network_view self in
  r <- session_get rest_url ;;
  except_ValueError r (
    r_json <- lift (json_of r) ;;
    if status_code r =? 200 then
      n <- lift (py_len r_json) ;;
      if (0 <? n)%nat then
        r0 <- lift (py_item0 r_json) ;;
        net_ref <- lift (py_getitem r0 "_ref") ;;
        rest_url <- lift (py_concat (base_url ++ "/") net_ref) ;;
        let rest_url := rest_url ++ "?_function=next_available_network&cidr="
                        ++ py_str (JNum cidr) ++ "&num=1" in
        r <- session_post rest_url NoData ;;
        except_ValueError r (
          r_json <- lift (json_of r) ;;
          if status_code r =? 200 then
            networks <- lift (py_getitem r_json "networks") ;;
            network <- lift (py_item0 networks) ;;
            ret network
          else
            has_text <- lift (py_in "text" r_json) ;;
            if has_text : bool then
              has_code <- lift (py_in "code" r_json) ;;
              exhausted <-
                (if has_code : bool then
                   c <- lift (py_getitem r_json "code") ;;
                   ret (json_eq_str c "Client.Ibap.Data")
                 else ret false) ;;
              t <- lift (py_getitem r_json "text") ;;
              if exhausted : bool
              then raise (InfobloxNoNetworkAvailableException (PVal t))
              else raise (InfobloxGeneralException (PVal t))
            else
              lift (raise_for_status r) ;;;
              ret JNull)
      else
        raise (InfobloxNotFoundException
                 (PMsg ("No requested network container found: " ++
                        networkcontainer)))
    else raise_text_or_status InfobloxGeneralException r r_json).

(** *** Reads with a validated reference *)

(** [Infoblox.get_cname_record] *)
Definition get_cname_record (fqdn : string) : M json :=
  let rest_url := base_url ++ "/record:cname?name=" ++ fqdn in
  r <- session_get rest_url ;;
  except_ValueError r (
    r_json <- lift (json_of r) ;;
    if status_code r =? 200 then
      n <- lift (py_len r_json) ;;
      if (0 <? n)%nat then
        r0 <- lift (py_item0 r_json) ;;
        cname_ref <- lift (py_getitem r0 "_ref") ;;
        valid <- lift (ref_names "record:cname" cname_ref fqdn) ;;
        if valid : bool then
          lift (py_item0 r_json)
        else
          msg <- lift (py_concat
                         "Received unexpected cname record  reference: "
                         cname_ref) ;;
          raise (InfobloxGeneralException (PMsg msg))
      else
        raise (InfobloxNotFoundException
                 (PMsg ("No requested cname record found: " ++ fqdn)))
    else raise_text_or_status InfobloxGeneralException r r_json).

(** [Infoblox.get_a_record_by_fqdn] *)
Definition get_a_record_by_fqdn (fqdn : string) : M json :=
  let rest_url := base_url ++ "/record:a?name=" ++ fqdn in
  r <- session_get rest_url ;;
  except_ValueError r (
    r_json <- lift (json_of r) ;;
    if status_code r =? 200 then
      n <- lift (py_len r_json) ;;
      if (0 <? n)%nat then
        r0 <- lift (py_item0 r_json) ;;
        a_ref <- lift (py_getitem r0 "_ref") ;;
        valid <- lift (ref_names "record:a" a_ref fqdn) ;;
        if valid : bool then
          lift (py_item0 r_json)
        else
          msg <- lift (py_concat "Received unexpected A record  reference: "
                                 a_ref) ;;
          raise (InfobloxGeneralException (PMsg msg))
      else
        raise (InfobloxNotFoundException
                 (PMsg ("No requested A record found: " ++ fqdn)))
    else raise_text_or_status InfobloxGeneralException r r_json).

(** *** Direct creates *)

(** The handler shared by the direct creates: POST, parse the body, accept
    200 and 201. *)
Definition create_with (rest_url : string) (payload : req_data) : M json :=
  r <- session_post rest_url payload ;;
  except_ValueError r (
    r_json <- lift (json_of r) ;;
    if (status_code r =? 200) || (status_code r =? 201) then ret JNull
    else raise_text_or_status InfobloxGeneralException r r_json).

(** [Infoblox.create_txt_record] *)
Definition create_txt_record (text fqdn : string) : M json :=
  let rest_url := base_url ++ "/record:txt" in
  let payload := "{" ++ dq ++ "text" ++ dq ++ ": " ++ dq ++ text ++ dq ++ "," ++
                 dq ++ "name" ++ dq ++ ": " ++ dq ++ fqdn ++ dq ++ "," ++
                 dq ++ "view" ++ dq ++ ": " ++ dq ++ iba_dns_view self ++ dq ++
                 "}" in
  create_with rest_url (TextData payload).

(** [Infoblox.create_cname_record]: the payload is passed as a dictionary,
    which [requests] sends as a form. *)
Definition create_cname_record (canonical name : string) : M json :=
  let rest_url := base_url ++ "/record:cname" in
  let payload := [("canonical", JStr canonical); ("name", JStr name);
                  ("view", JStr (iba_dns_view self))] in
  create_with rest_url (FormData payload).

(** [Infoblox.create_dhcp_range] *)
Definition create_dhcp_range (start_ip_v4 end_ip_v4 : string) : M json :=
  let rest_url := base_url ++ "/range" in
  let payload := "{" ++ dq ++ "start_addr" ++ dq ++ ": " ++ dq ++ start_ip_v4 ++
                 dq ++ "," ++ dq ++ "end_addr" ++ dq ++ ": " ++ dq ++
                 end_ip_v4 ++ dq ++ "}" in
  create_with rest_url (TextData payload).

(** [Infoblox.create_network] *)
Definition create_network (network : string) : M json :=
  let rest_url := base_url ++ "/network" in
  let payload := "{" ++ dq ++ "network" ++ dq ++ ": " ++ dq ++ network ++ dq ++
                 "," ++ dq ++ "network_view" ++ dq ++ ": " ++ dq ++
                 iba_network_view self ++ dq ++ "}" in
  create_with rest_url (TextData payload).

(** [Infoblox.create_networkcontainer] *)
Definition create_networkcontainer (networkcontainer : string) : M json :=
  let rest_url := base_url ++ "/networkcontainer" in
  let payload := "{" ++ dq ++ "network" ++ dq ++ ": " ++ dq ++
                 networkcontainer ++ dq ++ "," ++ dq ++ "network_view" ++ dq ++
                 ": " ++ dq ++ iba_network_view self ++ dq ++ "}" in
  create_with rest_url (TextData payload).

(** [Infoblox.create_fixed_address] *)
Definition create_fixed_address (ipv4addr mac : string)
    (fields : option fields_arg) (confirm : bool) : M json :=
  util_post "fixedaddress"
            (JObj [("mac", JStr mac); ("ipv4addr", JStr ipv4addr)])
            fields confirm.

(** *** Updating a record *)

(** [Util.put]: no [try] here, and the reference is read before the dry
    run returns. *)
Definition util_put (record : json) (payload : json) (confirm : bool)
  : M json :=
  ref <- lift (py_getitem record "_ref") ;;
  rest_url <- lift (py_concat (base_url ++ "/") ref) ;;
  if negb confirm then ret JNull
  else
    r <- session_put rest_url (json_encode payload) ;;
    if status_code r =? 200 then ret JNull
    else
      msg <- lift (py_concat "Failed to update " ref) ;;
      raise (InfobloxNotUpdatedException (PMsg msg)).

(** [Infoblox.update_record] *)
Definition update_record (record fields : json) (confirm : bool) : M json :=
  util_put record fields confirm ;;;
  ret JNull.

(** [Infoblox.restart_grid_services] *)
Definition restart_grid_services (payload : json) (name : option string)
  : M json :=
  ref <- get_grid name None true ;;
  ref0 <- lift (py_item0 ref) ;;
  ref0_ref <- lift (py_getitem ref0 "_ref") ;;
  let uri := format_s ref0_ref ++ "?_function=restartservices" in
  util_post uri payload None true.

(** *** Reads that return lists *)

(** [for x in v]: the elements of a list, the keys of a dictionary, the
    characters of a string. *)
Definition py_iter (v : json) : result (list json) :=
  match v with
  | JArr l => Ok l
  | JObj kv => Ok (map (fun p => JStr (fst p)) kv)
  | JStr s =>
      Ok (map (fun c => JStr (String c EmptyString)) (list_ascii_of_string s))
  | _ => Raise TypeError
  end.

(** [for x in items: out.append(x[key])] *)
Fixpoint collect_field (key : string) (items : list json) (out : list json)
  : M (list json) :=
  match items with
  | [] => ret out
  | x :: rest =>
      v <- lift (py_getitem x key) ;;
      collect_field key rest (out ++ [v])%list
  end.

(** [for x in items: if key in x: out.append(x[key])] *)
Fixpoint collect_field_if_present (key : string) (items : list json)
    (out : list json) : M (list json) :=
  match items with
  | [] => ret out
  | x :: rest =>
      present <- lift (py_in key x) ;;
      if present : bool then
        v <- lift (py_getitem x key) ;;
        collect_field_if_present key rest (out ++ [v])%list
      else collect_field_if_present key rest out
  end.

(** [Infoblox.get_host_by_regexp] *)
Definition get_host_by_regexp (fqdn : string) : M json :=
  let rest_url := base_url ++ "/record:host?name~=" ++ fqdn ++ "&view=" ++
                  iba_dns_view self in
  r <- session_get rest_url ;;
  except_ValueError r (
    r_json <- lift (json_of r) ;;
    if status_code r =? 200 then
      n <- lift (py_len r_json) ;;
      if (0 <? n)%nat then
        items <- lift (py_iter r_json) ;;
        hosts <- collect_field "name" items [] ;;
        ret (JArr hosts)
      else
        raise (InfobloxNotFoundException
                 (PMsg ("No hosts found for regexp filter: " ++ fqdn)))
    else raise_text_or_status InfobloxGeneralException r r_json).

(** [Infoblox.get_ip_by_host] *)
Definition get_ip_by_host (fqdn : string) : M json :=
  let rest_url := base_url ++ "/record:host?name=" ++ fqdn ++ "&view=" ++
                  iba_dns_view self in
  r <- session_get rest_url ;;
  except_ValueError r (
    r_json <- lift (json_of r) ;;
    if status_code r =? 200 then
      n <- lift (py_len r_json) ;;
      if (0 <? n)%nat then
        r0 <- lift (py_item0 r_json) ;;
        addrs <- lift (py_getitem r0 "ipv4addrs") ;;
        k <- lift (py_len addrs) ;;
        if (0 <? k)%nat then
          items <- lift (py_iter addrs) ;;
          ipv4addrs <- collect_field "ipv4addr" items [] ;;
          ret (JArr ipv4addrs)
        else
          raise (InfobloxNotFoundException
                   (PMsg ("No host records found for FQDN: " ++ fqdn)))
      else
        raise (InfobloxNotFoundException (PMsg ("No hosts found: " ++ fqdn)))
    else raise_text_or_status InfobloxGeneralException r r_json).

(** [if not fields: fields = 'network,netmask'] and
    [if type(fields) is not str: fields = ','.join(fields)] *)
Definition network_fields (fields : option fields_arg) : string :=
  match fields with
  | None => "network,netmask"
  | Some (FStr EmptyString) => "network,netmask"
  | Some (FStr s) => s
  | Some (FList []) => "network,netmask"
  | Some (FList l) => join "," l
  end.

(** [Infoblox.get_network] *)
Definition get_network (network : string) (fields : option fields_arg)
  : M json :=
  let fields := network_fields fields in
  let rest_url := base_url ++ "/network?network=" ++ network ++
                  "&network_view=" ++ iba_network_view self ++
                  "&_return_fields=" ++ fields in
  r <- session_get rest_url ;;
  except_ValueError r (
    r_json <- lift (json_of r) ;;
    if status_code r =? 200 then
      n <- lift (py_len r_json) ;;
      if (0 <? n)%nat then lift (py_item0 r_json)
      else
        raise (InfobloxNotFoundException
                 (PMsg ("No requested network found: " ++ network)))
    else raise_text_or_status InfobloxNotFoundException r r_json).

(** [Infoblox.get_network_by_ip] *)
Definition get_network_by_ip (ip_v4 : string) : M json :=
  let rest_url := base_url ++ "/ipv4address?ip_address=" ++ ip_v4 ++
                  "&network_view=" ++ iba_network_view self in
  r <- session_get rest_url ;;
  except_ValueError r (
    r_json <- lift (json_of r) ;;
    if status_code r =? 200 then
      n <- lift (py_len r_json) ;;
      if (0 <? n)%nat then
        r0 <- lift (py_item0 r_json) ;;
        has_network <- lift (py_in "network" r0) ;;
        if has_network : bool then lift (py_getitem r0 "network")
        else
          raise (InfobloxNotFoundException
                   (PMsg ("No network found for IP: " ++ ip_v4)))
      else
        raise (InfobloxNotFoundException (PMsg ("No IP found: " ++ ip_v4)))
    else raise_text_or_status InfobloxNotFoundException r r_json).

(** ["&*".join(attributes.split(","))] *)
Definition extattr_query (attributes : string) : string :=
  join "&*" (split_on "," attributes).

(** [Infoblox.get_network_by_extattrs] *)
Definition get_network_by_extattrs (attributes : string) : M json :=
  let rest_url := base_url ++ "/network?*" ++ extattr_query attributes ++
                  "&network_view=" ++ iba_network_view self in
  r <- session_get rest_url ;;
  except_ValueError r (
    r_json <- lift (json_of r) ;;
    if status_code r =? 200 then
      n <- lift (py_len r_json) ;;
      if (0 <? n)%nat then
        items <- lift (py_iter r_json) ;;
        networks <- collect_field_if_present "network" items [] ;;
        ret (JArr networks)
      else
        raise (InfobloxNotFoundException
                 (PMsg ("No networks found for extensible attributes: " ++
                        attributes)))
    else raise_text_or_status InfobloxGeneralException r r_json).

(** [Infoblox.get_host_by_extattrs] *)
Definition get_host_by_extattrs (attributes : string) : M json :=
  let rest_url := base_url ++ "/record:host?*" ++ extattr_query attributes ++
                  "&view=" ++ iba_dns_view self in
  r <- session_get rest_url ;;
  except_ValueError r (
    r_json <- lift (json_of r) ;;
    if status_code r =? 200 then
      n <- lift (py_len r_json) ;;
      if (0 <? n)%nat then
        items <- lift (py_iter r_json) ;;
        hosts <- collect_field_if_present "name" items [] ;;
        ret (JArr hosts)
      else
        raise (InfobloxNotFoundException
                 (PMsg ("No hosts found for extensible attributes: " ++
                        attributes)))
    else raise_text_or_status InfobloxNotFoundException r r_json).

(** A Python dictionary whose keys are any hashable values, in insertion
    order. *)
Definition py_dict : Type := list (json * json).

(** Lists and dictionaries cannot be keys. *)
Definition hashable (v : json) : bool :=
  match v with
  | JArr _ | JObj _ => false
  | _ => true
  end.

(** Equality of two keys: by value, [True] and [False] being [1] and [0]. *)
Definition py_key_eqb (a b : json) : bool :=
  match a, b with
  | JNull, JNull => true
  | JStr s, JStr t => String.eqb s t
  | JNum n, JNum m => n =? m
  | JBool x, JBool y => Bool.eqb x y
  | JBool x, JNum m => (if x then 1 else 0) =? m
  | JNum n, JBool y => n =? (if y then 1 else 0)
  | _, _ => false
  end.

(** [d[k] = v]: an existing entry keeps its key and takes the new value. *)
Fixpoint py_dict_set (k v : json) (d : py_dict) : py_dict :=
  match d with
  | [] => [(k, v)]
  | (k', v') :: rest =>
      if py_key_eqb k k' then (k', v) :: rest
      else (k', v') :: py_dict_set k v rest
  end.

(** [for host in items: hosts[host['name']] = host['text']]; the value is
    evaluated before the key. *)
Fixpoint collect_txt (items : list json) (hosts : py_dict) : M py_dict :=
  match items with
  | [] => ret hosts
  | host :: rest =>
      text <- lift (py_getitem host "text") ;;
      name <- lift (py_getitem host "name") ;;
      if hashable name then collect_txt rest (py_dict_set name text hosts)
      else raise TypeError
  end.

(** [Infoblox.get_txt_by_regexp]: a dictionary, or [None] when the function
    falls off its end. *)
Definition get_txt_by_regexp (fqdn : string) : M (option py_dict) :=
  let rest_url := base_url ++ "/record:txt?name~=" ++ fqdn ++ "&view=" ++
                  iba_dns_view self in
  r <- session_get rest_url ;;
  except_ValueError r (
    r_json <- lift (json_of r) ;;
    if status_code r =? 200 then
      n <- lift (py_len r_json) ;;
      if (0 <? n)%nat then
        items <- lift (py_iter r_json) ;;
        hosts <- collect_txt items [] ;;
        ret (Some hosts)
      else
        raise (InfobloxNotFoundException
                 (PMsg ("No txt records found for regexp filter: " ++ fqdn)))
    else
      raise_text_or_status InfobloxGeneralException r r_json ;;;
      ret None).

(** *** The public operations as one type

    A call of a public method of [Infoblox] with its arguments, and the
    run of a call with the returned value dropped: what remains is the
    exception raised, if any, and the requests issued. *)
Inductive call : Type :=
| Get_next_available_ip (network : string)
| Create_host_record (address fqdn : string) (payload : option json)
| Get_cname_record (fqdn : string)
| Create_txt_record (text fqdn : string)
| Delete_host_record (fqdn : string)
| Delete_txt_record (fqdn : string)
| Add_host_alias (host_fqdn alias_fqdn : string)
| Delete_host_alias (host_fqdn alias_fqdn : string)
| Create_cname_record (canonical name : string)
| Delete_cname_record (fqdn : string)
| Update_cname_record (canonical name : string)
| Create_dhcp_range (start_ip_v4 end_ip_v4 : string)
| Delete_dhcp_range (start_ip_v4 end_ip_v4 : string)
| Get_host (fqdn : string) (fields : option fields_arg) (notFoundFail : bool)
| Get_host_by_alias (fqdn : string) (fields : option fields_arg)
                    (notFoundFail : bool)
| Get_host_by_regexp (fqdn : string)
| Get_txt_by_regexp (fqdn : string)
| Get_host_by_ip (ip_v4 : string) (fields : option fields_arg)
                 (notFoundFail : bool)
| Get_ipv4address_by_ip (ip_v4 : string) (fields : option fields_arg)
                        (notFoundFail : bool)
| Get_ip_by_host (fqdn : string)
| Get_host_extattrs (fqdn : string) (attributes : option (list string))
| Get_network (network : string) (fields : option fields_arg)
| Get_network_by_ip (ip_v4 : string)
| Get_network_by_extattrs (attributes : string)
| Get_host_by_extattrs (attributes : string)
| Get_network_extattrs (network : string) (attributes : option (list string))
| Update_network_extattrs (network : string)
                          (attributes : list (string * json))
| Delete_network_extattrs (network : string) (attributes : list string)
| Create_network (network : string)
| Delete_network (network : string)
| Create_networkcontainer (networkcontainer : string)
| Delete_networkcontainer (networkcontainer : string)
| Get_next_available_network (networkcontainer : string) (cidr : Z)
| Get_a_record_by_ip (ipaddr : string) (fields : option fields_arg)
                     (not_found_fail : bool)
| Get_a_record_by_fqdn (fqdn : string)
| Update_record (record fields : json) (confirm : bool)
| Get_dhcp_range (network : string) (fields : option fields_arg)
                 (not_found_fail : bool)
| Create_fixed_address (ipv4addr mac : string) (fields : option fields_arg)
                       (confirm : bool)
| Get_fixed_address (ipv4addr mac : string) (fields : option fields_arg)
                    (not_found_fail : bool)
| Delete_fixed_address (ipv4addr mac : string) (not_found_fail : bool)
| Get_grid (name : option string) (fields : option fields_arg)
           (not_found_fail : bool)
| Restart_grid_services (payload : json) (name : option string)
| Get_pending_changes (fields : option fields_arg) (notFoundFail : bool)
| Get_lease (query_params : option (list (string * json)))
            (fields : option fields_arg) (not_found_fail : bool).

Definition dropped {A} (m : M A) : M unit := m ;;; ret tt.

Definition run (c : call) : M unit :=
  match c with
  | Get_next_available_ip network => dropped (get_next_available_ip network)
  | Create_host_record address fqdn payload =>
      dropped (create_host_record address fqdn payload)
  | Get_cname_record fqdn => dropped (get_cname_record fqdn)
  | Create_txt_record text fqdn => dropped (create_txt_record text fqdn)
  | Delete_host_record fqdn => dropped (delete_host_record fqdn)
  | Delete_txt_record fqdn => dropped (delete_txt_record fqdn)
  | Add_host_alias host_fqdn alias_fqdn =>
      dropped (add_host_alias host_fqdn alias_fqdn)
  | Delete_host_alias host_fqdn alias_fqdn =>
      dropped (delete_host_alias host_fqdn alias_fqdn)
  | Create_cname_record canonical name =>
      dropped (create_cname_record canonical name)
  | Delete_cname_record fqdn => dropped (delete_cname_record fqdn)
  | Update_cname_record canonical name =>
      dropped (update_cname_record canonical name)
  | Create_dhcp_range start_ip_v4 end_ip_v4 =>
      dropped (create_dhcp_range start_ip_v4 end_ip_v4)
  | Delete_dhcp_range start_ip_v4 end_ip_v4 =>
      dropped (delete_dhcp_range start_ip_v4 end_ip_v4)
  | Get_host fqdn fields notFoundFail =>
      dropped (get_host fqdn fields notFoundFail)
  | Get_host_by_alias fqdn fields notFoundFail =>
      dropped (get_host_by_alias fqdn fields notFoundFail)
  | Get_host_by_regexp fqdn => dropped (get_host_by_regexp fqdn)
  | Get_txt_by_regexp fqdn => dropped (get_txt_by_regexp fqdn)
  | Get_host_by_ip ip_v4 fields notFoundFail =>
      dropped (get_host_by_ip ip_v4 fields notFoundFail)
  | Get_ipv4address_by_ip ip_v4 fields notFoundFail =>
      dropped (get_ipv4address_by_ip ip_v4 fields notFoundFail)
  | Get_ip_by_host fqdn => dropped (get_ip_by_host fqdn)
  | Get_host_extattrs fqdn attributes =>
      dropped (get_host_extattrs fqdn attributes)
  | Get_network network fields => dropped (get_network network fields)
  | Get_network_by_ip ip_v4 => dropped (get_network_by_ip ip_v4)
  | Get_network_by_extattrs attributes =>
      dropped (get_network_by_extattrs attributes)
  | Get_host_by_extattrs attributes =>
      dropped (get_host_by_extattrs attributes)
  | Get_network_extattrs network attributes =>
      dropped (get_network_extattrs network attributes)
  | Update_network_extattrs network attributes =>
      dropped (update_network_extattrs network attributes)
  | Delete_network_extattrs network attributes =>
      dropped (delete_network_extattrs network attributes)
  | Create_network network => dropped (create_network network)
  | Delete_network network => dropped (delete_network network)
  | Create_networkcontainer networkcontainer =>
      dropped (create_networkcontainer networkcontainer)
  | Delete_networkcontainer networkcontainer =>
      dropped (delete_networkcontainer networkcontainer)
  | Get_next_available_network networkcontainer cidr =>
      dropped (get_next_available_network networkcontainer cidr)
  | Get_a_record_by_ip ipaddr fields not_found_fail =>
      dropped (get_a_record_by_ip ipaddr fields not_found_fail)
  | Get_a_record_by_fqdn fqdn => dropped (get_a_record_by_fqdn fqdn)
  | Update_record record fields confirm =>
      dropped (update_record record fields confirm)
  | Get_dhcp_range network fields not_found_fail =>
      dropped (get_dhcp_range network fields not_found_fail)
  | Create_fixed_address ipv4addr mac fields confirm =>
      dropped (create_fixed_address ipv4addr mac fields confirm)
  | Get_fixed_address ipv4addr mac fields not_found_fail =>
      dropped (get_fixed_address ipv4addr mac fields not_found_fail)
  | Delete_fixed_address ipv4addr mac not_found_fail =>
      dropped (delete_fixed_address ipv4addr mac not_found_fail)
  | Get_grid name fields not_found_fail =>
      dropped (get_grid name fields not_found_fail)
  | Restart_grid_services payload name =>
      dropped (restart_grid_services payload name)
  | Get_pending_changes fields notFoundFail =>
      dropped (get_pending_changes fields notFoundFail)
  | Get_lease query_params fields not_found_fail =>
      dropped (get_lease query_params fields not_found_fail)
  end.

(** The methods of the requests of a call when every step succeeds. *)
Definition methods_of (c : call) : list Method :=
  match c with
  | Create_host_record _ _ _ | Create_txt_record _ _ | Create_cname_record _ _
  | Create_dhcp_range _ _ | Create_network _ | Create_networkcontainer _
  | Create_fixed_address _ _ _ _ => [POST]
  | Update_record _ _ _ => [PUT]
  | Delete_host_record _ | Delete_txt_record _ | Delete_cname_record _
  | Delete_dhcp_range _ _ | Delete_network _ | Delete_networkcontainer _
  | Delete_fixed_address _ _ _ => [GET; DELETE]
  | Add_host_alias _ _ | Delete_host_alias _ _ | Update_cname_record _ _
  | Update_network_extattrs _ _ | Delete_network_extattrs _ _ => [GET; PUT]
  | Get_next_available_ip _ | Get_next_available_network _ _
  | Restart_grid_services _ _ => [GET; POST]
  | _ => [GET]
  end.

(** ** Vocabulary of the properties *)

(** The lookup answered 200 with a JSON list whose first match is the
    object [o]. *)
Definition found (r : Response) (o : list (string * json)) : Prop :=
  status_code r = 200 /\ exists rest, body r = Some (JArr (JObj o :: rest)).

(** The lookup answered 200 with an empty list. *)
Definition no_match (r : Response) : Prop :=
  status_code r = 200 /\ body r = Some (JArr []).

(** The name embedded in a reference of type [kind]:
    group 1 of ["<kind>\/[^:]+:([^\/]+)\/"]. *)
Definition embedded_name (kind ref : string) : option string :=
  match re_match (re_ref kind) ref with
  | Some (Some g) => Some g
  | _ => None
  end.

Definition GET_of (u : string) : Request := mkRequest GET u [] NoData.

(** The lookup request of each handler. *)
Definition host_lookup (fqdn : string) : Request :=
  GET_of (base_url ++ "/record:host?name=" ++ fqdn ++ "&view=" ++
          iba_dns_view self).
Definition txt_lookup (fqdn : string) : Request :=
  GET_of (base_url ++ "/record:txt?name=" ++ fqdn ++ "&view=" ++
          iba_dns_view self).
Definition host_aliases_lookup (host_fqdn : string) : Request :=
  GET_of (base_url ++ "/record:host?name=" ++ host_fqdn ++ "&view=" ++
          iba_dns_view self ++ "&_return_fields=name,aliases").
Definition host_extattrs_lookup (fqdn : string) : Request :=
  GET_of (base_url ++ "/record:host?name=" ++ fqdn ++ "&view=" ++
          iba_dns_view self ++ "&_return_fields=name,extattrs").
Definition cname_lookup (fqdn : string) : Request :=
  GET_of (base_url ++ "/record:cname?name=" ++ fqdn ++ "&view=" ++
          iba_dns_view self).
Definition cname_update_lookup (name : string) : Request :=
  mkRequest GET (base_url ++ "/record:cname") []
            (TextData (json_encode (JObj [("name", JStr name)]))).
Definition range_lookup (start_ip_v4 end_ip_v4 : string) : Request :=
  GET_of (base_url ++ "/range?start_addr=" ++ start_ip_v4 ++ "?end_addr=" ++
          end_ip_v4 ++ "&network_view=" ++ iba_network_view self).
Definition network_lookup (network : string) : Request :=
  GET_of (base_url ++ "/network?network=" ++ network ++ "&network_view=" ++
          iba_network_view self).
Definition network_extattrs_lookup (network : string) : Request :=
  GET_of (base_url ++ "/network?network=" ++ network ++ "&network_view=" ++
          iba_network_view self ++ "&_return_fields=network,extattrs").
Definition container_lookup (networkcontainer : string) : Request :=
  GET_of (base_url ++ "/networkcontainer?network=" ++ networkcontainer ++
          "&network_view=" ++ iba_network_view self).
(** The request of [Util.get]. *)
Definition util_request (uri : string) (query_params : option (list (string * json)))
    (fields : option fields_arg) : Request :=
  mkRequest GET (base_url ++ "/" ++ uri)
    (with_return_fields
       match query_params with None => [] | Some q => q end fields)
    NoData.

Definition fixed_address_lookup (ipv4addr mac : string) : Request :=
  util_request "fixedaddress"
               (Some [("mac", JStr mac); ("ipv4addr", JStr ipv4addr)]) None.

(** The run returned [None] after issuing the lookup [rq] and nothing else. *)
Definition returns_none (run : M json) (log : list Request) (rq : Request)
  : Prop :=
  run log = (Ok JNull, (log ++ [rq])%list).

(** The run raised [e] after issuing the lookup [rq] and nothing else. *)
Definition stops_with (run : M json) (log : list Request) (rq : Request)
    (e : exn) : Prop :=
  run log = (Raise e, (log ++ [rq])%list).

Definition General (msg : string) : exn := InfobloxGeneralException (PMsg msg).
Definition NotFound (msg : string) : exn := InfobloxNotFoundException (PMsg msg).


(** Requests of the allocation functions. *)

Definition POST_of (u : string) : Request := mkRequest POST u [] NoData.

Definition next_ip_call (net_ref : string) : Request :=
  POST_of (((base_url ++ "/") ++ net_ref) ++
           "?_function=next_available_ip&num=1").

Definition next_network_call (net_ref : string) (cidr : Z) : Request :=
  POST_of (((base_url ++ "/") ++ net_ref) ++
           "?_function=next_available_network&cidr=" ++ py_str (JNum cidr) ++
           "&num=1").

(** The body of a failed allocation that reports exhaustion. *)
Definition exhausted_body (kv : list (string * json)) (text : json) : Prop :=
  assoc "text" kv = Some text /\
  assoc "code" kv = Some (JStr "Client.Ibap.Data").

(** Shape of the extensible attributes of an object. *)

(** The value inside a [{"value": v}] wrapper. *)
Definition wrapper_value (w : json) : option json :=
  match w with
  | JObj kv => assoc "value" kv
  | _ => None
  end.

(** Every attribute of the object is such a wrapper. *)
Definition wrapped (ea : list (string * json)) : Prop :=
  forall k w, In (k, w) ea -> exists v, wrapper_value w = Some v.

(** The mapping with each value taken out of its wrapper. *)
Definition unwrapped (ea : list (string * json)) : list (string * json) :=
  map (fun p => (fst p,
                 match wrapper_value (snd p) with
                 | Some v => v
                 | None => JNull
                 end)) ea.

(** The first requested name that the object does not have. *)
Fixpoint first_absent (names : list string) (ea : list (string * json))
  : option string :=
  match names with
  | [] => None
  | a :: rest => if has_key a ea then first_absent rest ea else Some a
  end.

(** Every attribute of the object is a JSON object. *)
Definition all_objects (ea : list (string * json)) : Prop :=
  forall k w, In (k, w) ea -> exists kv, w = JObj kv.

(** The first name of the input mapping that the object does not have. *)
Fixpoint first_new (attributes : list (string * json))
    (ea : list (string * json)) : option string :=
  match attributes with
  | [] => None
  | (a, _) :: rest => if has_key a ea then first_new rest ea else Some a
  end.

(** The reply is a 200 response whose body has length 0. *)
Definition empty_reply (reply : Reply) : Prop :=
  exists r j, reply = Replied r /\ status_code r = 200 /\
              body r = Some j /\ py_len j = Ok 0%nat.

(** Methods of the requests a run adds to the log. *)

Definition method_eqb (a b : Method) : bool :=
  match a, b with
  | GET, GET | POST, POST | PUT, PUT | DELETE, DELETE => true
  | _, _ => false
  end.

(** [l] is an initial segment of [ms]. *)
Fixpoint method_prefix (l ms : list Method) : bool :=
  match l, ms with
  | [], _ => true
  | x :: l', y :: ms' => method_eqb x y && method_prefix l' ms'
  | _ :: _, [] => false
  end.

(** Every run of [m] keeps the log and adds requests whose methods are an
    initial segment of [ms]. *)
Definition traced {A} (ms : list Method) (m : M A) : Prop :=
  forall log, exists added,
    snd (m log) = (log ++ added)%list /\
    method_prefix (map method added) ms = true.

(** Every run of [m] adds requests with exactly the methods [ms]. *)
Definition traced_exact {A} (ms : list Method) (m : M A) : Prop :=
  forall log, exists added,
    snd (m log) = (log ++ added)%list /\ map method added = ms.

(** No run of [m] issues a request. *)
Definition silent {A} (m : M A) : Prop := forall log, snd (m log) = log.

(** How the first request of a run can fail in the session: no reply, or
    a reply with an error status. *)
Definition refused (reply : Reply) (e : exn) : Prop :=
  (reply = Failed /\ e = ConnectionError) \/
  (exists r, reply = Replied r /\ 400 <= status_code r < 600 /\
             e = HTTPError (status_code r)).

(** The run issued nothing, or one request after which it raised [e]. *)
Definition nothing_or_raises {A} (e : exn) (log : list Request) (m : M A)
  : Prop :=
  snd (m log) = log \/ exists q, m log = (Raise e, (log ++ [q])%list).

(** The run issued one request, after which it raised [e]. *)
Definition raises_after_one {A} (e : exn) (log : list Request) (m : M A)
  : Prop :=
  exists q, m log = (Raise e, (log ++ [q])%list).

(** The calls whose handler parses the body of the reply: all but
    [update_record], which looks at the status only. *)
Definition parses_reply (c : call) : bool :=
  match c with
  | Update_record _ _ _ => false
  | _ => true
  end.

(** What a run does after its lookup. *)

(** After [log'] the run issued nothing, or one request that satisfies
    [P]. *)
Definition then_at_most {A} (P : Request -> Prop) (log' : list Request)
    (m : M A) : Prop :=
  snd (m log') = log' \/
  exists q, snd (m log') = (log' ++ [q])%list /\ P q.

(** Every run issues the request [lookup] and then nothing, or one request
    [q] that the reply [r] to the lookup justifies by [P r q]. *)
Definition lookup_then {A} (lookup : Request)
    (P : Response -> Request -> Prop) (m : M A) : Prop :=
  forall log,
    snd (m log) = (log ++ [lookup])%list \/
    exists r q, server log lookup = Replied r /\ P r q /\
                snd (m log) = (log ++ [lookup; q])%list.

(** The reply [r] has status 200 and a list whose first match carries the
    reference [ref]. *)
Definition first_ref (r : Response) (ref : json) : Prop :=
  status_code r = 200 /\
  exists o rest, body r = Some (JArr (JObj o :: rest)) /\
                 assoc "_ref" o = Some ref.

(** [q] is the request [mth] on the reference that [r] returned, a
    reference that names [fqdn]. *)
Definition on_named_reference (mth : Method) (kind fqdn : string)
    (r : Response) (q : Request) : Prop :=
  exists ref, first_ref r (JStr ref) /\ embedded_name kind ref = Some fqdn /\
              method q = mth /\ url q = base_url ++ "/" ++ ref.

(** [q] is the request [mth] on the reference that [r] returned, a
    non-empty string. *)
Definition on_returned_reference (mth : Method) (r : Response) (q : Request)
  : Prop :=
  exists ref, first_ref r (JStr ref) /\ ref <> EmptyString /\
              method q = mth /\ url q = base_url ++ "/" ++ ref.

(** [q] is the request [mth] on [target ref], where [ref] is the
    reference that [r] returned. *)
Definition on_reference (mth : Method) (target : json -> string)
    (r : Response) (q : Request) : Prop :=
  exists ref, first_ref r ref /\ method q = mth /\
              url q = base_url ++ "/" ++ target ref.

(** [q] is the PUT on the reference of the only match that [r] returned. *)
Definition on_only_match (r : Response) (q : Request) : Prop :=
  exists o ref,
    status_code r = 200 /\ body r = Some (JArr [JObj o]) /\
    assoc "_ref" o = Some (JStr ref) /\
    method q = PUT /\ url q = base_url ++ "/" ++ ref.

(** A filter clause: any text without a comma. *)
Definition comma_free (s : string) : Prop :=
  all_in (fun c => negb (Ascii.eqb c ",")) s = true.

(** The clauses of a filter, each with the [*] of an extensible attribute
    in front, joined by [&]. *)
Definition starred (clauses : list string) : string :=
  join "&" (map (fun c => "*" ++ c) clauses).

(** The PUT that replaces the alias list of the host [ref] by [l]. *)
Definition aliases_put (ref : string) (l : list json) : Request :=
  mkRequest PUT ((base_url ++ "/") ++ ref) []
    (TextData ("{" ++ dq ++ "aliases" ++ dq ++ ": " ++ json_encode (JArr l) ++
               "}")).

(** The lookup found the host [host_fqdn] with the reference [ref] and the
    alias list [l]. *)
Definition host_with_aliases (r : Response) (host_fqdn ref : string)
    (l : list json) : Prop :=
  exists o, found r o /\ assoc "_ref" o = Some (JStr ref) /\
            embedded_name "record:host" ref = Some host_fqdn /\
            assoc "aliases" o = Some (JArr l).

(** The PUT that replaces the extensible attributes of the object [ref]
    by [ea]. *)
Definition extattrs_put (ref : string) (ea : list (string * json)) : Request :=
  mkRequest PUT ((base_url ++ "/") ++ ref) []
    (TextData ("{" ++ dq ++ "extattrs" ++ dq ++ ": " ++ json_encode (JObj ea) ++
               "}")).

(** The lookup found an object with the non-empty reference [ref] and the
    extensible attributes [ea]. *)
Definition object_with_extattrs (r : Response) (ref : string)
    (ea : list (string * json)) : Prop :=
  exists o, found r o /\ assoc "_ref" o = Some (JStr ref) /\
            ref <> EmptyString /\ assoc "extattrs" o = Some (JObj ea).

(** The attributes whose name is not listed, in their order. *)
Definition without (names : list string) (ea : list (string * json))
  : list (string * json) :=
  filter (fun p => negb (existsb (String.eqb (fst p)) names)) ea.

(** The wrapper [w] with its ['value'] set to [v], its other fields kept. *)
Definition set_value (v : json) (w : json) : json :=
  match w with
  | JObj kv => JObj (dict_set "value" v kv)
  | _ => w
  end.

(** The attributes [ea], each one named in [attributes] with its value
    replaced, the others as they are. *)
Definition updated (attributes ea : list (string * json))
  : list (string * json) :=
  map (fun p => match assoc (fst p) attributes with
                | Some v => (fst p, set_value v (snd p))
                | None => p
                end) ea.

(** The calls that return what their handler returns when the status of
    the reply is not the expected one: the handlers of [Infoblox] itself
    and the reads that pass on the result of [Util.get] or [Util.post].
    The others look at the result: [create_host_record], [update_record],
    [delete_fixed_address], [restart_grid_services], and the reads that
    index the result when [notFoundFail] is set; [update_cname_record]
    counts the entries of the body first. *)
Definition passes_the_result_on (c : call) : bool :=
  match c with
  | Create_host_record _ _ _ | Update_cname_record _ _ | Update_record _ _ _
  | Delete_fixed_address _ _ _ | Restart_grid_services _ _ => false
  | Create_fixed_address _ _ _ confirm => confirm
  | Get_host _ _ notFoundFail | Get_host_by_alias _ _ notFoundFail
  | Get_host_by_ip _ _ notFoundFail
  | Get_ipv4address_by_ip _ _ notFoundFail => negb notFoundFail
  | _ => true
  end.

(** From [log], the run issues one request and returns. *)
Definition returns_after_one {A} (log : list Request) (m : M A) : Prop :=
  exists q a, m log = (Ok a, (log ++ [q])%list).

(** The PUT of [Util.put] on the record [ref]. *)
Definition update_request (ref : string) (fields : json) : Request :=
  mkRequest PUT ((base_url ++ "/") ++ ref) [] (TextData (json_encode fields)).

(** The DELETE of [Util.delete_by_ref] on the object [ref]. *)
Definition delete_request (ref : string) : Request :=
  mkRequest DELETE (base_url ++ "/" ++ ref) [] NoData.

(** The record that [create_host_record] builds when the caller gives no
    payload. *)
Definition host_payload (fqdn ipv4addr : string) : json :=
  JObj [("name", JStr fqdn);
        ("view", JStr (iba_dns_view self));
        ("ipv4addrs",
         JArr [JObj [("ipv4addr", JStr ipv4addr);
                     ("configure_for_dhcp", JBool false)]])].

(** The POST that creates a host record from [payload] and asks for the
    addresses of the new record. *)
Definition host_create_request (payload : json) : Request :=
  mkRequest POST (base_url ++ "/" ++ "record:host")
    [("_return_fields", JStr "ipv4addrs")]
    (TextData (json_encode payload)).

(** What is sent for [address]: the allocation function for a network or a
    range, the address itself otherwise. *)
Definition address_asked (address : string) : string :=
  if matches re_cidr address || matches re_range address
  then "func:nextavailableip:" ++ address
  else address.

(** The record sent: the payload of the caller when there is one. *)
Definition host_sent (address fqdn : string) (payload : option json) : json :=
  match payload with
  | Some p => p
  | None => host_payload fqdn (address_asked address)
  end.

(** [v] is the first record of the reply [r], an object, and its reference
    is a string of type [kind] that names [fqdn]. *)
Definition first_record_named (kind fqdn : string) (r : Response) (v : json)
  : Prop :=
  exists o rest ref,
    body r = Some (JArr (JObj o :: rest)) /\ v = JObj o /\
    assoc "_ref" o = Some (JStr ref) /\ embedded_name kind ref = Some fqdn.

(** The lookups of [get_cname_record] and [get_a_record_by_fqdn]. *)
Definition cname_read (fqdn : string) : Request :=
  GET_of (base_url ++ "/record:cname?name=" ++ fqdn).
Definition a_read (fqdn : string) : Request :=
  GET_of (base_url ++ "/record:a?name=" ++ fqdn).

(** The run returned [v] after the one request [rq]: the first record of
    the reply to [rq], which names [fqdn], or [None] on a status that is not
    200. *)
Definition returned_the_named (kind fqdn : string) (log : list Request)
    (rq : Request) (v : json) (log' : list Request) : Prop :=
  log' = (log ++ [rq])%list /\
  exists r, server log rq = Replied r /\
            ((status_code r = 200 /\ first_record_named kind fqdn r v) \/
             (status_code r <> 200 /\ v = JNull)).

(** [item] is an object whose field [key] holds [value]. *)
Definition field_of (key : string) (item value : json) : Prop :=
  exists o, item = JObj o /\ assoc key o = Some value.

(** The lookups of [get_host_by_regexp] and [get_txt_by_regexp]. *)
Definition host_regexp_lookup (fqdn : string) : Request :=
  GET_of (base_url ++ "/record:host?name~=" ++ fqdn ++ "&view=" ++
          iba_dns_view self).
Definition txt_regexp_lookup (fqdn : string) : Request :=
  GET_of (base_url ++ "/record:txt?name~=" ++ fqdn ++ "&view=" ++
          iba_dns_view self).

(** [d.get(k)] for a string key. *)
Fixpoint py_dict_get (k : string) (d : py_dict) : option json :=
  match d with
  | [] => None
  | (k', v) :: rest =>
      if py_key_eqb (JStr k) k' then Some v else py_dict_get k rest
  end.

(** The text of the last of the records [items] that is named [name]. *)
Fixpoint last_text (name : string) (items : list json) : option json :=
  match items with
  | [] => None
  | item :: rest =>
      match last_text name rest with
      | Some t => Some t
      | None =>
          match item with
          | JObj o =>
              if json_eq_str
                   (match assoc "name" o with Some n => n | None => JNull end)
                   name
              then assoc "text" o
              else None
          | _ => None
          end
      end
  end.

(** [item] is a TXT record: an object with a string ['name'] and a
    ['text']. *)
Definition txt_record (item : json) : Prop :=
  exists o name text,
    item = JObj o /\ assoc "name" o = Some (JStr name) /\
    assoc "text" o = Some text.

(** The searches of [get_network_by_extattrs] and [get_host_by_extattrs]. *)
Definition network_search (attributes : string) : Request :=
  GET_of (base_url ++ "/network?*" ++ extattr_query attributes ++
          "&network_view=" ++ iba_network_view self).
Definition host_search (attributes : string) : Request :=
  GET_of (base_url ++ "/record:host?*" ++ extattr_query attributes ++
          "&view=" ++ iba_dns_view self).

(** The values of the field [key] in the objects that have it, in order. *)
Definition fields_present (key : string) (items : list json) : list json :=
  flat_map (fun item =>
              match item with
              | JObj o => match assoc key o with
                          | Some v => [v]
                          | None => []
                          end
              | _ => []
              end) items.

Definition is_object (v : json) : Prop := exists o, v = JObj o.

(** The characters of the three forms of an address: digits, the dot, the
    slash and the dash. *)
Definition address_char (c : ascii) : bool :=
  is_digit c || Ascii.eqb c "." || Ascii.eqb c "/" || Ascii.eqb c "-".

(** ** Properties *)

(** *** The patterns on sample strings *)

Example re_ref_host :
  re_match (re_ref "record:host")
           "record:host/ZG5zLmhvc3Q:foo.example.com/default"
  = Some (Some "foo.example.com").
Proof. reflexivity. Qed.

Example re_static_newline :
  matches re_static (String.append "10.0.0.5" (String newline EmptyString)) = true
  /\ matches re_static "10.0.0.5" = true
  /\ matches re_static "10.0.0.5/24" = false
  /\ matches re_cidr "10.0.0.0/24" = true
  /\ matches re_range "10.0.0.1-10.0.0.9" = true
  /\ matches re_static "not-an-ip" = false.
Proof. repeat split; reflexivity. Qed.

(** *** The patterns and the forms they stand for *)

Lemma append_assoc (a b c : string) : (a ++ b) ++ c = a ++ (b ++ c).
Proof. induction a as [|x a IH]; cbn; [reflexivity | now rewrite IH]. Qed.

Lemma append_nil_r (a : string) : a ++ EmptyString = a.
Proof. induction a as [|x a IH]; cbn; [reflexivity | now rewrite IH]. Qed.

Lemma greedy_plus_matches {R : Type} cls (k : string -> string -> option R) s :
  forall acc,
    greedy_plus cls k acc s <> None <->
    exists p rest, p <> EmptyString /\ all_in cls p = true /\ s = p ++ rest /\
                   k (string_rev_append p acc) rest <> None.
Proof.
  induction s as [|c s IH]; intros acc; cbn.
  - split; [congruence|]. intros [p [rest [Hp [_ [Hs _]]]]].
    destruct p; [congruence | discriminate].
  - destruct (cls c) eqn:Hc.
    + split.
      * intros H. destruct (greedy_plus cls k (String c acc) s) eqn:G.
        -- assert (G' : greedy_plus cls k (String c acc) s <> None)
             by congruence.
           apply IH in G'. destruct G' as [p [rest [Hp [Ha [Hs Hk]]]]].
           exists (String c p), rest. cbn. rewrite Hc, Ha. subst s.
           repeat split; auto; discriminate.
        -- exists (String c EmptyString), s. cbn. rewrite Hc.
           repeat split; auto; discriminate.
      * intros [p [rest [Hp [Ha [Hs Hk]]]]].
        destruct p as [|c' p]; [congruence|]. cbn in Hs, Ha, Hk.
        injection Hs as <- ->.
        destruct p as [|c2 p].
        -- cbn in *. destruct (greedy_plus cls k (String c acc) rest);
             [discriminate | exact Hk].
        -- assert (G : greedy_plus cls k (String c acc) (String c2 p ++ rest)
                       <> None).
           { apply IH. exists (String c2 p), rest.
             apply andb_true_iff in Ha. destruct Ha as [_ Ha].
             repeat split; auto; discriminate. }
           destruct (greedy_plus cls k (String c acc) (String c2 p ++ rest));
             [discriminate | congruence].
    + split; [congruence|]. intros [p [rest [Hp [Ha [Hs _]]]]].
      destruct p as [|c' p]; [congruence|]. cbn in Hs, Ha.
      injection Hs as <- _. rewrite Hc in Ha. discriminate.
Qed.

Lemma accepted_digits pat s :
  accepted (digits :: pat) s <->
  exists n rest, number n /\ s = n ++ rest /\ accepted pat rest.
Proof.
  unfold accepted, digits, number. cbn. rewrite greedy_plus_matches.
  split; intros [p [rest H]]; exists p, rest; tauto.
Qed.

Lemma accepted_lit c pat s :
  accepted (ALit c :: pat) s <->
  exists rest, s = String c rest /\ accepted pat rest.
Proof.
  unfold accepted. cbn. destruct s as [|c' s].
  - split; [congruence|]. intros [rest [H _]]. discriminate.
  - destruct (Ascii.eqb c c') eqn:E.
    + apply Ascii.eqb_eq in E. subst. split; eauto.
      intros [rest [[= <-] H]]. exact H.
    + apply Ascii.eqb_neq in E. split; [congruence|].
      intros [rest [Hs _]]. injection Hs as Hc _. congruence.
Qed.

Lemma accepted_end s :
  accepted [AEnd] s <-> s = EmptyString \/ s = String newline EmptyString.
Proof.
  unfold accepted. destruct s as [|c [|c' s]]; cbn [re_run].
  - split; auto. congruence.
  - destruct (Ascii.eqb c newline) eqn:E.
    + apply Ascii.eqb_eq in E. rewrite E. split; auto. congruence.
    + apply Ascii.eqb_neq in E. split; [congruence|].
      intros [H|[= H]]; [discriminate | congruence].
  - split; [congruence|]. intros [H|H]; discriminate.
Qed.

Lemma accepted_quad pat s :
  accepted (quad ++ pat) s <->
  exists q rest, dotted_quad q /\ s = q ++ rest /\ accepted pat rest.
Proof.
  unfold quad, dot. cbn [app]. split.
  - intros H.
    apply accepted_digits in H. destruct H as [a [r1 [Ha [-> H]]]].
    apply accepted_lit in H. destruct H as [r2 [-> H]].
    apply accepted_digits in H. destruct H as [b [r3 [Hb [-> H]]]].
    apply accepted_lit in H. destruct H as [r4 [-> H]].
    apply accepted_digits in H. destruct H as [c [r5 [Hc [-> H]]]].
    apply accepted_lit in H. destruct H as [r6 [-> H]].
    apply accepted_digits in H. destruct H as [d [r7 [Hd [-> H]]]].
    exists (a ++ "." ++ b ++ "." ++ c ++ "." ++ d), r7.
    split; [exists a, b, c, d; auto|]. split; [|exact H].
    repeat (rewrite append_assoc; cbn). reflexivity.
  - intros [q [rest [[a [b [c [d [Ha [Hb [Hc [Hd ->]]]]]]]] [-> H]]]].
    apply accepted_digits. exists a. eexists. split; [exact Ha|].
    split; [repeat (rewrite append_assoc; cbn); reflexivity|].
    apply accepted_lit. eexists. split; [reflexivity|].
    apply accepted_digits. exists b. eexists. split; [exact Hb|].
    split; [reflexivity|].
    apply accepted_lit. eexists. split; [reflexivity|].
    apply accepted_digits. exists c. eexists. split; [exact Hc|].
    split; [reflexivity|].
    apply accepted_lit. eexists. split; [reflexivity|].
    apply accepted_digits. exists d, rest. auto.
Qed.

Lemma matches_accepted pat s : matches pat s = true <-> accepted pat s.
Proof.
  unfold matches, accepted, re_match.
  destruct (re_run pat None s); split; congruence.
Qed.

Lemma ends_or_newline (form : string -> Prop) s :
  (exists q rest, form q /\ s = q ++ rest /\ accepted [AEnd] rest) <->
  or_newline form s.
Proof.
  unfold or_newline. split.
  - intros [q [rest [Hq [-> H]]]]. apply accepted_end in H.
    destruct H as [->| ->]; [left; now rewrite append_nil_r | right; eauto].
  - intros [H|[t [Ht ->]]].
    + exists s, EmptyString. rewrite append_nil_r.
      repeat split; auto. apply accepted_end. now left.
    + exists t. eexists. repeat split; eauto. apply accepted_end. now right.
Qed.

(** The three patterns of [create_host_record] accept the dotted quad,
    the dotted quad with a prefix length and the pair of dotted quads, each
    possibly followed by one newline (Python's [$]), and nothing else. *)
Theorem patterns_accept_the_three_forms :
  forall address,
    (matches re_static address = true <-> or_newline dotted_quad address)
    /\ (matches re_cidr address = true <-> or_newline cidr_form address)
    /\ (matches re_range address = true <-> or_newline range_form address).
Proof.
  intros s. repeat split.
  - intros H. apply matches_accepted, accepted_quad in H.
    now apply ends_or_newline.
  - intros H. apply matches_accepted, accepted_quad. now apply ends_or_newline.
  - intros H. apply matches_accepted, accepted_quad in H.
    destruct H as [q [r1 [Hq [-> H]]]].
    apply accepted_lit in H. destruct H as [r2 [-> H]].
    apply accepted_digits in H. destruct H as [n [r3 [Hn [-> H]]]].
    apply (ends_or_newline cidr_form).
    exists (q ++ "/" ++ n), r3. split; [exists q, n; auto|]. split; [|exact H].
    repeat (rewrite append_assoc; cbn). reflexivity.
  - intros H. apply (ends_or_newline cidr_form) in H.
    destruct H as [f [rest [[q [n [Hq [Hn ->]]]] [-> H]]]].
    apply matches_accepted, accepted_quad. exists q. eexists.
    split; [exact Hq|]. split; [repeat (rewrite append_assoc; cbn); reflexivity|].
    apply accepted_lit. eexists. split; [reflexivity|].
    apply accepted_digits. exists n, rest. auto.
  - intros H. apply matches_accepted, accepted_quad in H.
    destruct H as [q1 [r1 [Hq1 [-> H]]]].
    apply accepted_lit in H. destruct H as [r2 [-> H]].
    apply accepted_quad in H. destruct H as [q2 [r3 [Hq2 [-> H]]]].
    apply (ends_or_newline range_form).
    exists (q1 ++ "-" ++ q2), r3. split; [exists q1, q2; auto|].
    split; [|exact H].
    repeat (rewrite append_assoc; cbn). reflexivity.
  - intros H. apply (ends_or_newline range_form) in H.
    destruct H as [f [rest [[q1 [q2 [Hq1 [Hq2 ->]]]] [-> H]]]].
    apply matches_accepted, accepted_quad. exists q1. eexists.
    split; [exact Hq1|].
    split; [repeat (rewrite append_assoc; cbn); reflexivity|].
    apply accepted_lit. eexists. split; [reflexivity|].
    apply accepted_quad. exists q2, rest. auto.
Qed.

(** *** The session *)

Local Arguments String.append : simpl never.

Lemma status_200_passes (r : Response) :
  status_code r = 200 -> raise_for_status r = Ok tt.
Proof. intros H. unfold raise_for_status. rewrite H. reflexivity. Qed.

Lemma session_request_ok m u ps d log r :
  server log (mkRequest m u ps d) = Replied r ->
  raise_for_status r = Ok tt ->
  session_request m u ps d log = (Ok r, (log ++ [mkRequest m u ps d])%list).
Proof.
  intros Hs Hr. unfold session_request. cbn. rewrite Hs, Hr. reflexivity.
Qed.

Lemma session_get_200 u log r :
  server log (GET_of u) = Replied r ->
  status_code r = 200 ->
  session_get u log = (Ok r, (log ++ [GET_of u])%list).
Proof.
  intros Hs H. apply session_request_ok; auto using status_200_passes.
Qed.


Lemma ref_names_empty kind fqdn : ref_names kind (JStr EmptyString) fqdn = Ok false.
Proof. reflexivity. Qed.

(** Running a handler whose lookup found [o]. *)
Ltac open_lookup Hs Hf :=
  let H200 := fresh "H200" in
  let rest := fresh "rest" in
  let Hb := fresh "Hb" in
  destruct Hf as [H200 [rest Hb]];
  unfold bind at 1; rewrite (session_get_200 _ _ _ Hs H200);
  unfold except_ValueError, bind, lift, ret, raise, json_of;
  rewrite Hb, H200; cbn.

Ltac open_empty Hs He :=
  let H200 := fresh "H200" in
  let Hb := fresh "Hb" in
  destruct He as [H200 Hb];
  unfold bind at 1; rewrite (session_get_200 _ _ _ Hs H200);
  unfold except_ValueError, bind, lift, ret, raise, json_of;
  rewrite Hb, H200; cbn.


Ltac unfold_lookups :=
  unfold stops_with, General, NotFound, host_lookup, txt_lookup,
    host_aliases_lookup, host_extattrs_lookup, cname_lookup,
    cname_update_lookup, range_lookup, network_lookup,
    network_extattrs_lookup, container_lookup in *.

(** *** A reference that names another object *)






(** *** A reference that is empty (or any other false value) *)







(** *** A lookup without a match *)

Lemma delete_host_record_no_match fqdn log r :
  server log (host_lookup fqdn) = Replied r -> no_match r ->
  stops_with (delete_host_record fqdn) log (host_lookup fqdn)
             (NotFound ("No requested host found: " ++ fqdn)).
Proof.
  intros Hs He. unfold_lookups. unfold delete_host_record.
  open_empty Hs He. reflexivity.
Qed.

Lemma delete_txt_record_no_match fqdn log r :
  server log (txt_lookup fqdn) = Replied r -> no_match r ->
  stops_with (delete_txt_record fqdn) log (txt_lookup fqdn)
             (NotFound ("No requested host found: " ++ fqdn)).
Proof.
  intros Hs He. unfold_lookups. unfold delete_txt_record.
  open_empty Hs He. reflexivity.
Qed.

Lemma add_host_alias_no_match host_fqdn alias_fqdn log r :
  server log (host_aliases_lookup host_fqdn) = Replied r -> no_match r ->
  stops_with (add_host_alias host_fqdn alias_fqdn) log
             (host_aliases_lookup host_fqdn)
             (NotFound ("No requested host found: " ++ host_fqdn)).
Proof.
  intros Hs He. unfold_lookups. unfold add_host_alias.
  open_empty Hs He. reflexivity.
Qed.

Lemma delete_host_alias_no_match host_fqdn alias_fqdn log r :
  server log (host_aliases_lookup host_fqdn) = Replied r -> no_match r ->
  stops_with (delete_host_alias host_fqdn alias_fqdn) log
             (host_aliases_lookup host_fqdn)
             (NotFound ("No requested host found: " ++ host_fqdn)).
Proof.
  intros Hs He. unfold_lookups. unfold delete_host_alias.
  open_empty Hs He. reflexivity.
Qed.

Lemma delete_cname_record_no_match fqdn log r :
  server log (cname_lookup fqdn) = Replied r -> no_match r ->
  stops_with (delete_cname_record fqdn) log (cname_lookup fqdn)
             (NotFound ("No requested cname record found: " ++ fqdn)).
Proof.
  intros Hs He. unfold_lookups. unfold delete_cname_record.
  open_empty Hs He. reflexivity.
Qed.

Lemma update_cname_record_no_match canonical name log r :
  server log (cname_update_lookup name) = Replied r -> no_match r ->
  stops_with (update_cname_record canonical name) log
             (cname_update_lookup name)
             (NotFound ("CNAME: " ++ name ++ " not found.")).
Proof.
  intros Hs [H200 Hb]. unfold_lookups. unfold update_cname_record.
  unfold bind at 1.
  rewrite (session_request_ok _ _ _ _ _ _ Hs (status_200_passes _ H200)).
  unfold except_ValueError, bind, lift, ret, raise, json_of.
  rewrite Hb, H200. reflexivity.
Qed.

Lemma delete_dhcp_range_no_match start_ip_v4 end_ip_v4 log r :
  server log (range_lookup start_ip_v4 end_ip_v4) = Replied r -> no_match r ->
  stops_with (delete_dhcp_range start_ip_v4 end_ip_v4) log
             (range_lookup start_ip_v4 end_ip_v4)
             (NotFound ("No requested range found: " ++ start_ip_v4 ++ "-" ++
                        end_ip_v4)).
Proof.
  intros Hs He. unfold_lookups. unfold delete_dhcp_range.
  open_empty Hs He. reflexivity.
Qed.

Lemma update_network_extattrs_no_match network attributes log r :
  server log (network_extattrs_lookup network) = Replied r -> no_match r ->
  stops_with (update_network_extattrs network attributes) log
             (network_extattrs_lookup network)
             (NotFound ("No requested network found: " ++ network)).
Proof.
  intros Hs He. unfold_lookups. unfold update_network_extattrs.
  open_empty Hs He. reflexivity.
Qed.

Lemma delete_network_extattrs_no_match network attributes log r :
  server log (network_extattrs_lookup network) = Replied r -> no_match r ->
  stops_with (delete_network_extattrs network attributes) log
             (network_extattrs_lookup network)
             (NotFound ("No requested network found: " ++ network)).
Proof.
  intros Hs He. unfold_lookups. unfold delete_network_extattrs.
  open_empty Hs He. reflexivity.
Qed.

Lemma delete_network_no_match network log r :
  server log (network_lookup network) = Replied r -> no_match r ->
  stops_with (delete_network network) log (network_lookup network)
             (NotFound ("No network found: " ++ network)).
Proof.
  intros Hs He. unfold_lookups. unfold delete_network.
  open_empty Hs He. reflexivity.
Qed.

Lemma delete_networkcontainer_no_match networkcontainer log r :
  server log (container_lookup networkcontainer) = Replied r -> no_match r ->
  stops_with (delete_networkcontainer networkcontainer) log
             (container_lookup networkcontainer)
             (NotFound ("No network container found: " ++ networkcontainer)).
Proof.
  intros Hs He. unfold_lookups. unfold delete_networkcontainer.
  open_empty Hs He. reflexivity.
Qed.

(** *** Operations with the [notFoundFail] flag *)

Lemma util_get_absent uri query_params fields notFoundText notFoundFail log r :
  server log (util_request uri query_params fields) = Replied r ->
  no_match r ->
  util_get uri query_params fields notFoundText notFoundFail log =
    ((if notFoundFail
      then Raise (InfobloxNotFoundException (opt_text notFoundText))
      else Ok JNull),
     (log ++ [util_request uri query_params fields])%list).
Proof.
  intros Hs [H200 Hb]. unfold util_get, util_request in *. cbn.
  unfold bind at 1.
  rewrite (session_request_ok _ _ _ _ _ _ Hs (status_200_passes _ H200)).
  unfold except_ValueError, bind, lift, ret, raise, json_of.
  rewrite Hb, H200. cbn. destruct notFoundFail; reflexivity.
Qed.

Lemma util_get_flag_irrelevant uri query_params fields notFoundText log :
  ~ empty_reply (server log (util_request uri query_params fields)) ->
  util_get uri query_params fields notFoundText true log =
  util_get uri query_params fields notFoundText false log.
Proof.
  intros Hne.
  unfold util_get, util_request, bind, session_request, except_ValueError,
    lift, ret, raise, json_of in *.
  cbn in *.
  destruct (server log _) as [r|]; [|reflexivity].
  destruct (raise_for_status r); [|reflexivity].
  destruct (body r) as [j|] eqn:Hb; [|reflexivity].
  destruct (status_code r =? 200) eqn:H200; [|reflexivity].
  destruct (py_len j) as [n|e] eqn:Hn; [|reflexivity].
  destruct n as [|n]; [|reflexivity].
  exfalso. apply Hne. exists r, j. apply Z.eqb_eq in H200. auto.
Qed.

Lemma get_fixed_address_no_match ipv4addr mac not_found_fail log r :
  server log (fixed_address_lookup ipv4addr mac) = Replied r -> no_match r ->
  get_fixed_address ipv4addr mac None not_found_fail log =
    ((if not_found_fail
      then Raise (NotFound ("Fixed Address not found for IP: " ++ ipv4addr ++
                            ", MAC: " ++ mac))
      else Ok JNull),
     (log ++ [fixed_address_lookup ipv4addr mac])%list).
Proof.
  intros Hs He. unfold get_fixed_address, fixed_address_lookup in *.
  rewrite (util_get_absent _ _ _ _ _ _ _ Hs He).
  destruct not_found_fail; reflexivity.
Qed.

(** [delete_fixed_address] on a lookup without a match: with the flag the
    lookup's [InfobloxNotFoundException] propagates; without it the lookup
    returns [None], which the next statement subscripts. *)
Lemma delete_fixed_address_no_match ipv4addr mac not_found_fail log r :
  server log (fixed_address_lookup ipv4addr mac) = Replied r -> no_match r ->
  delete_fixed_address ipv4addr mac not_found_fail log =
    (Raise (if not_found_fail
            then NotFound ("Fixed Address not found for IP: " ++ ipv4addr ++
                           ", MAC: " ++ mac)
            else TypeError),
     (log ++ [fixed_address_lookup ipv4addr mac])%list).
Proof.
  intros Hs He. unfold delete_fixed_address, bind at 1.
  rewrite (get_fixed_address_no_match _ _ _ _ _ Hs He).
  destruct not_found_fail; reflexivity.
Qed.

(** *** The allocation functions *)

Lemma session_post_ok u log r :
  server log (POST_of u) = Replied r ->
  raise_for_status r = Ok tt ->
  session_post u NoData log = (Ok r, (log ++ [POST_of u])%list).
Proof. intros. now apply session_request_ok. Qed.

Lemma session_request_http_error m u ps d log r :
  server log (mkRequest m u ps d) = Replied r ->
  400 <= status_code r < 600 ->
  session_request m u ps d log =
    (Raise (HTTPError (status_code r)), (log ++ [mkRequest m u ps d])%list).
Proof.
  intros Hs Hr. unfold session_request, raise_for_status. cbn. rewrite Hs.
  replace ((400 <=? status_code r) && (status_code r <? 600)) with true;
    [reflexivity|].
  symmetry. apply andb_true_iff. split; [apply Z.leb_le | apply Z.ltb_lt]; lia.
Qed.

(** The allocation succeeded: the first element of ['ips'] is returned. *)
Lemma get_next_available_ip_first network log r o net_ref r2 kv ip more :
  server log (network_lookup network) = Replied r ->
  found r o -> assoc "_ref" o = Some (JStr net_ref) ->
  server (log ++ [network_lookup network])%list (next_ip_call net_ref)
    = Replied r2 ->
  status_code r2 = 200 -> body r2 = Some (JObj kv) ->
  assoc "ips" kv = Some (JArr (ip :: more)) ->
  get_next_available_ip network log =
    (Ok ip, (log ++ [network_lookup network; next_ip_call net_ref])%list).
Proof.
  intros Hs Hf Hr Hs2 H2 Hb2 Hips. unfold_lookups. unfold next_ip_call in *.
  unfold get_next_available_ip. open_lookup Hs Hf. rewrite Hr. cbn.
  rewrite (session_post_ok _ _ _ Hs2 (status_200_passes _ H2)).
  rewrite Hb2, H2. cbn. rewrite Hips. cbn.
  now rewrite <- app_assoc.
Qed.

Lemma get_next_available_network_first networkcontainer cidr log r o net_ref
    r2 kv net more :
  server log (container_lookup networkcontainer) = Replied r ->
  found r o -> assoc "_ref" o = Some (JStr net_ref) ->
  server (log ++ [container_lookup networkcontainer])%list
         (next_network_call net_ref cidr) = Replied r2 ->
  status_code r2 = 200 -> body r2 = Some (JObj kv) ->
  assoc "networks" kv = Some (JArr (net :: more)) ->
  get_next_available_network networkcontainer cidr log =
    (Ok net, (log ++ [container_lookup networkcontainer;
                      next_network_call net_ref cidr])%list).
Proof.
  intros Hs Hf Hr Hs2 H2 Hb2 Hnets. unfold_lookups.
  unfold next_network_call in *.
  unfold get_next_available_network. open_lookup Hs Hf. rewrite Hr. cbn.
  rewrite (session_post_ok _ _ _ Hs2 (status_200_passes _ H2)).
  rewrite Hb2, H2. cbn. rewrite Hnets. cbn.
  now rewrite <- app_assoc.
Qed.

(** A response of the allocation call with an error status is turned into
    [HTTPError] by [Session.request]; the handler never sees its body. *)
Lemma get_next_available_ip_error_status network log r o net_ref r2 :
  server log (network_lookup network) = Replied r ->
  found r o -> assoc "_ref" o = Some (JStr net_ref) ->
  server (log ++ [network_lookup network])%list (next_ip_call net_ref)
    = Replied r2 ->
  400 <= status_code r2 < 600 ->
  get_next_available_ip network log =
    (Raise (HTTPError (status_code r2)),
     (log ++ [network_lookup network; next_ip_call net_ref])%list).
Proof.
  intros Hs Hf Hr Hs2 H2. unfold_lookups. unfold next_ip_call in *.
  unfold get_next_available_ip. open_lookup Hs Hf. rewrite Hr. cbn.
  unfold session_post.
  rewrite (session_request_http_error _ _ _ _ _ _ Hs2 H2).
  now rewrite <- app_assoc.
Qed.

Lemma get_next_available_network_error_status networkcontainer cidr log r o
    net_ref r2 :
  server log (container_lookup networkcontainer) = Replied r ->
  found r o -> assoc "_ref" o = Some (JStr net_ref) ->
  server (log ++ [container_lookup networkcontainer])%list
         (next_network_call net_ref cidr) = Replied r2 ->
  400 <= status_code r2 < 600 ->
  get_next_available_network networkcontainer cidr log =
    (Raise (HTTPError (status_code r2)),
     (log ++ [container_lookup networkcontainer;
              next_network_call net_ref cidr])%list).
Proof.
  intros Hs Hf Hr Hs2 H2. unfold_lookups. unfold next_network_call in *.
  unfold get_next_available_network. open_lookup Hs Hf. rewrite Hr. cbn.
  unfold session_post.
  rewrite (session_request_http_error _ _ _ _ _ _ Hs2 H2).
  now rewrite <- app_assoc.
Qed.

(** The exhaustion branch is reached only by a response that is neither
    200 nor an error status. *)
Lemma get_next_available_ip_exhausted network log r o net_ref r2 kv text :
  server log (network_lookup network) = Replied r ->
  found r o -> assoc "_ref" o = Some (JStr net_ref) ->
  server (log ++ [network_lookup network])%list (next_ip_call net_ref)
    = Replied r2 ->
  status_code r2 <> 200 -> raise_for_status r2 = Ok tt ->
  body r2 = Some (JObj kv) -> exhausted_body kv text ->
  get_next_available_ip network log =
    (Raise (InfobloxNoIPavailableException (PVal text)),
     (log ++ [network_lookup network; next_ip_call net_ref])%list).
Proof.
  intros Hs Hf Hr Hs2 H2 Hp Hb2 [Ht Hc]. unfold_lookups.
  unfold next_ip_call in *.
  unfold get_next_available_ip. open_lookup Hs Hf. rewrite Hr. cbn.
  rewrite (session_post_ok _ _ _ Hs2 Hp).
  rewrite Hb2. apply Z.eqb_neq in H2. rewrite H2. cbn.
  unfold has_key. rewrite Ht, Hc. cbn.
  now rewrite <- app_assoc.
Qed.

Lemma get_next_available_network_exhausted networkcontainer cidr log r o
    net_ref r2 kv text :
  server log (container_lookup networkcontainer) = Replied r ->
  found r o -> assoc "_ref" o = Some (JStr net_ref) ->
  server (log ++ [container_lookup networkcontainer])%list
         (next_network_call net_ref cidr) = Replied r2 ->
  status_code r2 <> 200 -> raise_for_status r2 = Ok tt ->
  body r2 = Some (JObj kv) -> exhausted_body kv text ->
  get_next_available_network networkcontainer cidr log =
    (Raise (InfobloxNoNetworkAvailableException (PVal text)),
     (log ++ [container_lookup networkcontainer;
              next_network_call net_ref cidr])%list).
Proof.
  intros Hs Hf Hr Hs2 H2 Hp Hb2 [Ht Hc]. unfold_lookups.
  unfold next_network_call in *.
  unfold get_next_available_network. open_lookup Hs Hf. rewrite Hr. cbn.
  rewrite (session_post_ok _ _ _ Hs2 Hp).
  rewrite Hb2. apply Z.eqb_neq in H2. rewrite H2. cbn.
  unfold has_key. rewrite Ht, Hc. cbn.
  now rewrite <- app_assoc.
Qed.

(** *** Updating a CNAME *)

Lemma no_text_among_objects (l : list json) :
  (forall x, In x l -> exists kv, x = JObj kv) ->
  existsb (fun x => json_eq_str x "text") l = false.
Proof.
  induction l as [|x l IH]; intros H; [reflexivity|].
  cbn. destruct (H x (or_introl eq_refl)) as [kv ->]. cbn.
  apply IH. intros y Hy. apply H. now right.
Qed.

(** Several records for the name: neither branch of the final [else]
    raises on a 200 response whose body is a list of records, so the
    function returns [None] after the lookup alone. *)
Lemma update_cname_record_several canonical name log r l :
  server log (cname_update_lookup name) = Replied r ->
  status_code r = 200 -> body r = Some (JArr l) ->
  (2 <= List.length l)%nat ->
  (forall x, In x l -> exists kv, x = JObj kv) ->
  update_cname_record canonical name log =
    (Ok JNull, (log ++ [cname_update_lookup name])%list).
Proof.
  intros Hs H200 Hb Hlen Hobj. unfold_lookups. unfold update_cname_record.
  unfold bind at 1.
  rewrite (session_request_ok _ _ _ _ _ _ Hs (status_200_passes _ H200)).
  unfold except_ValueError, raise_text_or_status, bind, lift, ret, raise,
    json_of.
  rewrite Hb, H200. cbn.
  rewrite (no_text_among_objects l Hobj).
  destruct l as [|a [|b l']]; cbn in Hlen; try lia. cbn.
  rewrite (status_200_passes _ H200). reflexivity.
Qed.

(** One record for the name: the PUT goes to its reference. *)
Lemma update_cname_record_one canonical name log r o cname_ref r2 :
  server log (cname_update_lookup name) = Replied r ->
  status_code r = 200 -> body r = Some (JArr [JObj o]) ->
  assoc "_ref" o = Some (JStr cname_ref) ->
  server (log ++ [cname_update_lookup name])%list
    (mkRequest PUT ((base_url ++ "/") ++ cname_ref) []
       (TextData ("{" ++ dq ++ "canonical" ++ dq ++ ": " ++
                  json_encode (JStr canonical) ++ "}"))) = Replied r2 ->
  status_code r2 = 200 ->
  update_cname_record canonical name log =
    (Ok JNull,
     (log ++ [cname_update_lookup name;
              mkRequest PUT ((base_url ++ "/") ++ cname_ref) []
                (TextData ("{" ++ dq ++ "canonical" ++ dq ++ ": " ++
                           json_encode (JStr canonical) ++ "}"))])%list).
Proof.
  intros Hs H200 Hb Hr Hs2 H2. unfold_lookups. unfold update_cname_record.
  unfold bind at 1.
  rewrite (session_request_ok _ _ _ _ _ _ Hs (status_200_passes _ H200)).
  unfold except_ValueError, bind, lift, ret, raise, json_of.
  rewrite Hb, H200. cbn. rewrite Hr. cbn. unfold session_put.
  rewrite (session_request_ok _ _ _ _ _ _ Hs2 (status_200_passes _ H2)).
  rewrite H2. cbn. now rewrite <- app_assoc.
Qed.

(** *** Deleting an alias *)

Lemma re_ref_rejects_empty kind : re_match (re_ref kind) EmptyString = None.
Proof.
  unfold re_match, re_ref. induction kind as [|c kind IH]; reflexivity.
Qed.

Lemma ref_names_match kind ref fqdn :
  embedded_name kind ref = Some fqdn ->
  ref_names kind (JStr ref) fqdn = Ok true.
Proof.
  unfold embedded_name, ref_names. intros Hm. cbn.
  destruct ref as [|c ref].
  - now rewrite re_ref_rejects_empty in Hm.
  - cbn. destruct (re_match (re_ref kind) (String c ref)) as [[g|]|];
      try discriminate.
    injection Hm as ->. now rewrite String.eqb_refl.
Qed.

Lemma remove_first_absent x l :
  ~ In (JStr x) l -> remove_first x l = None.
Proof.
  induction l as [|y l IH]; intros H; [reflexivity|]. cbn.
  destruct (json_eq_str y x) eqn:E.
  - exfalso. apply H. left. destruct y; try discriminate.
    cbn in E. apply String.eqb_eq in E. now subst.
  - rewrite IH; [reflexivity|]. intros Hin. apply H. now right.
Qed.

(** The host has a list of aliases and the requested one is not in it:
    [aliases.remove] raises [ValueError], which the handler of the
    function turns into [InfobloxGeneralException(r)]. *)
Lemma delete_host_alias_not_in_list host_fqdn alias_fqdn log r o ref l :
  server log (host_aliases_lookup host_fqdn) = Replied r ->
  found r o -> assoc "_ref" o = Some (JStr ref) ->
  embedded_name "record:host" ref = Some host_fqdn ->
  assoc "aliases" o = Some (JArr l) -> ~ In (JStr alias_fqdn) l ->
  stops_with (delete_host_alias host_fqdn alias_fqdn) log
             (host_aliases_lookup host_fqdn)
             (InfobloxGeneralException (PResp r)).
Proof.
  intros Hs Hf Hr Hv%ref_names_match Ha Hl%remove_first_absent.
  unfold_lookups. unfold delete_host_alias. open_lookup Hs Hf.
  rewrite Hr, Hv. cbn. unfold has_key. rewrite Ha. cbn. rewrite Hl.
  reflexivity.
Qed.

(** The host record carries no ['aliases'] field. *)
Lemma delete_host_alias_no_aliases host_fqdn alias_fqdn log r o ref :
  server log (host_aliases_lookup host_fqdn) = Replied r ->
  found r o -> assoc "_ref" o = Some (JStr ref) ->
  embedded_name "record:host" ref = Some host_fqdn ->
  assoc "aliases" o = None ->
  stops_with (delete_host_alias host_fqdn alias_fqdn) log
             (host_aliases_lookup host_fqdn)
             (NotFound ("No requested host alias found: " ++ alias_fqdn)).
Proof.
  intros Hs Hf Hr Hv%ref_names_match Ha.
  unfold_lookups. unfold delete_host_alias. open_lookup Hs Hf.
  rewrite Hr, Hv. cbn. unfold has_key. rewrite Ha. reflexivity.
Qed.

(** *** Creating a host record *)

(** An address that matches none of the three patterns of
    [create_host_record] raises [InfobloxBadInputParameter], and the list
    of requests issued is left as it was: no HTTP call is made. *)
Theorem create_host_record_rejects_malformed :
  forall address fqdn payload log,
    matches re_cidr address = false ->
    matches re_range address = false ->
    matches re_static address = false ->
    create_host_record address fqdn payload log =
      (Raise (InfobloxBadInputParameter
                (PMsg "Expected IP or NET address in CIDR format")),
       log).
Proof.
  intros address fqdn payload log Hc Hr Hs.
  unfold create_host_record, bind. rewrite Hc, Hr, Hs. reflexivity.
Qed.

(** *** Reading extensible attributes *)

Lemma assoc_In k w ea : assoc k ea = Some w -> In (k, w) ea.
Proof.
  induction ea as [|[k' w'] ea IH]; cbn; [discriminate|].
  destruct (String.eqb k k') eqn:E.
  - apply String.eqb_eq in E. intros [= ->]. subst. now left.
  - intros H. right. auto.
Qed.

Lemma has_key_assoc k ea : has_key k ea = true -> exists w, assoc k ea = Some w.
Proof. unfold has_key. destruct (assoc k ea); [eauto | discriminate]. Qed.

Local Arguments extattr_value : simpl never.

Lemma extattr_value_wrapped r_json o rest ea k w v log :
  r_json = JArr (JObj o :: rest) -> assoc "extattrs" o = Some (JObj ea) ->
  assoc k ea = Some w -> wrapper_value w = Some v ->
  extattr_value r_json k log = (Ok v, log).
Proof.
  intros -> Ho Hk Hw. unfold extattr_value, bind, lift. cbn.
  rewrite Ho. cbn. rewrite Hk. destruct w; try discriminate.
  cbn in *. now rewrite Hw.
Qed.

Lemma requested_extattrs_absent o rest ea names a log :
  assoc "extattrs" o = Some (JObj ea) -> wrapped ea ->
  first_absent names ea = Some a ->
  forall acc,
    requested_extattrs (JArr (JObj o :: rest)) names acc log =
      (Raise (NotFound ("No requested attribute found: " ++ a)), log).
Proof.
  intros Ho Hw. induction names as [|n names IH]; cbn; [discriminate|].
  intros Hfa acc. unfold bind, lift. cbn. rewrite Ho. cbn.
  destruct (has_key n ea) eqn:E.
  - destruct (has_key_assoc _ _ E) as [w Hk].
    destruct (Hw _ _ (assoc_In _ _ _ Hk)) as [v Hv].
    rewrite (extattr_value_wrapped _ o rest ea n w v log eq_refl Ho Hk Hv).
    now apply IH.
  - now injection Hfa as ->.
Qed.

Lemma requested_extattrs_present o rest ea names log :
  assoc "extattrs" o = Some (JObj ea) -> wrapped ea ->
  first_absent names ea = None ->
  forall acc, exists got,
    requested_extattrs (JArr (JObj o :: rest)) names acc log = (Ok got, log).
Proof.
  intros Ho Hw. induction names as [|n names IH]; cbn.
  - intros _ acc. now exists acc.
  - intros Hfa acc. unfold bind, lift. cbn. rewrite Ho. cbn.
    destruct (has_key n ea) eqn:E; [|discriminate].
    destruct (has_key_assoc _ _ E) as [w Hk].
    destruct (Hw _ _ (assoc_In _ _ _ Hk)) as [v Hv].
    rewrite (extattr_value_wrapped _ o rest ea n w v log eq_refl Ho Hk Hv).
    now apply IH.
Qed.

Lemma dict_set_fresh k v acc :
  ~ In k (map fst acc) -> dict_set k v acc = (acc ++ [(k, v)])%list.
Proof.
  induction acc as [|[k' v'] acc IH]; cbn; [reflexivity|]. intros H.
  destruct (String.eqb k k') eqn:E.
  - apply String.eqb_eq in E. exfalso. apply H. now left.
  - rewrite IH; [reflexivity|]. intros Hin. apply H. now right.
Qed.

Lemma assoc_app_fresh k w done todo :
  ~ In k (map fst done) -> assoc k (done ++ (k, w) :: todo) = Some w.
Proof.
  induction done as [|[k' w'] done IH]; cbn; intros H.
  - now rewrite String.eqb_refl.
  - destruct (String.eqb k k') eqn:E.
    + apply String.eqb_eq in E. exfalso. apply H. now left.
    + apply IH. intros Hin. apply H. now right.
Qed.

Lemma all_extattrs_unwrapped o rest log todo :
  forall done,
    assoc "extattrs" o = Some (JObj (done ++ todo)) ->
    wrapped (done ++ todo) -> NoDup (map fst (done ++ todo)) ->
    all_extattrs (JArr (JObj o :: rest)) (map fst todo) (unwrapped done) log =
      (Ok (unwrapped (done ++ todo)), log).
Proof.
  induction todo as [|[k w] todo IH]; intros done Ho Hw Hnd.
  - cbn. now rewrite app_nil_r.
  - cbn. unfold bind.
    assert (Hfresh : ~ In k (map fst done)).
    { rewrite map_app in Hnd. cbn in Hnd.
      apply NoDup_remove_2 in Hnd. intros Hin. apply Hnd.
      apply in_or_app. now left. }
    destruct (Hw k w) as [v Hv]; [apply in_or_app; right; now left|].
    rewrite (extattr_value_wrapped _ o rest (done ++ (k, w) :: todo) k w v
               log eq_refl Ho (assoc_app_fresh k w done todo Hfresh) Hv).
    rewrite dict_set_fresh.
    + replace (unwrapped done ++ [(k, v)])%list
        with (unwrapped (done ++ [(k, w)])).
      * replace (done ++ (k, w) :: todo)%list
          with ((done ++ [(k, w)]) ++ todo)%list in *
          by now rewrite <- app_assoc.
        now apply IH.
      * unfold unwrapped. rewrite map_app. cbn. now rewrite Hv.
    + unfold unwrapped. now rewrite map_map.
Qed.

Lemma first_absent_exists names ea a :
  In a names -> has_key a ea = false ->
  exists a', first_absent names ea = Some a' /\ In a' names /\
             has_key a' ea = false.
Proof.
  induction names as [|n names IH]; cbn; [tauto|]. intros Hin Ha.
  destruct (has_key n ea) eqn:E.
  - destruct Hin as [->|Hin]; [congruence|].
    destruct (IH Hin Ha) as [a' [H1 [H2 H3]]]. eauto.
  - exists n. auto.
Qed.

Lemma first_absent_none names ea :
  (forall a, In a names -> has_key a ea = true) -> first_absent names ea = None.
Proof.
  induction names as [|n names IH]; cbn; [reflexivity|]. intros H.
  rewrite (H n (or_introl eq_refl)). apply IH. intros a Ha. apply H. now right.
Qed.

Lemma requested_some names a ea :
  first_absent names ea = Some a -> requested (Some names) = Some names.
Proof. destruct names; [discriminate | reflexivity]. Qed.

Lemma get_host_extattrs_absent fqdn names a log r o ea :
  server log (host_extattrs_lookup fqdn) = Replied r ->
  found r o -> assoc "extattrs" o = Some (JObj ea) -> wrapped ea ->
  first_absent names ea = Some a ->
  stops_with (get_host_extattrs fqdn (Some names)) log
             (host_extattrs_lookup fqdn)
             (NotFound ("No requested attribute found: " ++ a)).
Proof.
  intros Hs Hf Ho Hw Hfa. unfold_lookups. unfold get_host_extattrs.
  rewrite (requested_some _ _ _ Hfa). open_lookup Hs Hf.
  now rewrite (requested_extattrs_absent o rest ea names a _ Ho Hw Hfa).
Qed.

Lemma get_network_extattrs_absent network names a log r o ea :
  server log (network_extattrs_lookup network) = Replied r ->
  found r o -> assoc "extattrs" o = Some (JObj ea) -> wrapped ea ->
  first_absent names ea = Some a ->
  stops_with (get_network_extattrs network (Some names)) log
             (network_extattrs_lookup network)
             (NotFound ("No requested attribute found: " ++ a)).
Proof.
  intros Hs Hf Ho Hw Hfa. unfold_lookups. unfold get_network_extattrs.
  rewrite (requested_some _ _ _ Hfa). open_lookup Hs Hf.
  now rewrite (requested_extattrs_absent o rest ea names a _ Ho Hw Hfa).
Qed.

Lemma get_host_extattrs_all fqdn attributes log r o ea :
  server log (host_extattrs_lookup fqdn) = Replied r ->
  found r o -> assoc "extattrs" o = Some (JObj ea) -> wrapped ea ->
  NoDup (map fst ea) -> requested attributes = None ->
  get_host_extattrs fqdn attributes log =
    (Ok (JObj (unwrapped ea)), (log ++ [host_extattrs_lookup fqdn])%list).
Proof.
  intros Hs Hf Ho Hw Hnd Hreq. unfold_lookups. unfold get_host_extattrs.
  rewrite Hreq. open_lookup Hs Hf. rewrite Ho. cbn.
  now rewrite (all_extattrs_unwrapped o rest _ ea [] Ho Hw Hnd).
Qed.

Lemma get_network_extattrs_all network attributes log r o ea :
  server log (network_extattrs_lookup network) = Replied r ->
  found r o -> assoc "extattrs" o = Some (JObj ea) -> wrapped ea ->
  NoDup (map fst ea) -> requested attributes = None ->
  get_network_extattrs network attributes log =
    (Ok (JObj (unwrapped ea)), (log ++ [network_extattrs_lookup network])%list).
Proof.
  intros Hs Hf Ho Hw Hnd Hreq. unfold_lookups. unfold get_network_extattrs.
  rewrite Hreq. open_lookup Hs Hf. rewrite Ho. cbn.
  now rewrite (all_extattrs_unwrapped o rest _ ea [] Ho Hw Hnd).
Qed.

(** C7: the object was found and its attributes are [{"value": v}]
    wrappers.  When a requested name is not among them,
    [get_host_extattrs] and [get_network_extattrs] raise
    [InfobloxNotFoundException] for a requested name that is absent; when
    no name is requested ([None] or the empty list), both return the whole
    mapping with every value taken out of its wrapper. *)
Theorem extattrs_read :
  forall log r o ea,
    found r o -> assoc "extattrs" o = Some (JObj ea) ->
    wrapped ea -> NoDup (map fst ea) ->
    (forall fqdn names a,
        server log (host_extattrs_lookup fqdn) = Replied r ->
        In a names -> has_key a ea = false ->
        exists a', In a' names /\ has_key a' ea = false /\
          stops_with (get_host_extattrs fqdn (Some names)) log
            (host_extattrs_lookup fqdn)
            (NotFound ("No requested attribute found: " ++ a')))
    /\ (forall network names a,
        server log (network_extattrs_lookup network) = Replied r ->
        In a names -> has_key a ea = false ->
        exists a', In a' names /\ has_key a' ea = false /\
          stops_with (get_network_extattrs network (Some names)) log
            (network_extattrs_lookup network)
            (NotFound ("No requested attribute found: " ++ a')))
    /\ (forall fqdn attributes,
        server log (host_extattrs_lookup fqdn) = Replied r ->
        attributes = None \/ attributes = Some [] ->
        get_host_extattrs fqdn attributes log =
          (Ok (JObj (unwrapped ea)),
           (log ++ [host_extattrs_lookup fqdn])%list))
    /\ (forall network attributes,
        server log (network_extattrs_lookup network) = Replied r ->
        attributes = None \/ attributes = Some [] ->
        get_network_extattrs network attributes log =
          (Ok (JObj (unwrapped ea)),
           (log ++ [network_extattrs_lookup network])%list)).
Proof.
  intros log r o ea Hf Ho Hw Hnd. repeat split.
  - intros fqdn names a Hs Hin Ha.
    destruct (first_absent_exists _ _ _ Hin Ha) as [a' [H1 [H2 H3]]].
    exists a'. repeat split; auto.
    eapply get_host_extattrs_absent; eauto.
  - intros network names a Hs Hin Ha.
    destruct (first_absent_exists _ _ _ Hin Ha) as [a' [H1 [H2 H3]]].
    exists a'. repeat split; auto.
    eapply get_network_extattrs_absent; eauto.
  - intros fqdn attributes Hs Hreq.
    eapply get_host_extattrs_all; eauto. now destruct Hreq; subst.
  - intros network attributes Hs Hreq.
    eapply get_network_extattrs_all; eauto. now destruct Hreq; subst.
Qed.

(** C9: the network was found, names are requested and every one of them
    is among its attributes: [get_network_extattrs] returns [None], not the
    mapping it collected. *)
Theorem get_network_extattrs_requested_returns_none :
  forall network names log r o ea,
    server log (network_extattrs_lookup network) = Replied r ->
    found r o -> assoc "extattrs" o = Some (JObj ea) -> wrapped ea ->
    names <> [] ->
    (forall a, In a names -> has_key a ea = true) ->
    get_network_extattrs network (Some names) log =
      (Ok JNull, (log ++ [network_extattrs_lookup network])%list).
Proof.
  intros network names log r o ea Hs Hf Ho Hw Hne Hall.
  apply first_absent_none in Hall.
  unfold_lookups. unfold get_network_extattrs.
  replace (requested (Some names)) with (Some names)
    by (destruct names; [congruence | reflexivity]).
  open_lookup Hs Hf.
  destruct (requested_extattrs_present o rest ea names
              (log ++ [GET_of (base_url ++ "/network?network=" ++ network ++
                               "&network_view=" ++ iba_network_view self ++
                               "&_return_fields=network,extattrs")])%list
              Ho Hw Hall []) as [got Hgot].
  now rewrite Hgot.
Qed.

(** The same request on a host record returns the collected mapping. *)
Lemma get_host_extattrs_requested fqdn names log r o ea :
  server log (host_extattrs_lookup fqdn) = Replied r ->
  found r o -> assoc "extattrs" o = Some (JObj ea) -> wrapped ea ->
  names <> [] ->
  (forall a, In a names -> has_key a ea = true) ->
  exists got,
    get_host_extattrs fqdn (Some names) log =
      (Ok (JObj got), (log ++ [host_extattrs_lookup fqdn])%list).
Proof.
  intros Hs Hf Ho Hw Hne Hall.
  apply first_absent_none in Hall.
  unfold_lookups. unfold get_host_extattrs.
  replace (requested (Some names)) with (Some names)
    by (destruct names; [congruence | reflexivity]).
  open_lookup Hs Hf.
  destruct (requested_extattrs_present o rest ea names
              (log ++ [GET_of (base_url ++ "/record:host?name=" ++ fqdn ++
                               "&view=" ++ iba_dns_view self ++
                               "&_return_fields=name,extattrs")])%list
              Ho Hw Hall []) as [got Hgot].
  rewrite Hgot. now exists got.
Qed.

(** *** Updating the attributes of a network *)

Lemma has_key_dict_set k k' v ea :
  has_key k ea = true -> has_key k' (dict_set k v ea) = has_key k' ea.
Proof.
  unfold has_key. induction ea as [|[k0 v0] ea IH]; cbn; [discriminate|].
  destruct (String.eqb k k0) eqn:E.
  - apply String.eqb_eq in E. subst. intros _. cbn.
    now destruct (String.eqb k' k0).
  - intros H. cbn. destruct (String.eqb k' k0); [reflexivity|].
    apply IH. exact H.
Qed.

Lemma all_objects_dict_set k kv ea :
  all_objects ea -> all_objects (dict_set k (JObj kv) ea).
Proof.
  unfold all_objects. induction ea as [|[k0 v0] ea IH]; cbn; intros H k' w.
  - intros [[= <- <-]|[]]. eauto.
  - destruct (String.eqb k k0).
    + intros [[= <- <-]|Hin]; [eauto|]. apply (H k' w). now right.
    + intros [Heq|Hin]; [apply (H k' w); now left|].
      apply IH with (k := k'); auto. intros k1 w1 H1. apply (H k1 w1).
      now right.
Qed.

Lemma first_new_dict_set attributes k v ea :
  has_key k ea = true ->
  first_new attributes (dict_set k v ea) = first_new attributes ea.
Proof.
  intros Hk. induction attributes as [|[a x] attributes IH]; cbn;
    [reflexivity|].
  rewrite (has_key_dict_set k a v ea Hk). now rewrite IH.
Qed.

Lemma set_extattrs_new_name attributes a log :
  forall ea,
    all_objects ea -> first_new attributes ea = Some a ->
    set_extattrs attributes (JObj ea) log = (Raise (KeyError (JStr a)), log).
Proof.
  induction attributes as [|[n x] attributes IH]; cbn; [discriminate|].
  intros ea Hobj Hfn. unfold bind, lift. cbn.
  destruct (has_key n ea) eqn:E.
  - destruct (has_key_assoc _ _ E) as [w Hk]. rewrite Hk.
    destruct (Hobj _ _ (assoc_In _ _ _ Hk)) as [kv ->]. cbn.
    apply IH.
    + now apply all_objects_dict_set.
    + now rewrite first_new_dict_set.
  - injection Hfn as ->. unfold has_key in E.
    destruct (assoc a ea); [discriminate | reflexivity].
Qed.

Lemma first_new_exists attributes ea a :
  In a (map fst attributes) -> has_key a ea = false ->
  exists a', first_new attributes ea = Some a' /\
             In a' (map fst attributes) /\ has_key a' ea = false.
Proof.
  induction attributes as [|[n x] attributes IH]; cbn; [tauto|].
  intros Hin Ha. destruct (has_key n ea) eqn:E.
  - destruct Hin as [->|Hin]; [congruence|].
    destruct (IH Hin Ha) as [a' [H1 [H2 H3]]]. eauto.
  - exists n. auto.
Qed.

(** C10: the network was found with a reference and with attributes that
    are JSON objects.  When the input mapping has a name that is not among
    them, [update_network_extattrs] raises [KeyError] for such a name and
    only the lookup has been issued: no PUT. *)
Theorem update_network_extattrs_cannot_add :
  forall network attributes a log r o ref ea,
    server log (network_extattrs_lookup network) = Replied r ->
    found r o -> assoc "_ref" o = Some ref -> truthy ref = true ->
    assoc "extattrs" o = Some (JObj ea) -> all_objects ea ->
    In a (map fst attributes) -> has_key a ea = false ->
    exists a', In a' (map fst attributes) /\ has_key a' ea = false /\
      stops_with (update_network_extattrs network attributes) log
                 (network_extattrs_lookup network)
                 (KeyError (JStr a')).
Proof.
  intros network attributes a log r o ref ea Hs Hf Hr Ht Ho Hobj Hin Ha.
  destruct (first_new_exists _ _ _ Hin Ha) as [a' [H1 [H2 H3]]].
  exists a'. repeat split; auto.
  unfold_lookups. unfold update_network_extattrs. open_lookup Hs Hf.
  rewrite Hr. cbn. rewrite Ht, Ho. cbn.
  now rewrite (set_extattrs_new_name attributes a' _ ea Hobj H1).
Qed.

(** *** Summaries *)

(** A lookup answered 200 with no match: each lookup-then-mutate
    operation raises [InfobloxNotFoundException] after the lookup alone
    ([delete_fixed_address] with its flag left on). *)
Theorem lookup_without_match_stops :
  forall log r,
    no_match r ->
    (forall fqdn,
        server log (host_lookup fqdn) = Replied r ->
        stops_with (delete_host_record fqdn) log (host_lookup fqdn)
          (NotFound ("No requested host found: " ++ fqdn)))
    /\ (forall fqdn,
        server log (txt_lookup fqdn) = Replied r ->
        stops_with (delete_txt_record fqdn) log (txt_lookup fqdn)
          (NotFound ("No requested host found: " ++ fqdn)))
    /\ (forall host_fqdn alias_fqdn,
        server log (host_aliases_lookup host_fqdn) = Replied r ->
        stops_with (add_host_alias host_fqdn alias_fqdn) log
          (host_aliases_lookup host_fqdn)
          (NotFound ("No requested host found: " ++ host_fqdn)))
    /\ (forall host_fqdn alias_fqdn,
        server log (host_aliases_lookup host_fqdn) = Replied r ->
        stops_with (delete_host_alias host_fqdn alias_fqdn) log
          (host_aliases_lookup host_fqdn)
          (NotFound ("No requested host found: " ++ host_fqdn)))
    /\ (forall fqdn,
        server log (cname_lookup fqdn) = Replied r ->
        stops_with (delete_cname_record fqdn) log (cname_lookup fqdn)
          (NotFound ("No requested cname record found: " ++ fqdn)))
    /\ (forall canonical name,
        server log (cname_update_lookup name) = Replied r ->
        stops_with (update_cname_record canonical name) log
          (cname_update_lookup name)
          (NotFound ("CNAME: " ++ name ++ " not found.")))
    /\ (forall start_ip_v4 end_ip_v4,
        server log (range_lookup start_ip_v4 end_ip_v4) = Replied r ->
        stops_with (delete_dhcp_range start_ip_v4 end_ip_v4) log
          (range_lookup start_ip_v4 end_ip_v4)
          (NotFound ("No requested range found: " ++ start_ip_v4 ++ "-" ++
                     end_ip_v4)))
    /\ (forall network attributes,
        server log (network_extattrs_lookup network) = Replied r ->
        stops_with (update_network_extattrs network attributes) log
          (network_extattrs_lookup network)
          (NotFound ("No requested network found: " ++ network)))
    /\ (forall network attributes,
        server log (network_extattrs_lookup network) = Replied r ->
        stops_with (delete_network_extattrs network attributes) log
          (network_extattrs_lookup network)
          (NotFound ("No requested network found: " ++ network)))
    /\ (forall network,
        server log (network_lookup network) = Replied r ->
        stops_with (delete_network network) log (network_lookup network)
          (NotFound ("No network found: " ++ network)))
    /\ (forall networkcontainer,
        server log (container_lookup networkcontainer) = Replied r ->
        stops_with (delete_networkcontainer networkcontainer) log
          (container_lookup networkcontainer)
          (NotFound ("No network container found: " ++ networkcontainer)))
    /\ (forall ipv4addr mac,
        server log (fixed_address_lookup ipv4addr mac) = Replied r ->
        stops_with (delete_fixed_address ipv4addr mac true) log
          (fixed_address_lookup ipv4addr mac)
          (NotFound ("Fixed Address not found for IP: " ++ ipv4addr ++
                     ", MAC: " ++ mac))).
Proof.
  intros log r He. repeat split; intros.
  - now apply delete_host_record_no_match with (r := r).
  - now apply delete_txt_record_no_match with (r := r).
  - now apply add_host_alias_no_match with (r := r).
  - now apply delete_host_alias_no_match with (r := r).
  - now apply delete_cname_record_no_match with (r := r).
  - now apply update_cname_record_no_match with (r := r).
  - now apply delete_dhcp_range_no_match with (r := r).
  - now apply update_network_extattrs_no_match with (r := r).
  - now apply delete_network_extattrs_no_match with (r := r).
  - now apply delete_network_no_match with (r := r).
  - now apply delete_networkcontainer_no_match with (r := r).
  - unfold stops_with.
    now rewrite (delete_fixed_address_no_match _ _ true _ r).
Qed.

(** The parent is found and the allocation call answers 200:
    [get_next_available_ip] returns the first element of ['ips'] and
    [get_next_available_network] the first element of ['networks']. *)
Theorem allocation_returns_first_unit :
  forall log r o net_ref r2 kv,
    found r o -> assoc "_ref" o = Some (JStr net_ref) ->
    status_code r2 = 200 -> body r2 = Some (JObj kv) ->
    (forall network ip more,
        server log (network_lookup network) = Replied r ->
        server (log ++ [network_lookup network])%list (next_ip_call net_ref)
          = Replied r2 ->
        assoc "ips" kv = Some (JArr (ip :: more)) ->
        get_next_available_ip network log =
          (Ok ip, (log ++ [network_lookup network;
                           next_ip_call net_ref])%list))
    /\ (forall networkcontainer cidr net more,
        server log (container_lookup networkcontainer) = Replied r ->
        server (log ++ [container_lookup networkcontainer])%list
               (next_network_call net_ref cidr) = Replied r2 ->
        assoc "networks" kv = Some (JArr (net :: more)) ->
        get_next_available_network networkcontainer cidr log =
          (Ok net, (log ++ [container_lookup networkcontainer;
                            next_network_call net_ref cidr])%list)).
Proof.
  intros log r o net_ref r2 kv Hf Hr H2 Hb2. split; intros.
  - eapply get_next_available_ip_first; eauto.
  - eapply get_next_available_network_first; eauto.
Qed.

(** [update_cname_record]: one record for the name and a PUT answered 200
    or 201: the PUT is issued on the reference of that record; no record:
    [InfobloxNotFoundException] after the lookup alone. *)
Theorem update_cname_record_one_or_none :
  forall canonical name log r,
    server log (cname_update_lookup name) = Replied r ->
    status_code r = 200 ->
    (forall o cname_ref r2,
        body r = Some (JArr [JObj o]) ->
        assoc "_ref" o = Some (JStr cname_ref) ->
        server (log ++ [cname_update_lookup name])%list
          (mkRequest PUT ((base_url ++ "/") ++ cname_ref) []
             (TextData ("{" ++ dq ++ "canonical" ++ dq ++ ": " ++
                        json_encode (JStr canonical) ++ "}"))) = Replied r2 ->
        status_code r2 = 200 ->
        update_cname_record canonical name log =
          (Ok JNull,
           (log ++ [cname_update_lookup name;
                    mkRequest PUT ((base_url ++ "/") ++ cname_ref) []
                      (TextData ("{" ++ dq ++ "canonical" ++ dq ++ ": " ++
                                 json_encode (JStr canonical) ++ "}"))])%list))
    /\ (body r = Some (JArr []) ->
        stops_with (update_cname_record canonical name) log
          (cname_update_lookup name)
          (NotFound ("CNAME: " ++ name ++ " not found."))).
Proof.
  intros canonical name log r Hs H200. split.
  - intros. eapply update_cname_record_one; eauto.
  - intros Hb. apply update_cname_record_no_match with (r := r); auto.
    now split.
Qed.

(** [Util.get] and the reads built on it: with the flag off, a lookup
    answered 200 with no match returns [None]; with any other reply the
    flag changes nothing. *)
Theorem absence_sentinel_for_no_match_only :
  forall log,
    (forall uri query_params fields notFoundText r,
        server log (util_request uri query_params fields) = Replied r ->
        no_match r ->
        returns_none (util_get uri query_params fields notFoundText false)
                     log (util_request uri query_params fields))
    /\ (forall uri query_params fields notFoundText,
        ~ empty_reply (server log (util_request uri query_params fields)) ->
        util_get uri query_params fields notFoundText true log =
        util_get uri query_params fields notFoundText false log)
    /\ (forall fqdn fields r,
        server log (util_request "record:host"
                      (Some [("name", JStr fqdn);
                             ("view", JStr (iba_dns_view self))]) fields)
          = Replied r ->
        no_match r ->
        returns_none (get_host fqdn fields false) log
          (util_request "record:host"
             (Some [("name", JStr fqdn); ("view", JStr (iba_dns_view self))])
             fields))
    /\ (forall ip_v4 fields r,
        server log (util_request "ipv4address"
                      (Some [("ip_address", JStr ip_v4);
                             ("network_view", JStr (iba_network_view self))])
                      fields)
          = Replied r ->
        no_match r ->
        returns_none (get_host_by_ip ip_v4 fields false) log
          (util_request "ipv4address"
             (Some [("ip_address", JStr ip_v4);
                    ("network_view", JStr (iba_network_view self))])
             fields))
    /\ (forall ipv4addr mac fields r,
        server log (util_request "fixedaddress"
                      (Some [("mac", JStr mac); ("ipv4addr", JStr ipv4addr)])
                      fields)
          = Replied r ->
        no_match r ->
        returns_none (get_fixed_address ipv4addr mac fields false) log
          (util_request "fixedaddress"
             (Some [("mac", JStr mac); ("ipv4addr", JStr ipv4addr)]) fields)).
Proof.
  intros log. repeat split.
  - intros * Hs He. unfold returns_none.
    now rewrite (util_get_absent _ _ _ _ false _ _ Hs He).
  - intros. now apply util_get_flag_irrelevant.
  - intros * Hs He. unfold returns_none, get_host, bind.
    now rewrite (util_get_absent _ _ _ _ false _ _ Hs He).
  - intros * Hs He.
    unfold returns_none, get_host_by_ip, get_ipv4address_by_ip, bind.
    now rewrite (util_get_absent _ _ _ _ false _ _ Hs He).
  - intros * Hs He. unfold returns_none, get_fixed_address.
    now rewrite (util_get_absent _ _ _ _ false _ _ Hs He).
Qed.

(** *** The requests of a run *)

Lemma silent_ret {A} (a : A) : silent (ret a).
Proof. intros log. reflexivity. Qed.

Lemma silent_raise {A} (e : exn) : silent (@raise A e).
Proof. intros log. reflexivity. Qed.

Lemma silent_lift {A} (x : result A) : silent (lift x).
Proof. intros log. reflexivity. Qed.

Lemma silent_bind {A B} (m : M A) (k : A -> M B) :
  silent m -> (forall a, silent (k a)) -> silent (bind m k).
Proof.
  intros Hm Hk log. unfold bind. specialize (Hm log).
  destruct (m log) as [[a|e] log']; cbn in *; subst; [apply Hk | reflexivity].
Qed.

Lemma silent_except {A} (r : Response) (m : M A) :
  silent m -> silent (except_ValueError r m).
Proof.
  intros Hm log. unfold except_ValueError. specialize (Hm log).
  destruct (m log) as [[a|e] log']; cbn in *; subst; [reflexivity|].
  destruct e; reflexivity.
Qed.

Lemma method_prefix_refl ms : method_prefix ms ms = true.
Proof. induction ms as [|[] ms IH]; cbn; auto. Qed.

Lemma method_prefix_app l ms ms' :
  method_prefix l ms = true -> method_prefix l (ms ++ ms') = true.
Proof.
  revert ms. induction l as [|x l IH]; intros [|y ms]; cbn; auto;
    [discriminate|].
  intros H. apply andb_true_iff in H. destruct H as [-> H]. cbn. auto.
Qed.

Lemma method_prefix_cat l ms ms' :
  method_prefix l ms' = true -> method_prefix (ms ++ l) (ms ++ ms') = true.
Proof.
  induction ms as [|[] ms IH]; cbn; auto.
Qed.

Lemma silent_traced {A} ms (m : M A) : silent m -> traced ms m.
Proof.
  intros Hm log. exists []. rewrite app_nil_r. split; [apply Hm | reflexivity].
Qed.

Lemma traced_exact_traced {A} ms (m : M A) : traced_exact ms m -> traced ms m.
Proof.
  intros Hm log. destruct (Hm log) as [added [H1 H2]]. exists added.
  split; [exact H1|]. rewrite H2. apply method_prefix_refl.
Qed.

Lemma traced_bind_silent {A B} ms (m : M A) (k : A -> M B) :
  silent m -> (forall a, traced ms (k a)) -> traced ms (bind m k).
Proof.
  intros Hm Hk log. unfold bind. specialize (Hm log).
  destruct (m log) as [[a|e] log']; cbn in *; subst.
  - apply Hk.
  - exists []. now rewrite app_nil_r.
Qed.

Lemma traced_bind_then_silent {A B} ms (m : M A) (k : A -> M B) :
  traced ms m -> (forall a, silent (k a)) -> traced ms (bind m k).
Proof.
  intros Hm Hk log. unfold bind. destruct (Hm log) as [added [H1 H2]].
  destruct (m log) as [[a|e] log']; cbn in *; subst; exists added.
  - split; [apply Hk | exact H2].
  - split; [reflexivity | exact H2].
Qed.

Lemma traced_bind_exact {A B} ms ms' (m : M A) (k : A -> M B) :
  traced_exact ms m -> (forall a, traced ms' (k a)) ->
  traced (ms ++ ms') (bind m k).
Proof.
  intros Hm Hk log. unfold bind. destruct (Hm log) as [added [H1 H2]].
  destruct (m log) as [[a|e] log']; cbn in *; subst.
  - destruct (Hk a (log ++ added)%list) as [added' [H3 H4]].
    exists (added ++ added')%list. rewrite H3, app_assoc. split; [reflexivity|].
    rewrite map_app. now apply method_prefix_cat.
  - exists added. split; [reflexivity|].
    apply method_prefix_app, method_prefix_refl.
Qed.

Lemma traced_request {A} mth ms u ps d (k : Response -> M A) :
  (forall r, traced ms (k r)) ->
  traced (mth :: ms) (bind (session_request mth u ps d) k).
Proof.
  intros Hk log. unfold bind, session_request.
  destruct (server log _) as [r|].
  - destruct (raise_for_status r).
    + destruct (Hk r (log ++ [mkRequest mth u ps d])%list) as [added [H1 H2]].
      exists (mkRequest mth u ps d :: added). rewrite H1, <- app_assoc.
      split; [reflexivity|]. cbn. rewrite H2. now destruct mth.
    + exists [mkRequest mth u ps d]. split; [reflexivity|]. now destruct mth.
  - exists [mkRequest mth u ps d]. split; [reflexivity|]. now destruct mth.
Qed.

Lemma traced_exact_request {A} mth u ps d (k : Response -> M A) :
  (forall r, silent (k r)) ->
  traced_exact [mth] (bind (session_request mth u ps d) k).
Proof.
  intros Hk log. unfold bind, session_request.
  exists [mkRequest mth u ps d]. split; [|reflexivity].
  destruct (server log _) as [r|]; [|reflexivity].
  destruct (raise_for_status r); [apply Hk | reflexivity].
Qed.

Lemma traced_except {A} ms (r : Response) (m : M A) :
  traced ms m -> traced ms (except_ValueError r m).
Proof.
  intros Hm log. unfold except_ValueError. destruct (Hm log) as [added [H1 H2]].
  exists added. split; [|exact H2].
  destruct (m log) as [[a|e] log']; cbn in *; subst; [reflexivity|].
  destruct e; reflexivity.
Qed.

Lemma traced_dropped {A} ms (m : M A) : traced ms m -> traced ms (dropped m).
Proof.
  intros Hm. apply traced_bind_then_silent; [exact Hm|].
  intros a. apply silent_ret.
Qed.

Lemma silent_extattr_value r_json attribute :
  silent (extattr_value r_json attribute).
Proof.
  unfold extattr_value.
  repeat (apply silent_bind; [apply silent_lift | intros]).
  apply silent_lift.
Qed.

Lemma silent_requested_extattrs r_json names :
  forall acc, silent (requested_extattrs r_json names acc).
Proof.
  induction names as [|n names IH]; intros acc; cbn; [apply silent_ret|].
  repeat (apply silent_bind; [apply silent_lift | intros]).
  destruct a1; [|apply silent_raise].
  apply silent_bind; [apply silent_extattr_value | intros; apply IH].
Qed.

Lemma silent_all_extattrs r_json keys :
  forall acc, silent (all_extattrs r_json keys acc).
Proof.
  induction keys as [|n keys IH]; intros acc; cbn; [apply silent_ret|].
  apply silent_bind; [apply silent_extattr_value | intros; apply IH].
Qed.

Lemma silent_set_extattrs attributes :
  forall extattrs, silent (set_extattrs attributes extattrs).
Proof.
  induction attributes as [|[n x] attributes IH]; intros e; cbn;
    [apply silent_ret|].
  repeat (apply silent_bind; [apply silent_lift | intros]). apply IH.
Qed.

Lemma silent_del_extattrs attributes :
  forall extattrs, silent (del_extattrs attributes extattrs).
Proof.
  induction attributes as [|n attributes IH]; intros e; cbn;
    [apply silent_ret|].
  apply silent_bind; [apply silent_lift | intros].
  destruct a; [|apply IH].
  apply silent_bind; [apply silent_lift | intros; apply IH].
Qed.

Lemma silent_collect_field key items :
  forall out, silent (collect_field key items out).
Proof.
  induction items as [|x items IH]; intros out; cbn; [apply silent_ret|].
  apply silent_bind; [apply silent_lift | intros; apply IH].
Qed.

Lemma silent_collect_field_if_present key items :
  forall out, silent (collect_field_if_present key items out).
Proof.
  induction items as [|x items IH]; intros out; cbn; [apply silent_ret|].
  apply silent_bind; [apply silent_lift | intros].
  destruct a; [|apply IH].
  apply silent_bind; [apply silent_lift | intros; apply IH].
Qed.

Lemma silent_collect_txt items :
  forall hosts, silent (collect_txt items hosts).
Proof.
  induction items as [|x items IH]; intros hosts; cbn; [apply silent_ret|].
  repeat (apply silent_bind; [apply silent_lift | intros]).
  destruct (hashable a0); [apply IH | apply silent_raise].
Qed.

Ltac silence :=
  repeat (cbv zeta;
    first
      [ apply silent_ret | apply silent_raise | apply silent_lift
      | apply silent_except
      | apply silent_extattr_value | apply silent_requested_extattrs
      | apply silent_all_extattrs | apply silent_set_extattrs
      | apply silent_del_extattrs | apply silent_collect_field
      | apply silent_collect_field_if_present | apply silent_collect_txt
      | apply silent_bind; [|intros]
      | match goal with
        | |- silent (if ?b then _ else _) => destruct b
        | |- silent (match ?x with _ => _ end) => destruct x
        end ]).

Ltac trace :=
  repeat (cbv zeta;
    first
      [ apply traced_except
      | apply traced_request; intros
      | apply traced_bind_silent; [solve [silence] | intros]
      | match goal with
        | |- traced _ (if ?b then _ else _) => destruct b
        | |- traced _ (match ?x with _ => _ end) => destruct x
        end
      | apply silent_traced; solve [silence] ]).

Lemma traced_exact_util_get uri query_params fields notFoundText notFoundFail :
  traced_exact [GET]
    (util_get uri query_params fields notFoundText notFoundFail).
Proof.
  unfold util_get, raise_text_or_status. cbv zeta.
  apply traced_exact_request. intros r. silence.
Qed.

Lemma traced_util_post uri payload fields confirm :
  traced [POST] (util_post uri payload fields confirm).
Proof. unfold util_post, raise_text_or_status. trace. Qed.

Lemma traced_util_delete_by_ref ref notFoundText notFoundFail :
  traced [DELETE] (util_delete_by_ref ref notFoundText notFoundFail).
Proof.
  intros log. unfold util_delete_by_ref, session_delete, session_request.
  cbv zeta.
  exists [mkRequest DELETE (base_url ++ "/" ++ format_s ref) [] NoData].
  split; [|reflexivity].
  destruct (server log _) as [r|]; [|reflexivity].
  destruct (raise_for_status r) as [|e]; [reflexivity|].
  destruct e; try reflexivity. destruct notFoundFail; reflexivity.
Qed.

Lemma traced_util_put record payload confirm :
  traced [PUT] (util_put record payload confirm).
Proof. unfold util_put, session_put. trace. Qed.

Create HintDb operations discriminated.

#[local] Hint Unfold get_next_available_ip create_host_record get_cname_record
  create_txt_record delete_host_record delete_txt_record add_host_alias
  delete_host_alias create_cname_record delete_cname_record
  update_cname_record create_dhcp_range delete_dhcp_range
  get_host_by_regexp get_txt_by_regexp get_ip_by_host get_host_extattrs
  get_network get_network_by_ip get_network_by_extattrs
  get_host_by_extattrs get_network_extattrs update_network_extattrs
  delete_network_extattrs create_network delete_network
  create_networkcontainer delete_networkcontainer
  get_next_available_network get_a_record_by_fqdn create_with
  raise_text_or_status session_get session_delete session_put
  session_post : operations.

Create HintDb reads discriminated.

#[local] Hint Unfold get_host get_host_by_alias get_host_by_ip
  get_ipv4address_by_ip get_a_record_by_ip get_dhcp_range get_fixed_address
  get_grid get_pending_changes get_lease first_unless_absent : reads.

Ltac unfold_operations := autounfold with operations.

Ltac unfold_reads := autounfold with reads.

Lemma traced_exact_bind_then_silent {A B} ms (m : M A) (k : A -> M B) :
  traced_exact ms m -> (forall a, silent (k a)) -> traced_exact ms (bind m k).
Proof.
  intros Hm Hk log. unfold bind. destruct (Hm log) as [added [H1 H2]].
  destruct (m log) as [[a|e] log']; cbn in *; subst; exists added.
  - split; [apply Hk | reflexivity].
  - split; [reflexivity | reflexivity].
Qed.

(** The reads built on [Util.get] issue exactly one GET. *)
Ltac one_get :=
  unfold_reads;
  repeat first
    [ apply traced_exact_util_get
    | apply traced_exact_bind_then_silent; [|intros; solve [silence]] ].

(** Whatever the appliance answers, the requests a call issues have the
    methods of an initial segment of [methods_of]: a read issues GETs only,
    a create at most one POST, and a PUT, DELETE or function POST comes, if
    at all, second and last, after the GET of the lookup. *)
Theorem requests_follow_the_pattern :
  forall c, traced (methods_of c) (run c).
Proof.
  destruct c; cbn [run methods_of]; apply traced_dropped;
    try solve [unfold_operations; trace];
    try solve [apply traced_exact_traced; one_get].
  - unfold create_host_record.
    apply traced_bind_silent; [solve [silence] | intros].
    cbv zeta. apply traced_bind_then_silent; [apply traced_util_post|].
    intros r_json. silence.
  - unfold update_record.
    apply traced_bind_then_silent; [apply traced_util_put | intros; silence].
  - apply traced_util_post.
  - unfold delete_fixed_address.
    apply (traced_bind_exact [GET] [DELETE]); [one_get | intros].
    trace. apply traced_util_delete_by_ref.
  - unfold restart_grid_services.
    apply (traced_bind_exact [GET] [POST]); [one_get | intros].
    trace.
Qed.

(** *** A first request that fails, or is answered with something that is
    not JSON *)

Section FirstRequest.

Variable log : list Request.
Variable e : exn.

Lemma nothing_or_raises_silent {A} (m : M A) :
  silent m -> nothing_or_raises e log m.
Proof. intros H. left. apply H. Qed.

Lemma nothing_or_raises_bind_silent {A B} (m : M A) (k : A -> M B) :
  silent m -> (forall a, nothing_or_raises e log (k a)) ->
  nothing_or_raises e log (bind m k).
Proof.
  intros Hm Hk. unfold nothing_or_raises, bind. specialize (Hm log).
  destruct (m log) as [[a|e'] log']; cbn in *; subst; [apply Hk | now left].
Qed.

Lemma nothing_or_raises_bind_then_silent {A B} (m : M A) (k : A -> M B) :
  nothing_or_raises e log m -> (forall a, silent (k a)) ->
  nothing_or_raises e log (bind m k).
Proof.
  intros [Hm|[q Hq]] Hk; unfold nothing_or_raises, bind.
  - left. destruct (m log) as [[a|e'] log']; cbn in *; subst;
      [apply Hk | reflexivity].
  - right. exists q. now rewrite Hq.
Qed.

Lemma raises_after_one_bind {A B} (m : M A) (k : A -> M B) :
  raises_after_one e log m -> raises_after_one e log (bind m k).
Proof.
  intros [q Hq]. exists q. unfold bind. now rewrite Hq.
Qed.

Lemma raises_after_one_weaken {A} (m : M A) :
  raises_after_one e log m -> nothing_or_raises e log m.
Proof. intros H. now right. Qed.

Section Refused.

Variable reply : Reply.
Hypothesis every_request : forall q, server log q = reply.
Hypothesis is_refused : refused reply e.

Lemma session_request_refused mth u ps d :
  session_request mth u ps d log =
    (Raise e, (log ++ [mkRequest mth u ps d])%list).
Proof.
  unfold session_request. cbv zeta. rewrite every_request.
  destruct is_refused as [[-> ->]|[r [-> [Hst ->]]]]; [reflexivity|].
  unfold raise_for_status.
  replace ((400 <=? status_code r) && (status_code r <? 600)) with true;
    [reflexivity|].
  symmetry. apply andb_true_iff. split; [apply Z.leb_le | apply Z.ltb_lt]; lia.
Qed.

Lemma e_not_ValueError : e <> ValueError.
Proof.
  destruct is_refused as [[_ ->]|[r [_ [_ ->]]]]; discriminate.
Qed.

Lemma raises_after_one_request {A} mth u ps d (k : Response -> M A) :
  raises_after_one e log (bind (session_request mth u ps d) k).
Proof.
  exists (mkRequest mth u ps d). unfold bind.
  now rewrite session_request_refused.
Qed.

Lemma raises_after_one_session mth u ps d :
  raises_after_one e log (session_request mth u ps d).
Proof.
  exists (mkRequest mth u ps d). apply session_request_refused.
Qed.

Ltac refuse :=
  repeat (cbv zeta;
    first
      [ apply raises_after_one_weaken; repeat apply raises_after_one_bind;
        apply raises_after_one_session
      | apply nothing_or_raises_bind_silent; [solve [silence] | intros]
      | match goal with
        | |- nothing_or_raises _ _ (if ?b then _ else _) => destruct b
        | |- nothing_or_raises _ _ (match ?x with _ => _ end) => destruct x
        end
      | apply nothing_or_raises_silent; solve [silence] ]).

(** The first request of a call is not answered, or is answered with an
    error status: the call stops there and raises what the session raised,
    [ConnectionError] or [HTTPError], whatever the operation. *)
Theorem first_failure_is_raised_unchanged :
  forall c, nothing_or_raises e log (run c).
Proof.
  destruct c; cbn [run]; unfold dropped;
    try solve [apply raises_after_one_weaken;
               unfold_operations; unfold_reads;
               repeat apply raises_after_one_bind;
               apply raises_after_one_session].
  - apply nothing_or_raises_bind_then_silent; [|intros; apply silent_ret].
    unfold create_host_record. refuse.
  - apply nothing_or_raises_bind_then_silent; [|intros; apply silent_ret].
    unfold update_record, util_put, session_put.
    apply nothing_or_raises_bind_then_silent; [|intros; apply silent_ret].
    refuse.
  - apply nothing_or_raises_bind_then_silent; [|intros; apply silent_ret].
    unfold create_fixed_address, util_post. refuse.
Qed.

End Refused.

Section NotJSON.

Variable r : Response.
Hypothesis every_request : forall q, server log q = Replied r.
Hypothesis passes : raise_for_status r = Ok tt.
Hypothesis not_json : body r = None.
Hypothesis e_is : e = InfobloxGeneralException (PResp r).

Lemma raises_after_one_unparsed {A} mth u ps d (k : Response -> json -> M A) :
  raises_after_one e log
    (bind (session_request mth u ps d)
          (fun r' => except_ValueError r' (bind (lift (json_of r')) (k r')))).
Proof.
  exists (mkRequest mth u ps d).
  unfold bind, session_request, except_ValueError, lift, json_of. cbv zeta.
  rewrite every_request, passes, not_json, e_is. reflexivity.
Qed.

Ltac strip_binds :=
  repeat match goal with
         | |- raises_after_one _ _ (bind (bind _ _) _) =>
             apply raises_after_one_bind
         end.

Ltac unparsed :=
  apply raises_after_one_weaken; strip_binds;
  apply raises_after_one_unparsed.

(** The first request of a call is answered with a body that is not JSON
    (and a status that is no error): every operation that parses the body
    raises [InfobloxGeneralException] carrying the response, whatever the
    status, 200 and 201 included. *)
Theorem unparsable_reply_is_general :
  forall c, parses_reply c = true -> nothing_or_raises e log (run c).
Proof.
  destruct c; cbn [run parses_reply]; intros Hc; try discriminate Hc;
    unfold dropped;
    try solve [unfold_operations; unfold_reads; try unfold util_get;
               cbv zeta; unparsed].
  - apply nothing_or_raises_bind_then_silent; [|intros; apply silent_ret].
    unfold create_host_record.
    apply nothing_or_raises_bind_silent; [solve [silence] | intros].
    unfold util_post. cbn [negb]. cbv zeta. unparsed.
  - apply nothing_or_raises_bind_then_silent; [|intros; apply silent_ret].
    unfold create_fixed_address, util_post.
    destruct confirm; cbn [negb]; cbv zeta.
    + unfold_operations. unparsed.
    + apply nothing_or_raises_silent, silent_ret.
  - unfold delete_fixed_address, get_fixed_address, util_get. cbv zeta.
    unparsed.
  - unfold restart_grid_services, get_grid, util_get. cbv zeta. unparsed.
Qed.

End NotJSON.

Section Unexpected.

Variable r : Response.
Variable kv : list (string * json).
Hypothesis every_request : forall q, server log q = Replied r.
Hypothesis passes : raise_for_status r = Ok tt.
Hypothesis not_200 : status_code r <> 200.
Hypothesis not_201 : status_code r <> 201.
Hypothesis body_is : body r = Some (JObj kv).
Hypothesis no_text : has_key "text" kv = false.

Ltac fall_off :=
  unfold returns_after_one; eexists; eexists;
  unfold bind, session_get, session_post, session_put, session_delete,
    session_request, except_ValueError, lift, json_of, raise_text_or_status,
    ret;
  cbv zeta beta; rewrite every_request, passes, body_is; cbv iota beta;
  rewrite ?(proj2 (Z.eqb_neq _ _) not_200), ?(proj2 (Z.eqb_neq _ _) not_201);
  cbn [orb py_in]; rewrite no_text; cbv iota beta;
  rewrite ?passes; cbv iota beta; reflexivity.

(** The first request of a call is answered with a status that is neither
    an error nor 200 or 201, and a JSON object without ['text']: the
    [else] branch of the handler raises nothing, since [raise_for_status]
    has nothing to raise, and the call returns as if it had succeeded. *)
Theorem unexpected_status_is_not_reported :
  forall c, passes_the_result_on c = true -> returns_after_one log (run c).
Proof.
  destruct c; cbn [run passes_the_result_on]; intros Hc;
    repeat match goal with b : bool |- _ => destruct b end;
    try discriminate Hc; unfold dropped;
    unfold_operations; unfold_reads; try unfold create_fixed_address;
    try unfold util_get; try unfold util_post;
    cbn [negb]; cbv zeta; fall_off.
Qed.

End Unexpected.

End FirstRequest.

(** *** A mutation goes to the reference that the lookup returned *)

Lemma then_at_most_silent {A} P log' (m : M A) :
  silent m -> then_at_most P log' m.
Proof. intros H. left. apply H. Qed.

Lemma then_at_most_bind_lift {A B} P log' (x : result A) (k : A -> M B) :
  (forall a, x = Ok a -> then_at_most P log' (k a)) ->
  then_at_most P log' (bind (lift x) k).
Proof.
  intros Hk. unfold then_at_most, bind, lift.
  destruct x as [a|e]; [now apply Hk | now left].
Qed.

Lemma then_at_most_bind_silent {A B} P log' (m : M A) (k : A -> M B) :
  silent m -> (forall a, then_at_most P log' (k a)) ->
  then_at_most P log' (bind m k).
Proof.
  intros Hm Hk. unfold then_at_most, bind. specialize (Hm log').
  destruct (m log') as [[a|e] l]; cbn in *; subst; [apply Hk | now left].
Qed.

Lemma then_at_most_except {A} P log' r (m : M A) :
  then_at_most P log' m -> then_at_most P log' (except_ValueError r m).
Proof.
  unfold then_at_most, except_ValueError.
  destruct (m log') as [[a|e] l]; [auto|]. destruct e; auto.
Qed.

Lemma then_at_most_request {A} (P : Request -> Prop) log' mth u ps d
    (k : Response -> M A) :
  P (mkRequest mth u ps d) -> (forall r, silent (k r)) ->
  then_at_most P log' (bind (session_request mth u ps d) k).
Proof.
  intros HP Hk. right. exists (mkRequest mth u ps d). split; [|exact HP].
  unfold bind, session_request. cbv zeta.
  destruct (server log' _) as [r|]; [|reflexivity].
  destruct (raise_for_status r); [apply Hk | reflexivity].
Qed.

Lemma lookup_then_request {A} mth u ps d P (k : Response -> M A) :
  (forall log r,
      server log (mkRequest mth u ps d) = Replied r ->
      then_at_most (P r) (log ++ [mkRequest mth u ps d])%list (k r)) ->
  lookup_then (mkRequest mth u ps d) P (bind (session_request mth u ps d) k).
Proof.
  intros Hk log. unfold bind, session_request. cbv zeta.
  destruct (server log _) as [r|] eqn:Hs; [|now left].
  destruct (raise_for_status r); [|now left].
  destruct (Hk log r Hs) as [H|[q [H HP]]]; [now left|].
  right. exists r, q. rewrite H, <- app_assoc. auto.
Qed.

Lemma lookup_then_silent {A B} lookup P (m : M A) (k : A -> M B) :
  lookup_then lookup P m -> (forall a, silent (k a)) ->
  lookup_then lookup P (bind m k).
Proof.
  intros Hm Hk log. unfold bind.
  destruct (Hm log) as [H|[r [q [Hs [HP H]]]]];
    destruct (m log) as [[a|e] l]; cbn in *; subst.
  - left. apply Hk.
  - now left.
  - right. exists r, q. rewrite Hk. auto.
  - right. exists r, q. auto.
Qed.

Ltac after_lookup :=
  repeat (cbv zeta;
    first
      [ apply then_at_most_except
      | apply then_at_most_bind_lift; intros ? ?
      | match goal with
        | |- then_at_most _ _ (if ?b then _ else _) => destruct b eqn:?
        end
      | apply then_at_most_silent; solve [silence]
      | apply then_at_most_bind_silent; [solve [silence] | intros ?] ]).

Lemma first_ref_intro r j r0 ref :
  (status_code r =? 200) = true -> json_of r = Ok j ->
  py_item0 j = Ok r0 -> py_getitem r0 "_ref" = Ok ref ->
  first_ref r ref.
Proof.
  intros H200 Hj H0 Hr. split; [now apply Z.eqb_eq|].
  unfold json_of in Hj. destruct (body r) as [j'|]; [|discriminate].
  injection Hj as ->.
  destruct j as [| | |s|[|x l]|kv]; try discriminate.
  - destruct s; [discriminate|]. injection H0 as <-. discriminate.
  - injection H0 as ->. destruct r0 as [| | | | |o]; try discriminate.
    cbn in Hr. destruct (assoc "_ref" o) eqn:E; [|discriminate].
    injection Hr as ->. eauto.
Qed.

Lemma ref_names_true kind ref fqdn :
  ref_names kind ref fqdn = Ok true ->
  exists s, ref = JStr s /\ embedded_name kind s = Some fqdn.
Proof.
  unfold ref_names, embedded_name. destruct (truthy ref); [|discriminate].
  destruct ref as [| | |s| |]; try discriminate.
  destruct (re_match (re_ref kind) s) as [[g|]|] eqn:E; try discriminate.
  intros [= H]. apply String.eqb_eq in H. subst. exists s. rewrite E.
  split; reflexivity.
Qed.

Lemma on_named_reference_intro mth kind fqdn r j r0 ref valid u ps d :
  (status_code r =? 200) = true -> json_of r = Ok j ->
  py_item0 j = Ok r0 -> py_getitem r0 "_ref" = Ok ref ->
  ref_names kind ref fqdn = Ok valid -> valid = true ->
  py_concat (base_url ++ "/") ref = Ok u ->
  on_named_reference mth kind fqdn r (mkRequest mth u ps d).
Proof.
  intros H200 Hj H0 Hr Hv -> Hu.
  destruct (ref_names_true _ _ _ Hv) as [s [-> Hs]].
  exists s. split; [eapply first_ref_intro; eauto|].
  cbn in Hu. injection Hu as <-.
  repeat split; auto. cbn. apply append_assoc.
Qed.

Lemma on_returned_reference_intro mth r j r0 ref u ps d :
  (status_code r =? 200) = true -> json_of r = Ok j ->
  py_item0 j = Ok r0 -> py_getitem r0 "_ref" = Ok ref ->
  truthy ref = true ->
  py_concat (base_url ++ "/") ref = Ok u ->
  on_returned_reference mth r (mkRequest mth u ps d).
Proof.
  intros H200 Hj H0 Hr Ht Hu.
  destruct ref as [| | |s| |]; try discriminate.
  exists s. split; [eapply first_ref_intro; eauto|].
  cbn in Hu. injection Hu as <-.
  repeat split; auto.
  - intros ->. discriminate.
  - cbn. apply append_assoc.
Qed.

Lemma delete_host_record_guarded fqdn :
  lookup_then (host_lookup fqdn)
    (on_named_reference DELETE "record:host" fqdn)
    (delete_host_record fqdn).
Proof.
  unfold delete_host_record, host_lookup, GET_of, session_get,
    session_delete, raise_text_or_status.
  cbv zeta. apply lookup_then_request. intros log r Hs. after_lookup.
  apply then_at_most_request; [|intros; silence].
  eapply on_named_reference_intro; eauto.
Qed.

Lemma delete_txt_record_guarded fqdn :
  lookup_then (txt_lookup fqdn)
    (on_named_reference DELETE "record:txt" fqdn)
    (delete_txt_record fqdn).
Proof.
  unfold delete_txt_record, txt_lookup, GET_of, session_get,
    session_delete, raise_text_or_status.
  cbv zeta. apply lookup_then_request. intros log r Hs. after_lookup.
  apply then_at_most_request; [|intros; silence].
  eapply on_named_reference_intro; eauto.
Qed.

Lemma add_host_alias_guarded host_fqdn alias_fqdn :
  lookup_then (host_aliases_lookup host_fqdn)
    (on_named_reference PUT "record:host" host_fqdn)
    (add_host_alias host_fqdn alias_fqdn).
Proof.
  unfold add_host_alias, host_aliases_lookup, GET_of, session_get,
    session_put, raise_text_or_status.
  cbv zeta. apply lookup_then_request. intros log r Hs. after_lookup.
  apply then_at_most_request; [|intros; silence].
  eapply on_named_reference_intro; eauto.
Qed.

Lemma delete_host_alias_guarded host_fqdn alias_fqdn :
  lookup_then (host_aliases_lookup host_fqdn)
    (on_named_reference PUT "record:host" host_fqdn)
    (delete_host_alias host_fqdn alias_fqdn).
Proof.
  unfold delete_host_alias, host_aliases_lookup, GET_of, session_get,
    session_put, raise_text_or_status.
  cbv zeta. apply lookup_then_request. intros log r Hs. after_lookup.
  apply then_at_most_request; [|intros; silence].
  eapply on_named_reference_intro; eauto.
Qed.

Lemma delete_cname_record_guarded fqdn :
  lookup_then (cname_lookup fqdn)
    (on_named_reference DELETE "record:cname" fqdn)
    (delete_cname_record fqdn).
Proof.
  unfold delete_cname_record, cname_lookup, GET_of, session_get,
    session_delete, raise_text_or_status.
  cbv zeta. apply lookup_then_request. intros log r Hs. after_lookup.
  apply then_at_most_request; [|intros; silence].
  match goal with
  | H : ref_names _ _ _ = Ok true |- _ =>
      destruct (ref_names_true _ _ _ H) as [s [-> Hname]]
  end.
  exists s. split; [eapply first_ref_intro; eauto|]. auto.
Qed.

(** The record handlers: after the lookup, nothing more is issued, or one
    DELETE (PUT for the aliases) on the reference of the first match of a
    200 reply, a reference that names the requested FQDN. *)
Theorem record_mutation_goes_to_the_named_reference :
  (forall fqdn,
      lookup_then (host_lookup fqdn)
        (on_named_reference DELETE "record:host" fqdn)
        (delete_host_record fqdn))
  /\ (forall fqdn,
      lookup_then (txt_lookup fqdn)
        (on_named_reference DELETE "record:txt" fqdn)
        (delete_txt_record fqdn))
  /\ (forall fqdn,
      lookup_then (cname_lookup fqdn)
        (on_named_reference DELETE "record:cname" fqdn)
        (delete_cname_record fqdn))
  /\ (forall host_fqdn alias_fqdn,
      lookup_then (host_aliases_lookup host_fqdn)
        (on_named_reference PUT "record:host" host_fqdn)
        (add_host_alias host_fqdn alias_fqdn))
  /\ (forall host_fqdn alias_fqdn,
      lookup_then (host_aliases_lookup host_fqdn)
        (on_named_reference PUT "record:host" host_fqdn)
        (delete_host_alias host_fqdn alias_fqdn)).
Proof.
  repeat split; intros.
  - apply delete_host_record_guarded.
  - apply delete_txt_record_guarded.
  - apply delete_cname_record_guarded.
  - apply add_host_alias_guarded.
  - apply delete_host_alias_guarded.
Qed.

Ltac returned_reference :=
  cbv zeta; apply lookup_then_request; intros log r Hs; after_lookup;
  (apply then_at_most_request; [|intros; silence]);
  eapply on_returned_reference_intro; eauto.

Lemma delete_network_guarded network :
  lookup_then (network_lookup network) (on_returned_reference DELETE)
              (delete_network network).
Proof.
  unfold delete_network, network_lookup, GET_of, session_get,
    session_delete, raise_text_or_status.
  returned_reference.
Qed.

Lemma delete_networkcontainer_guarded networkcontainer :
  lookup_then (container_lookup networkcontainer)
              (on_returned_reference DELETE)
              (delete_networkcontainer networkcontainer).
Proof.
  unfold delete_networkcontainer, container_lookup, GET_of, session_get,
    session_delete, raise_text_or_status.
  returned_reference.
Qed.

Lemma delete_dhcp_range_guarded start_ip_v4 end_ip_v4 :
  lookup_then (range_lookup start_ip_v4 end_ip_v4)
              (on_returned_reference DELETE)
              (delete_dhcp_range start_ip_v4 end_ip_v4).
Proof.
  unfold delete_dhcp_range, range_lookup, GET_of, session_get,
    session_delete, raise_text_or_status.
  returned_reference.
Qed.

Lemma update_network_extattrs_guarded network attributes :
  lookup_then (network_extattrs_lookup network) (on_returned_reference PUT)
              (update_network_extattrs network attributes).
Proof.
  unfold update_network_extattrs, network_extattrs_lookup, GET_of,
    session_get, session_put, raise_text_or_status.
  returned_reference.
Qed.

Lemma delete_network_extattrs_guarded network attributes :
  lookup_then (network_extattrs_lookup network) (on_returned_reference PUT)
              (delete_network_extattrs network attributes).
Proof.
  unfold delete_network_extattrs, network_extattrs_lookup, GET_of,
    session_get, session_put, raise_text_or_status.
  returned_reference.
Qed.

(** The network, container, range and network-attribute handlers: after
    the lookup, nothing more is issued, or one DELETE (PUT for the
    attributes) on the reference of the first match of a 200 reply, a
    non-empty string that the client did not build. *)
Theorem network_mutation_goes_to_the_returned_reference :
  (forall network,
      lookup_then (network_lookup network) (on_returned_reference DELETE)
                  (delete_network network))
  /\ (forall networkcontainer,
      lookup_then (container_lookup networkcontainer)
                  (on_returned_reference DELETE)
                  (delete_networkcontainer networkcontainer))
  /\ (forall start_ip_v4 end_ip_v4,
      lookup_then (range_lookup start_ip_v4 end_ip_v4)
                  (on_returned_reference DELETE)
                  (delete_dhcp_range start_ip_v4 end_ip_v4))
  /\ (forall network attributes,
      lookup_then (network_extattrs_lookup network)
                  (on_returned_reference PUT)
                  (update_network_extattrs network attributes))
  /\ (forall network attributes,
      lookup_then (network_extattrs_lookup network)
                  (on_returned_reference PUT)
                  (delete_network_extattrs network attributes)).
Proof.
  repeat split; intros.
  - apply delete_network_guarded.
  - apply delete_networkcontainer_guarded.
  - apply delete_dhcp_range_guarded.
  - apply update_network_extattrs_guarded.
  - apply delete_network_extattrs_guarded.
Qed.

Lemma then_at_most_bind_bind {A B C} P log' (m : M A) (f : A -> M B)
    (g : B -> M C) :
  then_at_most P log' (bind m (fun x => bind (f x) g)) ->
  then_at_most P log' (bind (bind m f) g).
Proof.
  unfold then_at_most, bind. destruct (m log') as [[a|e] l]; auto.
Qed.

Lemma lookup_then_bind_bind {A B C} lookup P (m : M A) (f : A -> M B)
    (g : B -> M C) :
  lookup_then lookup P (bind m (fun x => bind (f x) g)) ->
  lookup_then lookup P (bind (bind m f) g).
Proof.
  intros H log. specialize (H log). unfold bind in *.
  destruct (m log) as [[a|e] l]; auto.
Qed.

Lemma update_cname_record_guarded canonical name :
  lookup_then (cname_update_lookup name) on_only_match
              (update_cname_record canonical name).
Proof.
  unfold update_cname_record, cname_update_lookup, session_put,
    raise_text_or_status.
  cbv zeta. apply lookup_then_request. intros log r Hs.
  apply then_at_most_except.
  apply then_at_most_bind_lift. intros j Hj.
  destruct (status_code r =? 200) eqn:H200.
  - apply then_at_most_bind_bind.
    apply then_at_most_bind_lift. intros n Hn.
    apply (then_at_most_bind_lift _ _ (Ok (n =? 1)%nat)). intros one [= <-].
    destruct (n =? 1)%nat eqn:H1; [|after_lookup].
    after_lookup.
    apply then_at_most_request; [|intros; silence].
    apply Nat.eqb_eq in H1. subst n.
    match goal with
    | H0 : py_item0 _ = Ok ?r0, Hr : py_getitem ?r0 "_ref" = Ok ?ref,
      Hu : py_concat _ ?ref = Ok _ |- _ =>
        destruct ref as [| | |s| |]; try discriminate Hu;
        cbn in Hu; injection Hu as <-;
        destruct (first_ref_intro r _ _ _ H200 H H0 Hr)
          as [E200 [o [rest [Hb Ho]]]]
    end.
    unfold json_of in Hj. rewrite Hb in Hj. injection Hj as <-.
    destruct rest; [|discriminate].
    exists o, s. repeat split; auto. cbn. apply append_assoc.
  - apply (then_at_most_bind_lift _ _ (Ok false)). intros one [= <-].
    after_lookup.
Qed.

Lemma on_reference_intro mth (target : json -> string) r j r0 ref u ps d :
  (status_code r =? 200) = true -> json_of r = Ok j ->
  py_item0 j = Ok r0 -> py_getitem r0 "_ref" = Ok ref ->
  u = base_url ++ "/" ++ target ref ->
  on_reference mth target r (mkRequest mth u ps d).
Proof.
  intros H200 Hj H0 Hr ->. exists ref.
  split; [eapply first_ref_intro; eauto|]. auto.
Qed.

Lemma get_next_available_ip_guarded network :
  lookup_then (network_lookup network)
    (on_reference POST
       (fun ref => format_s ref ++ "?_function=next_available_ip&num=1"))
    (get_next_available_ip network).
Proof.
  unfold get_next_available_ip, network_lookup, GET_of, session_get,
    session_post, raise_text_or_status.
  cbv zeta. apply lookup_then_request. intros log r Hs. after_lookup.
  apply then_at_most_request; [|intros; silence].
  eapply on_reference_intro; eauto.
  match goal with
  | Hu : py_concat _ ?ref = Ok _ |- _ =>
      destruct ref as [| | |s| |]; try discriminate Hu;
      cbn in Hu; injection Hu as <-
  end.
  cbn. now rewrite !append_assoc.
Qed.

Lemma get_next_available_network_guarded networkcontainer cidr :
  lookup_then (container_lookup networkcontainer)
    (on_reference POST
       (fun ref => format_s ref ++ "?_function=next_available_network&cidr="
                   ++ py_str (JNum cidr) ++ "&num=1"))
    (get_next_available_network networkcontainer cidr).
Proof.
  unfold get_next_available_network, container_lookup, GET_of, session_get,
    session_post, raise_text_or_status.
  cbv zeta. apply lookup_then_request. intros log r Hs. after_lookup.
  apply then_at_most_request; [|intros; silence].
  eapply on_reference_intro; eauto.
  match goal with
  | Hu : py_concat _ ?ref = Ok _ |- _ =>
      destruct ref as [| | |s| |]; try discriminate Hu;
      cbn in Hu; injection Hu as <-
  end.
  cbn. now rewrite !append_assoc.
Qed.

(** What [Util.get] returns: [None], or the body of a 200 reply. *)
Lemma then_at_most_after_util_get {A} P log' r notFoundText notFoundFail
    (k : json -> M A) :
  (forall j, (status_code r =? 200) = true -> json_of r = Ok j ->
             then_at_most P log' (k j)) ->
  then_at_most P log' (k JNull) ->
  then_at_most P log'
    (bind (except_ValueError r
             (r_json <- lift (json_of r) ;;
              if status_code r =? 200 then
                n <- lift (py_len r_json) ;;
                if (0 <? n)%nat then ret r_json
                else if notFoundFail : bool then
                  raise (InfobloxNotFoundException (opt_text notFoundText))
                else ret JNull
              else raise_text_or_status InfobloxGeneralException r r_json))
          k).
Proof.
  intros Hk Hnull.
  unfold then_at_most, bind, except_ValueError, raise_text_or_status, lift,
    ret, raise in *.
  destruct (json_of r) as [j|e] eqn:Hj; [|destruct e; now left].
  destruct (status_code r =? 200) eqn:H200.
  - destruct (py_len j) as [n|e]; [|destruct e; now left].
    destruct (0 <? n)%nat; [now apply Hk|].
    destruct notFoundFail; [now left | exact Hnull].
  - destruct (py_in "text" j) as [[|]|e]; [| |destruct e; now left].
    + destruct (py_getitem j "text") as [t|e]; [now left|].
      destruct e; now left.
    + destruct (raise_for_status r) as [|e]; [exact Hnull|].
      destruct e; now left.
Qed.

Lemma then_at_most_delete_by_ref (P : Request -> Prop) log' ref notFoundText
    notFoundFail :
  P (mkRequest DELETE (base_url ++ "/" ++ format_s ref) [] NoData) ->
  then_at_most P log' (util_delete_by_ref ref notFoundText notFoundFail).
Proof.
  intros HP. right. eexists. split; [|exact HP].
  unfold util_delete_by_ref, session_delete, session_request. cbv zeta.
  destruct (server log' _) as [r|]; [|reflexivity].
  destruct (raise_for_status r) as [|e]; [reflexivity|].
  destruct e; try reflexivity. destruct notFoundFail; reflexivity.
Qed.

Lemma delete_fixed_address_guarded ipv4addr mac not_found_fail :
  lookup_then (fixed_address_lookup ipv4addr mac)
              (on_reference DELETE format_s)
              (delete_fixed_address ipv4addr mac not_found_fail).
Proof.
  unfold delete_fixed_address, get_fixed_address, util_get,
    fixed_address_lookup, util_request.
  cbv zeta. apply lookup_then_bind_bind, lookup_then_request.
  intros log r Hs. apply then_at_most_after_util_get.
  - intros j H200 Hj. after_lookup.
    apply then_at_most_delete_by_ref.
    eapply on_reference_intro; eauto.
  - after_lookup. discriminate.
Qed.

Lemma restart_grid_services_guarded payload name :
  lookup_then (util_request "grid"
                 match name with
                 | Some nm => Some [("name", JStr nm)]
                 | None => None
                 end None)
    (on_reference POST
       (fun ref => format_s ref ++ "?_function=restartservices"))
    (restart_grid_services payload name).
Proof.
  unfold restart_grid_services, get_grid, util_get, util_request.
  cbv zeta. apply lookup_then_bind_bind, lookup_then_request.
  intros log r Hs.
  apply (then_at_most_after_util_get _ _ r (Some "No grid found.") true).
  - intros j H200 Hj. unfold util_post, raise_text_or_status. cbn [negb].
    after_lookup.
    apply then_at_most_request; [|intros; silence].
    eapply on_reference_intro; eauto.
  - after_lookup. discriminate.
Qed.

(** The remaining two-step operations: the PUT of [update_cname_record]
    goes to the reference of the only match, the function calls of
    [get_next_available_ip], [get_next_available_network] and
    [restart_grid_services] and the DELETE of [delete_fixed_address] go to
    the reference of the first match; without such a reply to the lookup
    nothing is issued after it. *)
Theorem second_request_goes_to_the_returned_reference :
  (forall canonical name,
      lookup_then (cname_update_lookup name) on_only_match
                  (update_cname_record canonical name))
  /\ (forall network,
      lookup_then (network_lookup network)
        (on_reference POST
           (fun ref => format_s ref ++ "?_function=next_available_ip&num=1"))
        (get_next_available_ip network))
  /\ (forall networkcontainer cidr,
      lookup_then (container_lookup networkcontainer)
        (on_reference POST
           (fun ref =>
              format_s ref ++ "?_function=next_available_network&cidr=" ++
              py_str (JNum cidr) ++ "&num=1"))
        (get_next_available_network networkcontainer cidr))
  /\ (forall ipv4addr mac not_found_fail,
      lookup_then (fixed_address_lookup ipv4addr mac)
                  (on_reference DELETE format_s)
                  (delete_fixed_address ipv4addr mac not_found_fail))
  /\ (forall payload name,
      lookup_then (util_request "grid"
                     match name with
                     | Some nm => Some [("name", JStr nm)]
                     | None => None
                     end None)
        (on_reference POST
           (fun ref => format_s ref ++ "?_function=restartservices"))
        (restart_grid_services payload name)).
Proof.
  repeat split; intros.
  - apply update_cname_record_guarded.
  - apply get_next_available_ip_guarded.
  - apply get_next_available_network_guarded.
  - apply delete_fixed_address_guarded.
  - apply restart_grid_services_guarded.
Qed.

(** *** The filter of the searches by extensible attributes *)

Lemma split_on_comma_free s :
  comma_free s -> split_on "," s = [s].
Proof.
  unfold comma_free. induction s as [|c s IH]; [reflexivity|].
  cbn [all_in split_on]. intros H.
  apply andb_true_iff in H. destruct H as [Hc Hs].
  apply negb_true_iff in Hc. rewrite Hc, (IH Hs). reflexivity.
Qed.

Lemma split_on_clause x s :
  comma_free x ->
  split_on "," (x ++ String "," s) = x :: split_on "," s.
Proof.
  unfold comma_free. induction x as [|c x IH].
  - intros _. change (EmptyString ++ String "," s) with (String "," s).
    cbn [split_on]. now rewrite Ascii.eqb_refl.
  - change (String c x ++ String "," s) with (String c (x ++ String "," s)).
    cbn [all_in split_on]. intros H.
    apply andb_true_iff in H. destruct H as [Hc Hx].
    apply negb_true_iff in Hc. rewrite Hc, (IH Hx). reflexivity.
Qed.

Lemma split_on_join clauses :
  clauses <> [] -> Forall comma_free clauses ->
  split_on "," (join "," clauses) = clauses.
Proof.
  induction clauses as [|x [|y rest] IH]; intros Hne Hall; [congruence| |].
  - cbn. apply split_on_comma_free. now inversion Hall.
  - change (join "," (x :: y :: rest))
      with (x ++ String "," (join "," (y :: rest))).
    inversion Hall as [|? ? Hx Hrest]; subst.
    rewrite (split_on_clause _ _ Hx), IH; [reflexivity | discriminate | easy].
Qed.

Lemma star_join clauses :
  clauses <> [] -> "*" ++ join "&*" clauses = starred clauses.
Proof.
  unfold starred.
  induction clauses as [|x [|y rest] IH]; intros Hne; [congruence| |].
  - reflexivity.
  - change (join "&*" (x :: y :: rest))
      with (x ++ "&" ++ ("*" ++ join "&*" (y :: rest))).
    rewrite IH by discriminate. reflexivity.
Qed.

Lemma request_then_silent {A} mth u ps d (k : Response -> M A) log :
  (forall r, silent (k r)) ->
  snd (bind (session_request mth u ps d) k log) =
    (log ++ [mkRequest mth u ps d])%list.
Proof.
  intros Hk. unfold bind, session_request. cbv zeta.
  destruct (server log _) as [r|]; [|reflexivity].
  destruct (raise_for_status r); [apply Hk | reflexivity].
Qed.

(** A filter written as clauses separated by commas is sent with a [*] in
    front of every clause and [&] between them, each clause verbatim:
    whatever the appliance answers, [get_network_by_extattrs] and
    [get_host_by_extattrs] issue exactly the GET with that query. *)
Theorem filter_is_sent_clause_by_clause :
  forall clauses log,
    clauses <> [] -> Forall comma_free clauses ->
    snd (get_network_by_extattrs (join "," clauses) log) =
      (log ++ [GET_of (base_url ++ "/network?" ++ starred clauses ++
                       "&network_view=" ++ iba_network_view self)])%list
    /\
    snd (get_host_by_extattrs (join "," clauses) log) =
      (log ++ [GET_of (base_url ++ "/record:host?" ++ starred clauses ++
                       "&view=" ++ iba_dns_view self)])%list.
Proof.
  intros clauses log Hne Hall.
  assert (Hq : forall tail,
             "*" ++ extattr_query (join "," clauses) ++ tail =
             starred clauses ++ tail).
  { intros tail. unfold extattr_query.
    rewrite (split_on_join _ Hne Hall), <- (star_join _ Hne).
    now rewrite append_assoc. }
  split.
  - unfold get_network_by_extattrs, session_get, raise_text_or_status, GET_of.
    cbv zeta. rewrite request_then_silent by (intros; silence).
    change ("/network?*" ++ extattr_query (join "," clauses) ++
            "&network_view=" ++ iba_network_view self)
      with ("/network?" ++ ("*" ++ extattr_query (join "," clauses) ++
            "&network_view=" ++ iba_network_view self)).
    now rewrite Hq.
  - unfold get_host_by_extattrs, session_get, raise_text_or_status, GET_of.
    cbv zeta. rewrite request_then_silent by (intros; silence).
    change ("/record:host?*" ++ extattr_query (join "," clauses) ++
            "&view=" ++ iba_dns_view self)
      with ("/record:host?" ++ ("*" ++ extattr_query (join "," clauses) ++
            "&view=" ++ iba_dns_view self)).
    now rewrite Hq.
Qed.

(** *** The alias list sent by [add_host_alias] and [delete_host_alias] *)

Lemma silent_raise_text_or_status E r r_json :
  silent (raise_text_or_status E r r_json).
Proof. unfold raise_text_or_status. silence. Qed.

Lemma snd_put_then_status u d log' r_json :
  snd (bind (session_put u d)
            (fun r => if status_code r =? 200 then ret JNull
                      else raise_text_or_status InfobloxGeneralException r
                                                r_json) log') =
    (log' ++ [mkRequest PUT u [] (TextData d)])%list.
Proof.
  unfold session_put. apply request_then_silent. intros r.
  destruct (status_code r =? 200);
    [apply silent_ret | apply silent_raise_text_or_status].
Qed.

Lemma snd_except {A} r (m : M A) log : snd (except_ValueError r m log) = snd (m log).
Proof.
  unfold except_ValueError. destruct (m log) as [[a|e] l]; [reflexivity|].
  destruct e; reflexivity.
Qed.

Lemma add_host_alias_put host_fqdn alias_fqdn log r ref l :
  server log (host_aliases_lookup host_fqdn) = Replied r ->
  host_with_aliases r host_fqdn ref l ->
  snd (add_host_alias host_fqdn alias_fqdn log) =
    (log ++ [host_aliases_lookup host_fqdn;
             aliases_put ref (l ++ [JStr alias_fqdn])])%list.
Proof.
  intros Hs [o [[H200 [rest Hb]] [Hr [Hv%ref_names_match Ha]]]].
  unfold add_host_alias, host_aliases_lookup, aliases_put, GET_of in *.
  cbv zeta. unfold bind at 1.
  rewrite (session_get_200 _ _ _ Hs H200). rewrite snd_except.
  unfold bind at 1, lift at 1, json_of. rewrite Hb, H200.
  unfold bind at 1, lift at 1. cbn [py_len Nat.ltb Nat.leb length].
  unfold bind at 1, lift at 1. cbn [py_item0].
  unfold bind at 1, lift at 1. cbn [py_getitem]. rewrite Hr.
  unfold bind at 1, lift at 1. rewrite Hv.
  unfold bind at 1, lift at 1. cbn [py_in].
  change (200 =? 200) with true. cbv iota beta.
  unfold has_key. rewrite Ha.
  unfold bind at 1. unfold bind at 1, lift at 1.
  unfold bind at 1, lift at 1. cbn [py_append]. unfold ret at 1.
  unfold bind at 1, lift at 1. cbn [py_concat].
  rewrite snd_put_then_status. now rewrite <- app_assoc.
Qed.


Lemma delete_host_alias_put host_fqdn alias_fqdn log r ref l l' :
  server log (host_aliases_lookup host_fqdn) = Replied r ->
  host_with_aliases r host_fqdn ref l ->
  remove_first alias_fqdn l = Some l' ->
  snd (delete_host_alias host_fqdn alias_fqdn log) =
    (log ++ [host_aliases_lookup host_fqdn; aliases_put ref l'])%list.
Proof.
  intros Hs [o [[H200 [rest Hb]] [Hr [Hv%ref_names_match Ha]]]] Hrm.
  unfold delete_host_alias, host_aliases_lookup, aliases_put, GET_of in *.
  cbv zeta. unfold bind at 1.
  rewrite (session_get_200 _ _ _ Hs H200). rewrite snd_except.
  unfold bind at 1, lift at 1, json_of. rewrite Hb, H200.
  unfold bind at 1, lift at 1. cbn [py_len Nat.ltb Nat.leb length].
  unfold bind at 1, lift at 1. cbn [py_item0].
  unfold bind at 1, lift at 1. cbn [py_getitem]. rewrite Hr.
  unfold bind at 1, lift at 1. rewrite Hv.
  unfold bind at 1, lift at 1. cbn [py_in].
  change (200 =? 200) with true. cbv iota beta.
  unfold has_key. rewrite Ha.
  unfold bind at 1, lift at 1.
  unfold bind at 1, lift at 1. cbn [py_remove]. rewrite Hrm.
  unfold bind at 1, lift at 1. cbn [py_concat].
  rewrite snd_put_then_status. now rewrite <- app_assoc.
Qed.

Lemma json_eq_str_JStr x y : json_eq_str (JStr y) x = String.eqb y x.
Proof. reflexivity. Qed.

Lemma remove_first_appended x l :
  existsb (fun y => json_eq_str y x) l = false ->
  remove_first x (l ++ [JStr x]) = Some l.
Proof.
  induction l as [|y l IH]; cbn [existsb remove_first app]; intros H.
  - now rewrite json_eq_str_JStr, String.eqb_refl.
  - apply orb_false_iff in H as [Hy Hl]. rewrite Hy, (IH Hl). reflexivity.
Qed.

(** Adding an alias sends the host's list with the alias appended, whether
    or not the alias is already in it; when it was not, deleting that alias
    from the resulting list sends the original list again. *)
Theorem alias_added_then_deleted_restores_the_list :
  forall host_fqdn alias_fqdn ref l log1 r1 log2 r2,
    server log1 (host_aliases_lookup host_fqdn) = Replied r1 ->
    host_with_aliases r1 host_fqdn ref l ->
    server log2 (host_aliases_lookup host_fqdn) = Replied r2 ->
    host_with_aliases r2 host_fqdn ref (l ++ [JStr alias_fqdn]) ->
    snd (add_host_alias host_fqdn alias_fqdn log1) =
      (log1 ++ [host_aliases_lookup host_fqdn;
                aliases_put ref (l ++ [JStr alias_fqdn])])%list
    /\ (existsb (fun y => json_eq_str y alias_fqdn) l = false ->
        snd (delete_host_alias host_fqdn alias_fqdn log2) =
          (log2 ++ [host_aliases_lookup host_fqdn; aliases_put ref l])%list).
Proof.
  intros host_fqdn alias_fqdn ref l log1 r1 log2 r2 Hs1 Hh1 Hs2 Hh2. split.
  - eapply add_host_alias_put; eassumption.
  - intros Hl. eapply delete_host_alias_put; try eassumption.
    now apply remove_first_appended.
Qed.


(** *** The attributes sent by [delete_network_extattrs] *)

Lemma filter_key_absent k (kv : list (string * json)) :
  ~ In k (map fst kv) ->
  filter (fun p => negb (String.eqb k (fst p))) kv = kv.
Proof.
  induction kv as [|[k' v] kv IH]; cbn; intros H; [reflexivity|].
  destruct (String.eqb_spec k k') as [->|_]; cbn.
  - exfalso. apply H. now left.
  - rewrite IH; [reflexivity|]. intros Hin. apply H. now right.
Qed.

Lemma dict_del_filter k kv :
  NoDup (map fst kv) ->
  dict_del k kv = filter (fun p => negb (String.eqb k (fst p))) kv.
Proof.
  induction kv as [|[k' v] kv IH]; cbn; intros H; [reflexivity|].
  inversion H as [|? ? Hnin Hnd]; subst.
  destruct (String.eqb_spec k k') as [->|_]; cbn.
  - now rewrite filter_key_absent.
  - now rewrite IH.
Qed.

Lemma has_key_false_not_In k kv : has_key k kv = false -> ~ In k (map fst kv).
Proof.
  unfold has_key. induction kv as [|[k' v] kv IH]; cbn; [tauto|].
  destruct (String.eqb_spec k k') as [->|Hne]; [discriminate|].
  intros H [E|Hin]; [now apply Hne | now apply IH].
Qed.

Lemma NoDup_keys_filter (f : string * json -> bool) kv :
  NoDup (map fst kv) -> NoDup (map fst (filter f kv)).
Proof.
  induction kv as [|p kv IH]; cbn; intros H; [constructor|].
  inversion H as [|? ? Hnin Hnd]; subst.
  destruct (f p); cbn; [constructor|]; auto.
  intros Hin. apply Hnin. apply in_map_iff in Hin as [q [Hq Hin]].
  apply filter_In in Hin as [Hin _]. apply in_map_iff. now exists q.
Qed.

Lemma without_cons a names ea :
  without (a :: names) ea =
    without names (filter (fun p => negb (String.eqb a (fst p))) ea).
Proof.
  unfold without. induction ea as [|p ea IH]; cbn in *; [reflexivity|].
  rewrite (String.eqb_sym (fst p) a).
  destruct (String.eqb a (fst p)); cbn; [exact IH|].
  destruct (existsb (String.eqb (fst p)) names); cbn; now rewrite IH.
Qed.

Lemma del_extattrs_without names :
  forall ea log, NoDup (map fst ea) ->
    del_extattrs names (JObj ea) log = (Ok (JObj (without names ea)), log).
Proof.
  induction names as [|a names IH]; intros ea log Hnd.
  - change (without [] ea) with (filter (fun _ => true) ea).
    now rewrite filter_true.
  - cbn [del_extattrs]. unfold bind at 1, lift at 1. cbn [py_in].
    rewrite without_cons. destruct (has_key a ea) eqn:Hk.
    + unfold bind at 1, lift at 1. cbn [py_delitem].
      rewrite (dict_del_filter _ _ Hnd). apply IH.
      now apply NoDup_keys_filter.
    + rewrite (filter_key_absent _ _ (has_key_false_not_In _ _ Hk)).
      now apply IH.
Qed.

Lemma truthy_nonempty ref : ref <> EmptyString -> truthy (JStr ref) = true.
Proof. destruct ref; [congruence | reflexivity]. Qed.

(** The listed names are removed from the attributes of the network and
    the rest is sent back in its order; a listed name that the network does
    not have is passed over. *)
Theorem delete_network_extattrs_sends_the_rest :
  forall network names log r ref ea,
    server log (network_extattrs_lookup network) = Replied r ->
    object_with_extattrs r ref ea ->
    NoDup (map fst ea) ->
    snd (delete_network_extattrs network names log) =
      (log ++ [network_extattrs_lookup network;
               extattrs_put ref (without names ea)])%list.
Proof.
  intros network names log r ref ea Hs
         [o [[H200 [rest Hb]] [Hr [Ht%truthy_nonempty He]]]] Hnd.
  unfold delete_network_extattrs, network_extattrs_lookup, extattrs_put,
    GET_of in *.
  cbv zeta. unfold bind at 1.
  rewrite (session_get_200 _ _ _ Hs H200). rewrite snd_except.
  unfold bind at 1, lift at 1, json_of. rewrite Hb, H200.
  unfold bind at 1, lift at 1. cbn [py_len Nat.ltb Nat.leb length].
  unfold bind at 1, lift at 1. cbn [py_item0].
  unfold bind at 1, lift at 1. cbn [py_getitem]. rewrite Hr, Ht.
  change (200 =? 200) with true. cbv iota beta.
  unfold bind at 1, lift at 1. rewrite He.
  unfold bind at 1. rewrite (del_extattrs_without _ _ _ Hnd).
  unfold bind at 1, lift at 1. cbn [py_concat].
  rewrite snd_put_then_status. now rewrite <- app_assoc.
Qed.


(** *** The attributes sent by [update_network_extattrs] *)

Lemma updated_nil ea : updated [] ea = ea.
Proof. unfold updated. cbn. apply map_id. Qed.

Lemma updated_cons attributes p ea :
  updated attributes (p :: ea) =
    match assoc (fst p) attributes with
    | Some v => (fst p, set_value v (snd p))
    | None => p
    end :: updated attributes ea.
Proof. reflexivity. Qed.

Lemma updated_other a v attributes ea :
  ~ In a (map fst ea) ->
  updated ((a, v) :: attributes) ea = updated attributes ea.
Proof.
  intros H. unfold updated. apply map_ext_in. intros [k w] Hin.
  cbn [fst snd assoc]. destruct (String.eqb_spec k a) as [->|_];
    [|reflexivity].
  exfalso. apply H. apply in_map_iff. now exists (a, w).
Qed.

Lemma assoc_None_not_In k kv : ~ In k (map fst kv) -> assoc k kv = None.
Proof.
  induction kv as [|[k' v] kv IH]; cbn; intros H; [reflexivity|].
  destruct (String.eqb_spec k k') as [->|_].
  - exfalso. apply H. now left.
  - apply IH. intros Hin. apply H. now right.
Qed.

Lemma updated_dict_set a v kv attributes ea :
  NoDup (map fst ea) -> ~ In a (map fst attributes) ->
  assoc a ea = Some (JObj kv) ->
  updated attributes (dict_set a (JObj (dict_set "value" v kv)) ea) =
    updated ((a, v) :: attributes) ea.
Proof.
  intros Hnd Ha. induction ea as [|[k w] ea IH]; [discriminate|].
  inversion Hnd as [|? ? Hnin Hnd']; subst.
  cbn [assoc dict_set]. destruct (String.eqb_spec a k) as [->|Hne].
  - intros [= ->]. rewrite !updated_cons. cbn [fst snd assoc].
    rewrite String.eqb_refl, (assoc_None_not_In _ _ Ha). cbn [set_value].
    now rewrite (updated_other _ _ _ _ Hnin).
  - intros Hw. rewrite !updated_cons. cbn [fst snd assoc].
    destruct (String.eqb_spec k a) as [->|_]; [congruence|].
    now rewrite (IH Hnd' Hw).
Qed.

Lemma keys_dict_set k v ea :
  has_key k ea = true -> map fst (dict_set k v ea) = map fst ea.
Proof.
  unfold has_key. induction ea as [|[k' v'] ea IH]; cbn; [discriminate|].
  destruct (String.eqb_spec k k') as [->|_]; cbn; [reflexivity|].
  intros H. now rewrite IH.
Qed.

Lemma set_extattrs_updated attributes :
  forall ea log,
    NoDup (map fst attributes) -> NoDup (map fst ea) ->
    all_objects ea -> first_new attributes ea = None ->
    set_extattrs attributes (JObj ea) log =
      (Ok (JObj (updated attributes ea)), log).
Proof.
  induction attributes as [|[a v] attributes IH]; intros ea log Hna Hnd Hobj Hfn.
  - cbn. unfold ret. now rewrite updated_nil.
  - cbn [first_new] in Hfn. destruct (has_key a ea) eqn:Hk; [|discriminate].
    destruct (has_key_assoc _ _ Hk) as [w Hw].
    destruct (Hobj _ _ (assoc_In _ _ _ Hw)) as [kv ->].
    inversion Hna as [|? ? Hnin Hna']; subst.
    cbn [set_extattrs]. unfold bind at 1, lift at 1. cbn [py_getitem].
    rewrite Hw. unfold bind at 1, lift at 1. cbn [py_setitem].
    unfold bind at 1, lift at 1.
    rewrite IH; auto.
    + now rewrite (updated_dict_set _ _ _ _ _ Hnd Hnin Hw).
    + now rewrite keys_dict_set.
    + now apply all_objects_dict_set.
    + now rewrite first_new_dict_set.
Qed.

(** When every given name is an attribute of the network, the attributes
    are sent back with the given values put in place: every attribute stays
    in its position, the named ones keep the other fields of their wrapper,
    the others are unchanged. *)
Theorem update_network_extattrs_sends_the_updated :
  forall network attributes log r ref ea,
    server log (network_extattrs_lookup network) = Replied r ->
    object_with_extattrs r ref ea ->
    NoDup (map fst ea) -> all_objects ea ->
    NoDup (map fst attributes) -> first_new attributes ea = None ->
    snd (update_network_extattrs network attributes log) =
      (log ++ [network_extattrs_lookup network;
               extattrs_put ref (updated attributes ea)])%list.
Proof.
  intros network attributes log r ref ea Hs
         [o [[H200 [rest Hb]] [Hr [Ht%truthy_nonempty He]]]] Hnd Hobj Hna Hfn.
  unfold update_network_extattrs, network_extattrs_lookup, extattrs_put,
    GET_of in *.
  cbv zeta. unfold bind at 1.
  rewrite (session_get_200 _ _ _ Hs H200). rewrite snd_except.
  unfold bind at 1, lift at 1, json_of. rewrite Hb, H200.
  unfold bind at 1, lift at 1. cbn [py_len Nat.ltb Nat.leb length].
  unfold bind at 1, lift at 1. cbn [py_item0].
  unfold bind at 1, lift at 1. cbn [py_getitem]. rewrite Hr, Ht.
  change (200 =? 200) with true. cbv iota beta.
  unfold bind at 1, lift at 1. rewrite He.
  unfold bind at 1. rewrite (set_extattrs_updated _ _ _ Hna Hnd Hobj Hfn).
  unfold bind at 1, lift at 1. cbn [py_concat].
  rewrite snd_put_then_status. now rewrite <- app_assoc.
Qed.


(** *** The mapping returned by [get_host_extattrs] for requested names *)

Lemma assoc_dict_set a k v acc :
  assoc a (dict_set k v acc) = if String.eqb a k then Some v else assoc a acc.
Proof.
  induction acc as [|[k' v'] acc IH]; cbn; [reflexivity|].
  destruct (String.eqb_spec k k') as [<-|Hne]; cbn.
  - now destruct (String.eqb a k).
  - destruct (String.eqb_spec a k') as [->|_]; [|exact IH].
    destruct (String.eqb_spec k' k) as [->|_]; [congruence | reflexivity].
Qed.

Lemma assoc_unwrapped k w v ea :
  assoc k ea = Some w -> wrapper_value w = Some v ->
  assoc k (unwrapped ea) = Some v.
Proof.
  unfold unwrapped. induction ea as [|[k' w'] ea IH]; cbn; [discriminate|].
  destruct (String.eqb k k'); [|exact IH].
  intros [= ->] ->. reflexivity.
Qed.

Lemma requested_extattrs_values o rest ea names log :
  assoc "extattrs" o = Some (JObj ea) -> wrapped ea ->
  first_absent names ea = None ->
  forall acc, exists got,
    requested_extattrs (JArr (JObj o :: rest)) names acc log = (Ok got, log)
    /\ forall a, assoc a got =
                 if existsb (String.eqb a) names then assoc a (unwrapped ea)
                 else assoc a acc.
Proof.
  intros Ho Hw. induction names as [|n names IH]; cbn [first_absent].
  - intros _ acc. exists acc. split; reflexivity.
  - intros Hfa acc. destruct (has_key n ea) eqn:E; [|discriminate].
    destruct (has_key_assoc _ _ E) as [w Hk].
    destruct (Hw _ _ (assoc_In _ _ _ Hk)) as [v Hv].
    destruct (IH Hfa (dict_set n v acc)) as [got [Hgot Hval]].
    exists got. split.
    + cbn [requested_extattrs]. unfold bind at 1, lift at 1. cbn [py_item0].
      unfold bind at 1, lift at 1. cbn [py_getitem]. rewrite Ho.
      unfold bind at 1, lift at 1. cbn [py_in]. rewrite E.
      unfold bind at 1.
      rewrite (extattr_value_wrapped _ o rest ea n w v log eq_refl Ho Hk Hv).
      exact Hgot.
    + intros a. rewrite Hval, assoc_dict_set. cbn [existsb].
      destruct (String.eqb_spec a n) as [->|_]; cbn [orb]; [|reflexivity].
      rewrite (assoc_unwrapped _ _ _ _ Hk Hv).
      now destruct (existsb (String.eqb n) names).
Qed.

(** The host was found, names are requested and every one of them is among
    its attributes: [get_host_extattrs] returns a mapping that has exactly
    the requested names, each with the value taken out of its wrapper. *)
Theorem get_host_extattrs_returns_the_requested :
  forall fqdn names log r o ea,
    server log (host_extattrs_lookup fqdn) = Replied r ->
    found r o -> assoc "extattrs" o = Some (JObj ea) -> wrapped ea ->
    names <> [] ->
    (forall a, In a names -> has_key a ea = true) ->
    exists got,
      get_host_extattrs fqdn (Some names) log =
        (Ok (JObj got), (log ++ [host_extattrs_lookup fqdn])%list)
      /\ forall a, assoc a got =
                   if existsb (String.eqb a) names
                   then assoc a (unwrapped ea) else None.
Proof.
  intros fqdn names log r o ea Hs Hf Ho Hw Hne Hall.
  apply first_absent_none in Hall.
  unfold_lookups. unfold get_host_extattrs.
  replace (requested (Some names)) with (Some names)
    by (destruct names; [congruence | reflexivity]).
  open_lookup Hs Hf.
  destruct (requested_extattrs_values o rest ea names
              (log ++ [GET_of (base_url ++ "/record:host?name=" ++ fqdn ++
                               "&view=" ++ iba_dns_view self ++
                               "&_return_fields=name,extattrs")])%list
              Ho Hw Hall []) as [got [Hgot Hval]].
  rewrite Hgot. exists got. split; [reflexivity | exact Hval].
Qed.


(** *** [update_record] *)

(** [update_record] on a record that carries a reference: the dry run
    issues no request; otherwise one PUT with the encoded fields goes to the
    reference, and a reply that is no error counts as an update only when
    its status is 200, whatever its body: any other status raises
    [InfobloxNotUpdatedException]. *)
Theorem update_record_outcome :
  forall record fields ref,
    py_getitem record "_ref" = Ok (JStr ref) ->
    (forall log, update_record record fields false log = (Ok JNull, log))
    /\ (forall log r,
          server log (update_request ref fields) = Replied r ->
          raise_for_status r = Ok tt -> status_code r = 200 ->
          update_record record fields true log =
            (Ok JNull, (log ++ [update_request ref fields])%list))
    /\ (forall log r,
          server log (update_request ref fields) = Replied r ->
          raise_for_status r = Ok tt -> status_code r <> 200 ->
          update_record record fields true log =
            (Raise (InfobloxNotUpdatedException
                      (PMsg ("Failed to update " ++ ref))),
             (log ++ [update_request ref fields])%list)).
Proof.
  intros record fields ref Href.
  unfold update_record, util_put, update_request, session_put, bind, lift, ret,
    raise.
  rewrite Href. cbn [py_concat negb]. repeat split.
  - intros log r Hs Hp H200.
    rewrite (session_request_ok _ _ _ _ _ _ Hs Hp), H200. reflexivity.
  - intros log r Hs Hp H200.
    rewrite (session_request_ok _ _ _ _ _ _ Hs Hp).
    apply Z.eqb_neq in H200. rewrite H200. reflexivity.
Qed.


(** *** What [delete_fixed_address] makes of the reply to its DELETE *)

Lemma util_get_found uri query_params fields notFoundText notFoundFail log r o :
  server log (util_request uri query_params fields) = Replied r ->
  found r o ->
  exists rest,
    body r = Some (JArr (JObj o :: rest)) /\
    util_get uri query_params fields notFoundText notFoundFail log =
      (Ok (JArr (JObj o :: rest)),
       (log ++ [util_request uri query_params fields])%list).
Proof.
  intros Hs [H200 [rest Hb]]. exists rest. split; [exact Hb|].
  unfold util_get, util_request in *. cbv zeta. unfold bind at 1.
  rewrite (session_request_ok _ _ _ _ _ _ Hs (status_200_passes _ H200)).
  unfold except_ValueError, bind, lift, json_of, ret.
  rewrite Hb, H200. reflexivity.
Qed.

(** The fixed address was found.  A DELETE that the appliance refuses, with
    any status from 400 to 599, is reported as
    [InfobloxNotFoundException] when [not_found_fail] is set, and as the
    [HTTPError] itself otherwise; a DELETE that passes returns [None]
    whatever the reply holds.  The text of the exception shows the whole
    list that the lookup returned. *)
Theorem delete_fixed_address_outcome :
  forall ipv4addr mac not_found_fail log r o ref r',
    server log (fixed_address_lookup ipv4addr mac) = Replied r ->
    found r o -> assoc "_ref" o = Some (JStr ref) ->
    server (log ++ [fixed_address_lookup ipv4addr mac])%list
           (delete_request ref) = Replied r' ->
    exists found_list,
      body r = Some found_list /\
      delete_fixed_address ipv4addr mac not_found_fail log =
        (match raise_for_status r' with
         | Ok _ => Ok JNull
         | Raise e =>
             if not_found_fail
             then Raise (NotFound ("Fixed Address not found for ref: " ++
                                   format_s found_list))
             else Raise e
         end,
         (log ++ [fixed_address_lookup ipv4addr mac; delete_request ref])%list).
Proof.
  intros ipv4addr mac not_found_fail log r o ref r' Hs Hf Hr Hd.
  unfold fixed_address_lookup in *.
  destruct (util_get_found _ _ None
              (Some ("Fixed Address not found for IP: " ++ ipv4addr ++
                     ", MAC: " ++ mac)) not_found_fail _ _ _ Hs Hf)
    as [rest [Hb Hg]].
  exists (JArr (JObj o :: rest)). split; [exact Hb|].
  unfold delete_fixed_address, get_fixed_address. cbv zeta.
  unfold bind at 1. rewrite Hg.
  unfold bind at 1, lift at 1. cbn [py_item0].
  unfold bind at 1, lift at 1. cbn [py_getitem]. rewrite Hr.
  unfold util_delete_by_ref, session_delete, session_request, delete_request
    in *.
  cbv zeta. cbn [format_s]. rewrite Hd, <- app_assoc. cbn [app].
  unfold raise_for_status.
  destruct ((400 <=? status_code r') && (status_code r' <? 600));
    [destruct not_found_fail|]; reflexivity.
Qed.


(** *** What [create_host_record] sends and returns *)

Lemma create_host_record_posts address fqdn payload log :
  matches re_cidr address || matches re_range address ||
    matches re_static address = true ->
  create_host_record address fqdn payload log =
    bind (util_post "record:host" (host_sent address fqdn payload)
                    (Some (FList ["ipv4addrs"])) true)
         (fun r_json =>
            match r_json with
            | JNull =>
                raise (InfobloxGeneralException
                         (PMsg ("Failed to create host record for [" ++
                                address ++ "]")))
            | _ =>
                addrs <- lift (py_getitem r_json "ipv4addrs") ;;
                a0 <- lift (py_item0 addrs) ;;
                lift (py_getitem a0 "ipv4addr")
            end) log.
Proof.
  unfold create_host_record, host_sent, host_payload, address_asked.
  intros H. unfold bind at 1.
  destruct (matches re_cidr address); cbn [orb] in *;
    [destruct payload; reflexivity|].
  destruct (matches re_range address); cbn [orb] in *;
    [destruct payload; reflexivity|].
  rewrite H. destruct payload; reflexivity.
Qed.

(** An address that passes the validation.  The record sent is the payload
    of the caller when there is one, the address then serving for the
    validation only; otherwise the record built from [fqdn] and the
    address, with the allocation function for a network or a range.  On a
    reply with status 200 or 201 the function returns the ['ipv4addr'] of
    the first entry of ['ipv4addrs']; on another status that is no error,
    with a body without ['text'], it raises [InfobloxGeneralException]. *)
Theorem create_host_record_sends_and_returns :
  forall address fqdn payload log r kv,
    matches re_cidr address || matches re_range address ||
      matches re_static address = true ->
    server log (host_create_request (host_sent address fqdn payload)) =
      Replied r ->
    raise_for_status r = Ok tt ->
    body r = Some (JObj kv) ->
    (forall a more v,
        status_code r = 200 \/ status_code r = 201 ->
        assoc "ipv4addrs" kv = Some (JArr (JObj a :: more)) ->
        assoc "ipv4addr" a = Some v ->
        create_host_record address fqdn payload log =
          (Ok v,
           (log ++ [host_create_request (host_sent address fqdn payload)])%list))
    /\ (status_code r <> 200 -> status_code r <> 201 ->
        has_key "text" kv = false ->
        create_host_record address fqdn payload log =
          (Raise (General ("Failed to create host record for [" ++ address ++
                           "]")),
           (log ++ [host_create_request (host_sent address fqdn payload)])%list)).
Proof.
  intros address fqdn payload log r kv Hm Hs Hp Hb.
  rewrite (create_host_record_posts _ _ _ _ Hm).
  unfold host_create_request in *. unfold util_post. cbn [negb]. cbv zeta.
  cbn [with_return_fields dict_set join].
  split; [intros a more v Hst Ha Hv | intros H200 H201 Ht];
    unfold bind at 1; unfold bind at 1;
    rewrite (session_request_ok _ _ _ _ _ _ Hs Hp);
    unfold except_ValueError, bind at 1, lift at 1, json_of; rewrite Hb.
  - replace ((status_code r =? 200) || (status_code r =? 201)) with true
      by (destruct Hst as [-> | ->]; reflexivity).
    unfold ret, bind, lift. cbn [py_getitem]. rewrite Ha. cbn [py_item0].
    cbn [py_getitem]. rewrite Hv. reflexivity.
  - rewrite (proj2 (Z.eqb_neq _ _) H200), (proj2 (Z.eqb_neq _ _) H201).
    cbn [orb].
    unfold raise_text_or_status, bind, lift, ret, raise. cbn [py_in].
    rewrite Ht, Hp. reflexivity.
Qed.


(** *** The reads that check the reference *)

Lemma raise_text_or_status_returns E r r_json log v log' :
  raise_text_or_status E r r_json log = (Ok v, log') -> v = JNull /\ log' = log.
Proof.
  unfold raise_text_or_status, bind, lift, ret, raise.
  destruct (py_in "text" r_json) as [[|]|]; try discriminate.
  - destruct (py_getitem r_json "text"); discriminate.
  - destruct (raise_for_status r); [|discriminate]. now intros [= <- <-].
Qed.

Lemma except_ValueError_returns {A} r (m : M A) log v log' :
  except_ValueError r m log = (Ok v, log') -> m log = (Ok v, log').
Proof.
  unfold except_ValueError. destruct (m log) as [[a|e] l]; [trivial|].
  destruct e; discriminate.
Qed.

Lemma py_getitem_ok v k x :
  py_getitem v k = Ok x -> exists o, v = JObj o /\ assoc k o = Some x.
Proof.
  destruct v as [| | | | |o]; try discriminate. cbn.
  destruct (assoc k o) eqn:E; [|discriminate]. intros [= ->]. eauto.
Qed.

Lemma checked_handler_returns kind fqdn msg nf r log0 v log' :
  except_ValueError r (
    r_json <- lift (json_of r) ;;
    if status_code r =? 200 then
      n <- lift (py_len r_json) ;;
      if (0 <? n)%nat then
        r0 <- lift (py_item0 r_json) ;;
        ref <- lift (py_getitem r0 "_ref") ;;
        valid <- lift (ref_names kind ref fqdn) ;;
        if valid : bool then lift (py_item0 r_json)
        else
          m <- lift (py_concat msg ref) ;;
          raise (InfobloxGeneralException (PMsg m))
      else raise nf
    else raise_text_or_status InfobloxGeneralException r r_json) log0 =
    (Ok v, log') ->
  log' = log0 /\
  ((status_code r = 200 /\ first_record_named kind fqdn r v) \/
   (status_code r <> 200 /\ v = JNull)).
Proof.
  intros Hrun. apply except_ValueError_returns in Hrun.
  unfold bind at 1, lift at 1, json_of in Hrun.
  destruct (body r) as [j|] eqn:Hb; [|discriminate Hrun].
  destruct (Z.eqb_spec (status_code r) 200) as [H200|H200].
  - unfold bind, lift, raise in Hrun.
    destruct (py_len j) as [n|]; [|discriminate Hrun].
    destruct (0 <? n)%nat; [|discriminate Hrun].
    destruct (py_item0 j) as [r0|] eqn:H0; [|discriminate Hrun].
    destruct (py_getitem r0 "_ref") as [ref|] eqn:Href; [|discriminate Hrun].
    destruct (ref_names kind ref fqdn) as [[|]|] eqn:Hv;
      [| destruct (py_concat msg ref); discriminate Hrun | discriminate Hrun].
    injection Hrun as <- <-. split; [reflexivity|]. left. split; [exact H200|].
    destruct (ref_names_true _ _ _ Hv) as [s [-> Hname]].
    destruct (py_getitem_ok _ _ _ Href) as [o [-> Ho]].
    destruct j as [| | |t|[|x rest]|kv]; try discriminate H0.
    + destruct t; discriminate H0.
    + injection H0 as ->. exists o, rest, s. auto.
  - destruct (raise_text_or_status_returns _ _ _ _ _ _ Hrun) as [-> ->].
    split; [reflexivity|]. right. split; [exact H200 | reflexivity].
Qed.

(** What [get_cname_record] and [get_a_record_by_fqdn] return is never a
    record with another name: a returned value is the first element of the
    list of a 200 reply, an object whose reference is a string of the type
    asked for and names [fqdn], or it is [None] and the status is not 200;
    one request was issued. *)
Theorem validated_read_returns_the_named_record :
  forall fqdn log v log',
    (get_cname_record fqdn log = (Ok v, log') ->
     returned_the_named "record:cname" fqdn log (cname_read fqdn) v log')
    /\ (get_a_record_by_fqdn fqdn log = (Ok v, log') ->
        returned_the_named "record:a" fqdn log (a_read fqdn) v log').
Proof.
  intros fqdn log v log'. unfold returned_the_named, cname_read, a_read, GET_of.
  split; intros Hrun;
    [unfold get_cname_record in Hrun | unfold get_a_record_by_fqdn in Hrun];
    cbv zeta in Hrun;
    unfold bind at 1, session_get, session_request in Hrun; cbv zeta in Hrun;
    (destruct (server log _) as [r|]; [|discriminate Hrun]);
    (destruct (raise_for_status r); [|discriminate Hrun]);
    apply checked_handler_returns in Hrun; destruct Hrun as [-> Hv];
    (split; [reflexivity|]); exists r; (split; [reflexivity | exact Hv]).
Qed.


(** *** The reads that return lists *)

Lemma collect_field_all key items :
  forall values out log,
    Forall2 (field_of key) items values ->
    collect_field key items out log = (Ok (out ++ values)%list, log).
Proof.
  induction items as [|item items IH]; intros values out log H;
    inversion H as [|? v ? values' [o [-> Ho]] Hrest]; subst.
  - cbn. unfold ret. now rewrite app_nil_r.
  - cbn [collect_field]. unfold bind at 1, lift at 1. cbn [py_getitem].
    rewrite Ho. rewrite (IH _ _ _ Hrest). now rewrite <- app_assoc.
Qed.

(** [get_host_by_regexp] returns the name of every record of the reply, in
    the order of the reply and with repetitions; [get_ip_by_host] returns
    every address of the first record of the reply and nothing of the
    records that follow it. *)
Theorem list_reads_return_every_value :
  forall fqdn log r,
    (forall items names,
        server log (host_regexp_lookup fqdn) = Replied r ->
        status_code r = 200 -> body r = Some (JArr items) -> items <> [] ->
        Forall2 (field_of "name") items names ->
        get_host_by_regexp fqdn log =
          (Ok (JArr names), (log ++ [host_regexp_lookup fqdn])%list))
    /\ (forall o addrs values,
        server log (host_lookup fqdn) = Replied r ->
        found r o -> assoc "ipv4addrs" o = Some (JArr addrs) -> addrs <> [] ->
        Forall2 (field_of "ipv4addr") addrs values ->
        get_ip_by_host fqdn log =
          (Ok (JArr values), (log ++ [host_lookup fqdn])%list)).
Proof.
  intros fqdn log r. split.
  - intros items names Hs H200 Hb Hne Hall.
    unfold host_regexp_lookup in *. unfold get_host_by_regexp. cbv zeta.
    unfold bind at 1. rewrite (session_get_200 _ _ _ Hs H200).
    unfold except_ValueError, bind at 1, lift at 1, json_of.
    rewrite Hb, H200. change (200 =? 200) with true. cbv iota.
    unfold bind at 1, lift at 1. cbn [py_len].
    destruct items as [|item items]; [congruence|].
    cbn [length Nat.ltb Nat.leb]. unfold bind at 1, lift at 1. cbn [py_iter].
    unfold bind at 1. rewrite (collect_field_all _ _ _ _ _ Hall).
    reflexivity.
  - intros o addrs values Hs [H200 [rest Hb]] Ho Hne Hall.
    unfold host_lookup in *. unfold get_ip_by_host. cbv zeta.
    unfold bind at 1. rewrite (session_get_200 _ _ _ Hs H200).
    unfold except_ValueError, bind at 1, lift at 1, json_of.
    rewrite Hb, H200. change (200 =? 200) with true. cbv iota.
    unfold bind at 1, lift at 1. cbn [py_len length Nat.ltb Nat.leb].
    unfold bind at 1, lift at 1. cbn [py_item0].
    unfold bind at 1, lift at 1. cbn [py_getitem]. rewrite Ho.
    unfold bind at 1, lift at 1. cbn [py_len].
    destruct addrs as [|a addrs]; [congruence|].
    cbn [length Nat.ltb Nat.leb]. unfold bind at 1, lift at 1. cbn [py_iter].
    unfold bind at 1. rewrite (collect_field_all _ _ _ _ _ Hall).
    reflexivity.
Qed.


Lemma py_dict_get_set a b v d :
  py_dict_get b (py_dict_set (JStr a) v d) =
    if String.eqb b a then Some v else py_dict_get b d.
Proof.
  induction d as [|[k' v'] d IH]; cbn [py_dict_set py_dict_get].
  - cbn [py_key_eqb]. reflexivity.
  - destruct (py_key_eqb (JStr a) k') eqn:E; cbn [py_dict_get].
    + destruct k' as [| | |a'| |]; try discriminate E. cbn [py_key_eqb] in *.
      apply String.eqb_eq in E. subst a'. now destruct (String.eqb b a).
    + rewrite IH. destruct (String.eqb_spec b a) as [->|_]; [|reflexivity].
      now rewrite E.
Qed.

Lemma collect_txt_last items :
  forall hosts log,
    Forall txt_record items ->
    exists got,
      collect_txt items hosts log = (Ok got, log)
      /\ forall name,
           py_dict_get name got =
             match last_text name items with
             | Some t => Some t
             | None => py_dict_get name hosts
             end.
Proof.
  induction items as [|item items IH]; intros hosts log H.
  - exists hosts. split; reflexivity.
  - inversion H as [|? ? [o [n [t [-> [Hn Ht]]]]] Hrest]; subst.
    destruct (IH (py_dict_set (JStr n) t hosts) log Hrest) as [got [Hgot Hval]].
    exists got. split.
    + cbn [collect_txt]. unfold bind at 1, lift at 1. cbn [py_getitem].
      rewrite Ht. unfold bind at 1, lift at 1. rewrite Hn. cbn [hashable].
      exact Hgot.
    + intros name. rewrite Hval, py_dict_get_set. cbn [last_text].
      destruct (last_text name items); [reflexivity|].
      rewrite Hn, Ht. cbn [json_eq_str]. rewrite (String.eqb_sym n name).
      now destruct (String.eqb name n).
Qed.

(** [get_txt_by_regexp] returns one entry for each name of the reply,
    holding the text of the last record of that name: of several TXT
    records of one name only the last one is returned. *)
Theorem get_txt_by_regexp_keeps_the_last_text :
  forall fqdn log r items,
    server log (txt_regexp_lookup fqdn) = Replied r ->
    status_code r = 200 -> body r = Some (JArr items) -> items <> [] ->
    Forall txt_record items ->
    exists hosts,
      get_txt_by_regexp fqdn log =
        (Ok (Some hosts), (log ++ [txt_regexp_lookup fqdn])%list)
      /\ forall name, py_dict_get name hosts = last_text name items.
Proof.
  intros fqdn log r items Hs H200 Hb Hne Hall.
  destruct (collect_txt_last items []
              (log ++ [txt_regexp_lookup fqdn])%list Hall) as [got [Hgot Hval]].
  exists got. split.
  - unfold txt_regexp_lookup in *. unfold get_txt_by_regexp. cbv zeta.
    unfold bind at 1. rewrite (session_get_200 _ _ _ Hs H200).
    unfold except_ValueError, bind at 1, lift at 1, json_of.
    rewrite Hb, H200. change (200 =? 200) with true. cbv iota.
    unfold bind at 1, lift at 1. cbn [py_len].
    destruct items as [|item items]; [congruence|].
    cbn [length Nat.ltb Nat.leb]. unfold bind at 1, lift at 1. cbn [py_iter].
    unfold bind at 1. rewrite Hgot. reflexivity.
  - intros name. rewrite Hval. now destruct (last_text name items).
Qed.


(** *** What the reads built on [Util.get] return when the object is found *)

(** The lookup found at least one object.  [get_host],
    [get_host_by_alias] and [get_ipv4address_by_ip] return the first object
    of the reply and [get_host_by_ip] its ['names']; [get_a_record_by_ip],
    [get_dhcp_range], [get_fixed_address], [get_grid], [get_lease] and
    [get_pending_changes] return the whole list.  The flag makes no
    difference and one GET is issued. *)
Theorem found_reads_return_first_or_all :
  forall log r o,
    found r o ->
    exists all,
      body r = Some all /\ py_item0 all = Ok (JObj o) /\
      (forall fqdn fields flag,
          let rq := util_request "record:host"
                      (Some [("name", JStr fqdn);
                             ("view", JStr (iba_dns_view self))]) fields in
          server log rq = Replied r ->
          get_host fqdn fields flag log = (Ok (JObj o), (log ++ [rq])%list))
      /\ (forall fqdn fields flag,
          let rq := util_request "record:host"
                      (Some [("alias", JStr fqdn);
                             ("view", JStr (iba_dns_view self))]) fields in
          server log rq = Replied r ->
          get_host_by_alias fqdn fields flag log =
            (Ok (JObj o), (log ++ [rq])%list))
      /\ (forall ip_v4 fields flag,
          let rq := util_request "ipv4address"
                      (Some [("ip_address", JStr ip_v4);
                             ("network_view", JStr (iba_network_view self))])
                      fields in
          server log rq = Replied r ->
          get_ipv4address_by_ip ip_v4 fields flag log =
            (Ok (JObj o), (log ++ [rq])%list)
          /\ forall names, assoc "names" o = Some names ->
               get_host_by_ip ip_v4 fields flag log =
                 (Ok names, (log ++ [rq])%list))
      /\ (forall ipaddr fields flag,
          let rq := util_request "record:a" (Some [("ipv4addr", JStr ipaddr)])
                                 fields in
          server log rq = Replied r ->
          get_a_record_by_ip ipaddr fields flag log =
            (Ok all, (log ++ [rq])%list))
      /\ (forall network fields flag,
          let rq := util_request "range" (Some [("network", JStr network)])
                                 fields in
          server log rq = Replied r ->
          get_dhcp_range network fields flag log =
            (Ok all, (log ++ [rq])%list))
      /\ (forall ipv4addr mac fields flag,
          let rq := util_request "fixedaddress"
                      (Some [("mac", JStr mac); ("ipv4addr", JStr ipv4addr)])
                      fields in
          server log rq = Replied r ->
          get_fixed_address ipv4addr mac fields flag log =
            (Ok all, (log ++ [rq])%list))
      /\ (forall name fields flag,
          let rq := util_request "grid"
                      match name with
                      | Some nm => Some [("name", JStr nm)]
                      | None => None
                      end fields in
          server log rq = Replied r ->
          get_grid name fields flag log = (Ok all, (log ++ [rq])%list))
      /\ (forall query_params fields flag,
          let rq := util_request "lease" query_params fields in
          server log rq = Replied r ->
          get_lease query_params fields flag log =
            (Ok all, (log ++ [rq])%list))
      /\ (forall fields flag,
          let rq := util_request "grid:servicerestart:request:changedobject"
                                 None fields in
          server log rq = Replied r ->
          get_pending_changes fields flag log = (Ok all, (log ++ [rq])%list)).
Proof.
  intros log r o Hf. destruct (Hf) as [_ [rest Hb]].
  exists (JArr (JObj o :: rest)). split; [exact Hb|]. split; [reflexivity|].
  cbv zeta.
  repeat match goal with
         | |- _ /\ _ => split
         | |- forall _, _ => intro
         end;
    match goal with
    | Hs : server log (util_request ?u ?q ?f) = Replied r |- _ =>
        pose proof (fun t fl => util_get_found u q f t fl log r o Hs Hf) as Hg
    end.
  all: unfold get_host, get_host_by_alias, get_host_by_ip,
         get_ipv4address_by_ip, get_a_record_by_ip, get_dhcp_range,
         get_fixed_address, get_grid, get_lease, get_pending_changes;
       cbv zeta; repeat unfold bind at 1;
       match goal with
       | |- context [util_get ?u ?q ?f ?t ?fl _] =>
           destruct (Hg t fl) as [rest' [Hb' ->]];
           rewrite Hb in Hb'; injection Hb' as <-
       end.
  all: cbn [first_unless_absent py_item0 lift py_getitem];
       try reflexivity.
  all: try (destruct flag; reflexivity).
  match goal with H : assoc "names" _ = Some _ |- _ => rewrite H end.
  reflexivity.
Qed.


(** *** The searches by extensible attributes *)

Lemma collect_field_if_present_all key items :
  forall out log,
    Forall is_object items ->
    collect_field_if_present key items out log =
      (Ok (out ++ fields_present key items)%list, log).
Proof.
  induction items as [|item items IH]; intros out log H;
    inversion H as [|? ? [o ->] Hrest]; subst.
  - cbn. unfold ret. now rewrite app_nil_r.
  - cbn [collect_field_if_present fields_present flat_map].
    unfold bind at 1, lift at 1. cbn [py_in]. unfold has_key.
    destruct (assoc key o) as [v|] eqn:E.
    + unfold bind at 1, lift at 1. cbn [py_getitem]. rewrite E.
      rewrite (IH _ _ Hrest). unfold fields_present.
      now rewrite <- app_assoc.
    + rewrite (IH _ _ Hrest). reflexivity.
Qed.

(** On a 200 reply with a non-empty list of objects, the searches by
    extensible attributes return the ['network'], respectively the
    ['name'], of the records that have one and pass over the others: the
    result can be the empty list, and [InfobloxNotFoundException] is raised
    for an empty reply only. *)
Theorem extattrs_search_returns_the_fields_present :
  forall attributes log r items,
    status_code r = 200 -> body r = Some (JArr items) -> items <> [] ->
    Forall is_object items ->
    (server log (network_search attributes) = Replied r ->
     get_network_by_extattrs attributes log =
       (Ok (JArr (fields_present "network" items)),
        (log ++ [network_search attributes])%list))
    /\ (server log (host_search attributes) = Replied r ->
        get_host_by_extattrs attributes log =
          (Ok (JArr (fields_present "name" items)),
           (log ++ [host_search attributes])%list)).
Proof.
  intros attributes log r items H200 Hb Hne Hall.
  unfold network_search, host_search.
  split; intros Hs;
    [unfold get_network_by_extattrs | unfold get_host_by_extattrs];
    cbv zeta; unfold bind at 1; rewrite (session_get_200 _ _ _ Hs H200);
    unfold except_ValueError, bind at 1, lift at 1, json_of;
    rewrite Hb, H200; change (200 =? 200) with true; cbv iota;
    unfold bind at 1, lift at 1; cbn [py_len];
    (destruct items as [|item items]; [congruence|]);
    cbn [length Nat.ltb Nat.leb]; unfold bind at 1, lift at 1; cbn [py_iter];
    unfold bind at 1; rewrite (collect_field_if_present_all _ _ _ _ Hall);
    reflexivity.
Qed.


(** *** The characters of an address of one of the three forms *)

Lemma all_in_app cls a b :
  all_in cls (a ++ b) = all_in cls a && all_in cls b.
Proof.
  induction a as [|c a IH]; [reflexivity|].
  change (String c a ++ b) with (String c (a ++ b)). cbn [all_in].
  rewrite IH. now rewrite andb_assoc.
Qed.

Lemma number_address_chars s : number s -> all_in address_char s = true.
Proof.
  intros [_ H]. induction s as [|c s IH]; [reflexivity|].
  cbn [all_in] in *. apply andb_true_iff in H as [Hc Hs].
  unfold address_char at 1. rewrite Hc. cbn [orb]. now apply IH.
Qed.

Lemma dotted_quad_address_chars s :
  dotted_quad s -> all_in address_char s = true.
Proof.
  intros [a [b [c [d [Ha [Hb [Hc [Hd ->]]]]]]]].
  rewrite !all_in_app, (number_address_chars _ Ha), (number_address_chars _ Hb),
    (number_address_chars _ Hc), (number_address_chars _ Hd). reflexivity.
Qed.

Lemma forms_use_address_chars s :
  dotted_quad s \/ cidr_form s \/ range_form s ->
  all_in address_char s = true.
Proof.
  intros [H | [[q [n [Hq [Hn ->]]]] | [q1 [q2 [H1 [H2 ->]]]]]].
  - now apply dotted_quad_address_chars.
  - rewrite !all_in_app, (dotted_quad_address_chars _ Hq),
      (number_address_chars _ Hn). reflexivity.
  - rewrite !all_in_app, (dotted_quad_address_chars _ H1),
      (dotted_quad_address_chars _ H2). reflexivity.
Qed.

End Client.

(** ** Concrete runs *)

Module Runs.
Import Scenario.



(** ["not-an-ip"] matches none of the patterns. *)
Lemma create_host_record_rejects_malformed_witness :
  create_host_record (appliance (ok_list []) down) json_dumps ipam
                     "not-an-ip" "x" None [] =
    (Raise (InfobloxBadInputParameter
              (PMsg "Expected IP or NET address in CIDR format")),
     []).
Proof.
  apply create_host_record_rejects_malformed; reflexivity.
Defined.

Lemma site_attrs_wrapped : wrapped site_attrs.
Proof.
  intros k w [[= <- <-]|[[= <- <-]|[]]]; eexists; reflexivity.
Qed.

Lemma site_attrs_objects : all_objects site_attrs.
Proof.
  intros k w [[= <- <-]|[[= <- <-]|[]]]; eexists; reflexivity.
Qed.

Lemma site_attrs_distinct : NoDup (map fst site_attrs).
Proof.
  repeat constructor; cbn; intuition discriminate.
Qed.

Lemma with_attrs_found : found (ok_list [JObj with_attrs]) with_attrs.
Proof. split; [reflexivity | exists []; reflexivity]. Qed.

(** C7, witness: ["Rack"] is requested from a host that has ["Site"] and
    ["Owner"]; and no name is requested from the network. *)
Lemma extattrs_read_witness :
  (exists a', In a' ["Site"; "Rack"] /\ has_key a' site_attrs = false /\
     stops_with
       (get_host_extattrs (appliance (ok_list [JObj with_attrs]) down) ipam
                          "a.example.com" (Some ["Site"; "Rack"]))
       [] (host_extattrs_lookup ipam "a.example.com")
       (NotFound ("No requested attribute found: " ++ a')))
  /\
  get_network_extattrs (appliance (ok_list [JObj with_attrs]) down) ipam
                       "10.0.1.0/24" None [] =
    (Ok (JObj [("Site", JStr "Lab"); ("Owner", JStr "ops")]),
     [network_extattrs_lookup ipam "10.0.1.0/24"]).
Proof.
  pose proof (extattrs_read (appliance (ok_list [JObj with_attrs]) down) ipam
                [] (ok_list [JObj with_attrs]) with_attrs site_attrs
                with_attrs_found eq_refl site_attrs_wrapped
                site_attrs_distinct) as [Hhost [_ [_ Hnet]]].
  split.
  - apply (Hhost "a.example.com" ["Site"; "Rack"] "Rack").
    + reflexivity.
    + right. now left.
    + reflexivity.
  - apply (Hnet "10.0.1.0/24" None); [reflexivity | now left].
Defined.

(** C9, witness: ["Site"] is requested from a network that has it. *)
Lemma get_network_extattrs_requested_returns_none_witness :
  get_network_extattrs (appliance (ok_list [JObj with_attrs]) down) ipam
                       "10.0.1.0/24" (Some ["Site"]) [] =
    (Ok JNull, [network_extattrs_lookup ipam "10.0.1.0/24"]).
Proof.
  apply (get_network_extattrs_requested_returns_none
           (appliance (ok_list [JObj with_attrs]) down) ipam "10.0.1.0/24"
           ["Site"] [] (ok_list [JObj with_attrs]) with_attrs site_attrs).
  - reflexivity.
  - exact with_attrs_found.
  - reflexivity.
  - exact site_attrs_wrapped.
  - discriminate.
  - intros a [<-|[]]. reflexivity.
Defined.

(** C10, witness: ["Rack"] is to be set on a network that has ["Site"] and
    ["Owner"]. *)
Lemma update_network_extattrs_cannot_add_witness :
  exists a', In a' ["Site"; "Rack"] /\ has_key a' site_attrs = false /\
    stops_with
      (update_network_extattrs (appliance (ok_list [JObj with_attrs]) done)
                               json_dumps ipam "10.0.1.0/24"
                               [("Site", JStr "HQ"); ("Rack", JStr "12")])
      [] (network_extattrs_lookup ipam "10.0.1.0/24")
      (KeyError (JStr a')).
Proof.
  apply (update_network_extattrs_cannot_add
           (appliance (ok_list [JObj with_attrs]) done) json_dumps ipam
           "10.0.1.0/24" [("Site", JStr "HQ"); ("Rack", JStr "12")] "Rack" []
           (ok_list [JObj with_attrs]) with_attrs (JStr other_network_ref)
           site_attrs).
  - reflexivity.
  - exact with_attrs_found.
  - reflexivity.
  - reflexivity.
  - reflexivity.
  - exact site_attrs_objects.
  - right. now left.
  - reflexivity.
Defined.

(** *** Runs on which the code departs from the specification *)

(** C2: [delete_fixed_address(..., not_found_fail=False)] when the lookup
    answers 200 with an empty list.  No DELETE is issued, but the outcome
    is neither [InfobloxNotFoundException] nor [None]: the [None] returned
    by the lookup is subscripted and [TypeError] is raised. *)
Theorem delete_fixed_address_no_match_flag_off :
  delete_fixed_address (appliance (ok_list []) done) py_repr ipam
                       "10.0.0.5" "aa:bb:cc:dd:ee:ff" false [] =
    (Raise TypeError,
     [fixed_address_lookup ipam "10.0.0.5" "aa:bb:cc:dd:ee:ff"])
  /\
  existsb is_mutation
    (snd (delete_fixed_address (appliance (ok_list []) done) py_repr ipam
                               "10.0.0.5" "aa:bb:cc:dd:ee:ff" false []))
  = false.
Proof. split; vm_compute; reflexivity. Qed.

(** C3: the network (the container) is found and the allocation call is
    answered with status 400 and the exhaustion body.  [Session.request]
    raises [HTTPError] for the status, so neither
    [InfobloxNoIPavailableException] nor
    [InfobloxNoNetworkAvailableException] is raised. *)
Theorem exhaustion_surfaces_as_http_error :
  fst (get_next_available_ip
         (appliance (ok_list [network_10])
                    (Replied (mkResponse 400 (Some exhausted))))
         ipam "10.0.0.0/24" [])
    = Raise (HTTPError 400)
  /\
  fst (get_next_available_network
         (appliance (ok_list [container_10])
                    (Replied (mkResponse 400 (Some exhausted))))
         py_repr ipam "10.0.0.0/8" 24 [])
    = Raise (HTTPError 400).
Proof. split; vm_compute; reflexivity. Qed.

(** C4: the lookup of [update_cname_record] answers 200 with two records.
    Nothing is raised: the function returns [None] after the lookup, and
    no PUT is issued. *)
Theorem update_cname_record_two_matches_silent :
  update_cname_record (appliance (ok_list [cname_1; cname_2]) done)
                      json_dumps ipam "c.example.com" "www.example.com" [] =
    (Ok JNull, [cname_update_lookup json_dumps ipam "www.example.com"]).
Proof. vm_compute. reflexivity. Qed.

(** C5: with [not_found_fail=False] and no fixed address on the appliance,
    [get_fixed_address] returns [None] and [delete_fixed_address], which
    calls it, raises [TypeError]. *)
Theorem delete_fixed_address_flag_off_raises :
  fst (get_fixed_address (appliance (ok_list []) done) ipam
                         "10.0.0.5" "aa:bb:cc:dd:ee:ff" None false [])
    = Ok JNull
  /\
  fst (delete_fixed_address (appliance (ok_list []) done) py_repr ipam
                            "10.0.0.5" "aa:bb:cc:dd:ee:ff" false [])
    = Raise TypeError.
Proof. split; vm_compute; reflexivity. Qed.

(** C8: the host [b.example.com] has the alias list [["www.example.com"]]
    and the alias [ftp.example.com] is to be deleted.  [list.remove] raises
    [ValueError], and the function raises [InfobloxGeneralException] with
    the lookup response, not [InfobloxNotFoundException]. *)
Theorem delete_host_alias_absent_from_list :
  delete_host_alias (appliance (ok_list [host_b]) done) json_dumps ipam
                    "b.example.com" "ftp.example.com" [] =
    (Raise (InfobloxGeneralException (PResp (ok_list [host_b]))),
     [host_aliases_lookup ipam "b.example.com"]).
Proof. vm_compute. reflexivity. Qed.

(** C6: the address [10.0.0.5] followed by a newline is none of the three
    forms [a.b.c.d], [a.b.c.d/n] and [a.b.c.d-e.f.g.h], yet it passes the
    validation, because [$] also matches before a final newline: the POST
    is issued with the newline in the address, and the caller gets what the
    appliance answers, not [InfobloxBadInputParameter]. *)
Theorem create_host_record_accepts_trailing_newline :
  ~ (dotted_quad address_with_newline \/ cidr_form address_with_newline \/
     range_form address_with_newline)
  /\ create_host_record (appliance bad_request down) json_dumps ipam
                        address_with_newline "c.example.com" None [] =
       (Raise (HTTPError 400),
        [host_create_request json_dumps ipam
           (host_payload ipam "c.example.com" address_with_newline)]).
Proof.
  split.
  - intros H. apply forms_use_address_chars in H. vm_compute in H.
    discriminate H.
  - vm_compute. reflexivity.
Qed.

(** *** Runs of the summaries *)

Lemma lookup_without_match_stops_witness :
  stops_with
    (delete_host_record (appliance (ok_list []) down) ipam "a.example.com")
    [] (host_lookup ipam "a.example.com")
    (NotFound ("No requested host found: " ++ "a.example.com")).
Proof.
  refine (proj1 (lookup_without_match_stops (appliance (ok_list []) down)
                   json_dumps py_repr ipam [] (ok_list []) _)
                "a.example.com" _).
  - split; reflexivity.
  - reflexivity.
Defined.

Lemma allocation_returns_first_unit_witness :
  get_next_available_ip (appliance (ok_list [network_10]) (Replied allocated_ip))
                        ipam "10.0.0.0/24" [] =
    (Ok (JStr "10.0.0.7"),
     [network_lookup ipam "10.0.0.0/24"; next_ip_call ipam network_10_ref]).
Proof.
  refine (proj1 (allocation_returns_first_unit
                   (appliance (ok_list [network_10]) (Replied allocated_ip))
                   py_repr ipam [] (ok_list [network_10]) _ network_10_ref
                   allocated_ip _ _ _ _ _)
                "10.0.0.0/24" (JStr "10.0.0.7") [] _ _ _).
  - split; [reflexivity | exists []; reflexivity].
  - reflexivity.
  - reflexivity.
  - reflexivity.
  - reflexivity.
  - reflexivity.
  - reflexivity.
Defined.

Lemma update_cname_record_one_or_none_witness :
  update_cname_record (appliance (ok_list [cname_1]) done) json_dumps ipam
                      "c.example.com" "www.example.com" [] =
    (Ok JNull,
     [cname_update_lookup json_dumps ipam "www.example.com";
      mkRequest PUT ((base_url ipam ++ "/") ++ cname_1_ref) []
        (TextData ("{" ++ dq ++ "canonical" ++ dq ++ ": " ++
                   json_dumps (JStr "c.example.com") ++ "}"))]).
Proof.
  refine (proj1 (update_cname_record_one_or_none
                   (appliance (ok_list [cname_1]) done) json_dumps ipam
                   "c.example.com" "www.example.com" [] (ok_list [cname_1])
                   _ _)
                _ cname_1_ref (mkResponse 200 None) _ _ _ _).
  - reflexivity.
  - reflexivity.
  - reflexivity.
  - reflexivity.
  - reflexivity.
  - reflexivity.
Defined.

Lemma delete_host_alias_no_aliases_witness :
  stops_with
    (delete_host_alias (appliance (ok_list [host_plain]) done) json_dumps ipam
                       "b.example.com" "www.example.com")
    [] (host_aliases_lookup ipam "b.example.com")
    (NotFound ("No requested host alias found: " ++ "www.example.com")).
Proof.
  refine (delete_host_alias_no_aliases
            (appliance (ok_list [host_plain]) done) json_dumps ipam
            "b.example.com" "www.example.com" [] (ok_list [host_plain])
            _ host_b_ref _ _ _ _ _).
  - reflexivity.
  - split; [reflexivity | exists []; reflexivity].
  - reflexivity.
  - reflexivity.
  - reflexivity.
Defined.

Lemma absence_sentinel_for_no_match_only_witness :
  returns_none
    (get_host (appliance (ok_list []) down) ipam "a.example.com" None false)
    []
    (util_request ipam "record:host"
       (Some [("name", JStr "a.example.com"); ("view", JStr "default")]) None).
Proof.
  refine (proj1 (proj2 (proj2 (absence_sentinel_for_no_match_only
                                 (appliance (ok_list []) down) ipam [])))
                "a.example.com" None (ok_list []) _ _).
  - reflexivity.
  - split; reflexivity.
Defined.

(** *** Runs of the properties of every call *)

Lemma first_failure_is_raised_unchanged_witness :
  nothing_or_raises (HTTPError 403) []
    (run (appliance forbidden down) json_dumps py_repr ipam
         (Delete_host_record "a.example.com")).
Proof.
  apply (first_failure_is_raised_unchanged
           (appliance forbidden down) json_dumps py_repr ipam []
           (HTTPError 403) (Replied forbidden)).
  - intros q. reflexivity.
  - right. exists forbidden. repeat split; cbn; lia.
Defined.

Lemma unparsable_reply_is_general_witness :
  nothing_or_raises (InfobloxGeneralException (PResp created_without_json)) []
    (run (appliance created_without_json down) json_dumps py_repr ipam
         (Create_network "10.0.0.0/24")).
Proof.
  apply (unparsable_reply_is_general
           (appliance created_without_json down) json_dumps py_repr ipam []
           (InfobloxGeneralException (PResp created_without_json))
           created_without_json).
  - intros q. reflexivity.
  - reflexivity.
  - reflexivity.
  - reflexivity.
  - reflexivity.
Defined.

Lemma filter_is_sent_clause_by_clause_witness :
  snd (get_network_by_extattrs (appliance (ok_list []) down) ipam
                               "Site~=Lab.*,Floor>=2" []) =
    [GET_of "https://ipam.example.com/wapi/v2.5/network?*Site~=Lab.*&*Floor>=2&network_view=default"].
Proof.
  refine (proj1 (filter_is_sent_clause_by_clause
                   (appliance (ok_list []) down) ipam
                   ["Site~=Lab.*"; "Floor>=2"] [] _ _)).
  - discriminate.
  - repeat constructor.
Defined.


Lemma alias_added_then_deleted_restores_the_list_witness :
  snd (add_host_alias (appliance (ok_list [host_b])
                                 (Replied (ok_list [host_b_aliased])))
                      json_dumps ipam "b.example.com" "ftp.example.com" []) =
    [host_aliases_lookup ipam "b.example.com";
     aliases_put json_dumps ipam host_b_ref
                 [JStr "www.example.com"; JStr "ftp.example.com"]]
  /\ snd (delete_host_alias (appliance (ok_list [host_b])
                                       (Replied (ok_list [host_b_aliased])))
                            json_dumps ipam "b.example.com" "ftp.example.com"
                            [host_aliases_lookup ipam "b.example.com"]) =
       [host_aliases_lookup ipam "b.example.com";
        host_aliases_lookup ipam "b.example.com";
        aliases_put json_dumps ipam host_b_ref [JStr "www.example.com"]].
Proof.
  destruct (alias_added_then_deleted_restores_the_list
              (appliance (ok_list [host_b])
                         (Replied (ok_list [host_b_aliased])))
              json_dumps ipam "b.example.com" "ftp.example.com" host_b_ref
              [JStr "www.example.com"]
              [] (ok_list [host_b])
              [host_aliases_lookup ipam "b.example.com"]
              (ok_list [host_b_aliased]))
    as [Hadd Hdel].
  - reflexivity.
  - exists [("_ref", JStr host_b_ref); ("name", JStr "b.example.com");
            ("aliases", JArr [JStr "www.example.com"])].
    repeat split; try reflexivity. now exists [].
  - reflexivity.
  - exists [("_ref", JStr host_b_ref); ("name", JStr "b.example.com");
            ("aliases", JArr [JStr "www.example.com";
                              JStr "ftp.example.com"])].
    repeat split; try reflexivity. now exists [].
  - split; [exact Hadd | exact (Hdel eq_refl)].
Defined.


Lemma with_attrs_object :
  object_with_extattrs (ok_list [JObj with_attrs]) other_network_ref site_attrs.
Proof.
  exists with_attrs. split; [exact with_attrs_found|].
  split; [reflexivity|]. split; [discriminate | reflexivity].
Qed.

Lemma delete_network_extattrs_sends_the_rest_witness :
  snd (delete_network_extattrs (appliance (ok_list [JObj with_attrs]) done)
                               json_dumps ipam "10.0.1.0/24"
                               ["Owner"; "Rack"] []) =
    [network_extattrs_lookup ipam "10.0.1.0/24";
     extattrs_put json_dumps ipam other_network_ref
                  [("Site", JObj [("value", JStr "Lab")])]].
Proof.
  exact (delete_network_extattrs_sends_the_rest
           (appliance (ok_list [JObj with_attrs]) done) json_dumps ipam
           "10.0.1.0/24" ["Owner"; "Rack"] [] (ok_list [JObj with_attrs])
           other_network_ref site_attrs eq_refl with_attrs_object
           site_attrs_distinct).
Defined.

Lemma update_network_extattrs_sends_the_updated_witness :
  snd (update_network_extattrs (appliance (ok_list [JObj with_attrs]) done)
                               json_dumps ipam "10.0.1.0/24"
                               [("Owner", JStr "net")] []) =
    [network_extattrs_lookup ipam "10.0.1.0/24";
     extattrs_put json_dumps ipam other_network_ref
                  [("Site", JObj [("value", JStr "Lab")]);
                   ("Owner", JObj [("value", JStr "net")])]].
Proof.
  refine (update_network_extattrs_sends_the_updated
            (appliance (ok_list [JObj with_attrs]) done) json_dumps ipam
            "10.0.1.0/24" [("Owner", JStr "net")] []
            (ok_list [JObj with_attrs]) other_network_ref site_attrs
            eq_refl with_attrs_object site_attrs_distinct site_attrs_objects
            _ eq_refl).
  repeat constructor. cbn. tauto.
Defined.


Lemma get_host_extattrs_returns_the_requested_witness :
  exists got,
    get_host_extattrs (appliance (ok_list [JObj with_attrs]) down) ipam
                      "b.example.com" (Some ["Owner"]) [] =
      (Ok (JObj got), [host_extattrs_lookup ipam "b.example.com"])
    /\ forall a, assoc a got =
                 if existsb (String.eqb a) ["Owner"]
                 then assoc a (unwrapped site_attrs) else None.
Proof.
  refine (get_host_extattrs_returns_the_requested
            (appliance (ok_list [JObj with_attrs]) down) ipam
            "b.example.com" ["Owner"] [] (ok_list [JObj with_attrs])
            with_attrs site_attrs eq_refl with_attrs_found eq_refl
            site_attrs_wrapped _ _).
  - discriminate.
  - intros a [<-|[]]. reflexivity.
Defined.


Lemma unexpected_status_is_not_reported_witness :
  returns_after_one []
    (run (appliance queued down) json_dumps py_repr ipam
         (Delete_host_record "a.example.com")).
Proof.
  apply (unexpected_status_is_not_reported
           (appliance queued down) json_dumps py_repr ipam []
           queued [("status", JStr "queued")]).
  - intros q. reflexivity.
  - reflexivity.
  - discriminate.
  - discriminate.
  - reflexivity.
  - reflexivity.
  - reflexivity.
Defined.


Lemma update_record_outcome_witness :
  update_record (appliance no_content down) json_dumps ipam host_b
                (JObj [("comment", JStr "lab")]) true [] =
    (Raise (InfobloxNotUpdatedException
              (PMsg ("Failed to update " ++ host_b_ref))),
     [update_request json_dumps ipam host_b_ref
                     (JObj [("comment", JStr "lab")])]).
Proof.
  refine (proj2 (proj2 (update_record_outcome
                          (appliance no_content down) json_dumps ipam host_b
                          (JObj [("comment", JStr "lab")]) host_b_ref
                          eq_refl))
                [] no_content eq_refl eq_refl _).
  discriminate.
Defined.


Lemma delete_fixed_address_outcome_witness :
  exists found_list,
    body (ok_list [fixed_7]) = Some found_list /\
    delete_fixed_address (appliance (ok_list [fixed_7]) (Replied forbidden))
                         py_repr ipam "10.0.0.7" "aa:bb:cc:dd:ee:ff" true [] =
      (Raise (NotFound ("Fixed Address not found for ref: " ++
                        format_s py_repr found_list)),
       [fixed_address_lookup ipam "10.0.0.7" "aa:bb:cc:dd:ee:ff";
        delete_request ipam fixed_7_ref]).
Proof.
  refine (delete_fixed_address_outcome
            (appliance (ok_list [fixed_7]) (Replied forbidden)) py_repr ipam
            "10.0.0.7" "aa:bb:cc:dd:ee:ff" true [] (ok_list [fixed_7])
            [("_ref", JStr fixed_7_ref); ("ipv4addr", JStr "10.0.0.7");
             ("mac", JStr "aa:bb:cc:dd:ee:ff")]
            fixed_7_ref forbidden eq_refl _ eq_refl eq_refl).
  split; [reflexivity | exists []; reflexivity].
Defined.


Lemma create_host_record_sends_and_returns_witness :
  create_host_record (appliance created_host down) json_dumps ipam
                     "10.0.0.0/24" "c.example.com" None [] =
    (Ok (JStr "10.0.0.7"),
     [host_create_request json_dumps ipam
        (host_payload ipam "c.example.com"
                      "func:nextavailableip:10.0.0.0/24")]).
Proof.
  refine (proj1 (create_host_record_sends_and_returns
                   (appliance created_host down) json_dumps ipam
                   "10.0.0.0/24" "c.example.com" None [] created_host
                   [("_ref", JStr "record:host/ZG5zLmhvc3QkLl9kZWZhdWx0:c.example.com/default");
                    ("ipv4addrs",
                     JArr [JObj [("ipv4addr", JStr "10.0.0.7");
                                 ("configure_for_dhcp", JBool false)]])]
                   eq_refl eq_refl eq_refl eq_refl)
                [("ipv4addr", JStr "10.0.0.7");
                 ("configure_for_dhcp", JBool false)]
                [] (JStr "10.0.0.7") _ eq_refl eq_refl).
  right. reflexivity.
Defined.


Lemma validated_read_returns_the_named_record_witness :
  returned_the_named (appliance (ok_list [cname_1]) down)
    "record:cname" "www.example.com" [] (cname_read ipam "www.example.com")
    cname_1 [cname_read ipam "www.example.com"].
Proof.
  exact (proj1 (validated_read_returns_the_named_record
                  (appliance (ok_list [cname_1]) down) ipam
                  "www.example.com" [] cname_1
                  [cname_read ipam "www.example.com"])
               eq_refl).
Defined.


Lemma list_reads_return_every_value_witness :
  get_host_by_regexp (appliance (ok_list [host_b; host_plain]) down) ipam
                     "b.*" [] =
    (Ok (JArr [JStr "b.example.com"; JStr "b.example.com"]),
     [host_regexp_lookup ipam "b.*"]).
Proof.
  refine (proj1 (list_reads_return_every_value
                   (appliance (ok_list [host_b; host_plain]) down) ipam
                   "b.*" [] (ok_list [host_b; host_plain]))
                [host_b; host_plain]
                [JStr "b.example.com"; JStr "b.example.com"]
                eq_refl eq_refl eq_refl _ _).
  - discriminate.
  - repeat constructor; eexists; (split; [reflexivity|]); reflexivity.
Defined.

Lemma get_txt_by_regexp_keeps_the_last_text_witness :
  exists hosts,
    get_txt_by_regexp (appliance (ok_list [txt_1; txt_2]) down) ipam
                      "a.*" [] =
      (Ok (Some hosts), [txt_regexp_lookup ipam "a.*"])
    /\ forall name, py_dict_get name hosts = last_text name [txt_1; txt_2].
Proof.
  refine (get_txt_by_regexp_keeps_the_last_text
            (appliance (ok_list [txt_1; txt_2]) down) ipam
            "a.*" [] (ok_list [txt_1; txt_2]) [txt_1; txt_2]
            eq_refl eq_refl eq_refl _ _).
  - discriminate.
  - repeat constructor; do 3 eexists;
      (split; [reflexivity|]); split; reflexivity.
Defined.


Lemma host_b_found :
  found (ok_list [host_b])
        [("_ref", JStr host_b_ref); ("name", JStr "b.example.com");
         ("aliases", JArr [JStr "www.example.com"])].
Proof. split; [reflexivity | exists []; reflexivity]. Qed.

Lemma found_reads_return_first_or_all_witness :
  get_host (appliance (ok_list [host_b]) down) ipam "b.example.com"
           (Some (FList ["name"; "aliases"])) true [] =
    (Ok host_b,
     [util_request ipam "record:host"
        (Some [("name", JStr "b.example.com"); ("view", JStr "default")])
        (Some (FList ["name"; "aliases"]))]).
Proof.
  destruct (found_reads_return_first_or_all
              (appliance (ok_list [host_b]) down) ipam []
              (ok_list [host_b]) _ host_b_found)
    as [all [_ [_ [Hhost _]]]].
  exact (Hhost "b.example.com" (Some (FList ["name"; "aliases"])) true eq_refl).
Defined.


Lemma extattrs_search_returns_the_fields_present_witness :
  get_network_by_extattrs
    (appliance (ok_list [network_10; host_plain]) down) ipam "Site=Lab" [] =
    (Ok (JArr [JStr "10.0.0.0/24"]), [network_search ipam "Site=Lab"]).
Proof.
  refine (proj1 (extattrs_search_returns_the_fields_present
                   (appliance (ok_list [network_10; host_plain]) down) ipam
                   "Site=Lab" [] (ok_list [network_10; host_plain])
                   [network_10; host_plain] eq_refl eq_refl _ _)
                eq_refl).
  - discriminate.
  - repeat constructor; eexists; reflexivity.
Defined.

End Runs.
